(** * ReasonOS semantic graph: a shallow embedding of the Python pipeline

    The development follows the layout of
    [backend/app/services/semantic_graph]: file discovery and the parser's
    record streams ([parser.py]), the graph builder ([graph_builder.py]),
    the indexer and usage queries ([analyzer.py]), the impact analyzer
    ([impact_analyzer.py]), the failure-mode table ([risk_calculator.py])
    and the orchestrator facade ([orchestrator.py]).

    Python values are modelled as follows.
    - [int] is [Z]; [str] is [string] (bytes; [str.lower] folds ASCII only).
    - [float] is the primitive binary64 type [float].
    - [dict] is an insertion-ordered association list ([Py.dict]); iteration
      over [items()] follows insertion order, as in Python 3.7+.
    - an object stored in a dict and mutated through [get_node] is a value in
      the dict that is written back under its key.
    - an uncaught exception is the [Raise] constructor of [Py.result]. *)

From Corelib Require Import PrimFloat SpecFloat FloatOps.
From Stdlib Require Import ZArith List String Ascii Bool Lia Permutation.
From Stdlib Require Import DecimalString Sorted.
Import ListNotations.

Set Warnings "-inexact-float,-register-all".

Local Open Scope string_scope.
Local Open Scope Z_scope.
Local Open Scope list_scope.

(* ------------------------------------------------------------------ *)
(** ** Python built-ins used by the source *)
(* ------------------------------------------------------------------ *)

Module Py.

(** The double quote character, for literals that contain it. *)
Definition dq : string := String (ascii_of_nat 34) EmptyString.

(** [str(n)] for an [int]. *)
Definition str_of_int (n : Z) : string :=
  NilZero.string_of_int (Z.to_int n).

(** [len(s)] and [len(l)]. *)
Definition len {A} (l : list A) : Z := Z.of_nat (List.length l).

Definition lower_char (c : ascii) : ascii :=
  let n := nat_of_ascii c in
  if (Nat.leb 65 n && Nat.leb n 90)%bool then ascii_of_nat (n + 32) else c.

(** [s.lower()]. *)
Fixpoint lower (s : string) : string :=
  match s with
  | EmptyString => EmptyString
  | String c r => String (lower_char c) (lower r)
  end.

Definition upper_char (c : ascii) : ascii :=
  let n := nat_of_ascii c in
  if (Nat.leb 97 n && Nat.leb n 122)%bool then ascii_of_nat (n - 32) else c.

(** [s.upper()]. *)
Fixpoint upper (s : string) : string :=
  match s with
  | EmptyString => EmptyString
  | String c r => String (upper_char c) (upper r)
  end.

(** [pat in s] for strings. *)
Fixpoint contains (pat s : string) : bool :=
  (String.prefix pat s ||
   match s with
   | EmptyString => false
   | String _ r => contains pat r
   end)%bool.

(** Truth value of a string: only the empty string is falsy. *)
Definition truthy (s : string) : bool :=
  match s with EmptyString => false | _ => true end.

(** [x in l] for a list of strings. *)
Definition mem (x : string) (l : list string) : bool :=
  existsb (String.eqb x) l.

(** [s.split(sep)] for a one-character separator. *)
Fixpoint split (sep : ascii) (s : string) : list string :=
  match s with
  | EmptyString => [EmptyString]
  | String c r =>
      if Ascii.eqb c sep then EmptyString :: split sep r
      else match split sep r with
           | h :: t => String c h :: t
           | [] => [String c EmptyString]
           end
  end.

(** [s.rfind(c)]; [None] stands for Python's [-1]. *)
Fixpoint rfind (c : ascii) (s : string) : option nat :=
  match s with
  | EmptyString => None
  | String a r =>
      match rfind c r with
      | Some i => Some (S i)
      | None => if Ascii.eqb a c then Some O else None
      end
  end.

(** The components of a POSIX [pathlib.PurePath]: empty components and
    [.] are dropped when the path is parsed. *)
Definition path_parts (p : string) : list string :=
  filter (fun c => negb (String.eqb c "" || String.eqb c "."))
         (split "/"%char p).

(** [Path(p).name]: the final component, or the empty string. *)
Definition path_name (p : string) : string :=
  List.last (path_parts p) "".

(** [Path(p).stem]: the name without its last suffix; a leading or a
    trailing dot does not start a suffix. *)
Definition path_stem (p : string) : string :=
  let name := path_name p in
  match rfind "."%char name with
  | Some i =>
      if (Nat.ltb 0 i && Nat.ltb i (String.length name - 1))%bool
      then String.substring 0 i name
      else name
  | None => name
  end.

Definition is_space (c : ascii) : bool :=
  let n := nat_of_ascii c in
  ((Nat.leb 9 n && Nat.leb n 13) || (Nat.leb 28 n && Nat.leb n 32))%bool.

Fixpoint lstrip (s : string) : string :=
  match s with
  | EmptyString => EmptyString
  | String c r => if is_space c then lstrip r else s
  end.

Fixpoint rstrip (s : string) : string :=
  match s with
  | EmptyString => EmptyString
  | String c r =>
      match rstrip r with
      | EmptyString => if is_space c then EmptyString else String c EmptyString
      | r' => String c r'
      end
  end.

(** [s.strip()]. *)
Definition strip (s : string) : string := rstrip (lstrip s).

(** Normalisation of one slice bound against a length. *)
Definition slice_bound (n i : Z) : Z :=
  let j := if i <? 0 then i + n else i in
  Z.max 0 (Z.min n j).

(** [l[start:stop]]. *)
Definition slice {A} (l : list A) (start stop : Z) : list A :=
  let n := len l in
  let a := slice_bound n start in
  let b := slice_bound n stop in
  firstn (Z.to_nat (b - a)) (skipn (Z.to_nat a) l).

(** ['' .join(l)]. *)
Definition join (l : list string) : string :=
  fold_right String.append "" l.

(** *** Insertion-ordered dictionaries with string keys *)

Definition dict (V : Type) : Type := list (string * V).

Definition empty {V} : dict V := [].

(** [d.get(k)]. *)
Fixpoint get {V} (d : dict V) (k : string) : option V :=
  match d with
  | [] => None
  | (k', v) :: r => if String.eqb k k' then Some v else get r k
  end.

(** [d[k] = v]: an existing key keeps its position, a new key goes last. *)
Fixpoint set {V} (d : dict V) (k : string) (v : V) : dict V :=
  match d with
  | [] => [(k, v)]
  | (k', v') :: r =>
      if String.eqb k k' then (k', v) :: r else (k', v') :: set r k v
  end.

(** [d.items()]. *)
Definition items {V} (d : dict V) : list (string * V) := d.

(** [k in d]. *)
Definition has_key {V} (d : dict V) (k : string) : bool :=
  match get d k with Some _ => true | None => false end.

(** [d[k].append(x)] on a [defaultdict(list)]. *)
Definition append_at {V} (d : dict (list V)) (k : string) (x : V)
  : dict (list V) :=
  match get d k with
  | Some l => set d k (l ++ [x])
  | None => set d k [x]
  end.

(** [s.add(x)] on a set of strings kept as a duplicate-free list. *)
Definition set_add (s : list string) (x : string) : list string :=
  if mem x s then s else s ++ [x].

(** [sorted(l, key=key)] and [l.sort(key=key)]: a stable sort. *)
Fixpoint insert_by {A} (key : A -> Z) (x : A) (l : list A) : list A :=
  match l with
  | [] => [x]
  | y :: r => if key x <=? key y then x :: l else y :: insert_by key x r
  end.

Definition sorted_by {A} (key : A -> Z) (l : list A) : list A :=
  fold_right (insert_by key) [] l.

(** *** Floats *)

(** [isfinite(x)]. *)
Definition isfinite (x : float) : bool :=
  negb (PrimFloat.is_nan x || PrimFloat.is_infinity x).

(** The interpreter's summation of floats. Up to CPython 3.11 [sum] adds
    from left to right; from CPython 3.12 on it uses Neumaier's compensated
    summation. *)
Inductive cpython : Type :=
| Before312
| From312.

Definition fsum_naive (l : list float) : float :=
  fold_left PrimFloat.add l PrimFloat.zero.

Definition fsum_neumaier_step (acc : float * float) (x : float)
  : float * float :=
  let '(f_result, c) := acc in
  let t := PrimFloat.add f_result x in
  let c :=
    if PrimFloat.leb (PrimFloat.abs x) (PrimFloat.abs f_result)
    then PrimFloat.add c (PrimFloat.add (PrimFloat.sub f_result t) x)
    else PrimFloat.add c (PrimFloat.add (PrimFloat.sub x t) f_result) in
  (t, c).

Definition fsum_neumaier (l : list float) : float :=
  let '(f_result, c) :=
    fold_left fsum_neumaier_step l (PrimFloat.zero, PrimFloat.zero) in
  if (negb (PrimFloat.is_zero c) && isfinite c)%bool
  then PrimFloat.add f_result c
  else f_result.

(** [sum(l)] for a sequence of floats, with the integer start value 0. *)
Definition fsum (v : cpython) (l : list float) : float :=
  match v with
  | Before312 => fsum_naive l
  | From312 => fsum_neumaier l
  end.

(** The integer nearest to [a / b] for [0 < b], ties to even. *)
Definition div_half_even (a b : Z) : Z :=
  let q := a / b in
  let r := a mod b in
  match 2 * r ?= b with
  | Lt => q
  | Gt => q + 1
  | Eq => if Z.even q then q else q + 1
  end.

(** [round(x, ndigits)] for a float and [ndigits >= 0]. CPython prints the
    exact binary value correctly rounded (half to even) to [ndigits] decimal
    places and reads the decimal string back to the nearest double; a
    non-finite [x], and any [x] when [ndigits] exceeds 323, is returned as
    it is. *)
Definition round_ndigits (x : float) (ndigits : N) : float :=
  if (323 <? ndigits)%N then x else
  match Prim2SF x with
  | S754_finite s m e =>
      let p := 10 ^ Z.of_N ndigits in
      let n :=
        if 0 <=? e then Zpos m * 2 ^ e * p
        else div_half_even (Zpos m * p) (2 ^ (- e)) in
      match n with
      | Zpos n' =>
          SF2Prim (SFdiv prec emax (S754_finite s n' 0)
                         (S754_finite false (Z.to_pos p) 0))
      | _ => if s then PrimFloat.neg_zero else PrimFloat.zero
      end
  | _ => x
  end.

(** The outcome of a call that may raise. *)
Inductive exn : Type :=
| RuntimeError (msg : string)
| ValueError (msg : string)
| OSError (msg : string).

Inductive result (A : Type) : Type :=
| Return (a : A)
| Raise (e : exn).
Arguments Return {A} a.
Arguments Raise {A} e.

(** *** Paths and prefixes *)

(** [s.startswith(prefix)]. *)
Definition startswith (s prefix : string) : bool := String.prefix prefix s.

(** [PurePath.suffix] of a path whose final component is [name]: the part
    from the last dot on; a leading or a trailing dot does not start a
    suffix. *)
Definition name_suffix (name : string) : string :=
  match rfind "."%char name with
  | Some i =>
      if (Nat.ltb 0 i && Nat.ltb i (String.length name - 1))%bool
      then String.substring i (String.length name - i) name
      else ""
  | None => ""
  end.

(** [str(Path(a) / b)] for a normalised absolute POSIX path [a] and a
    directory entry [b]. *)
Definition path_join (a b : string) : string :=
  if String.eqb a "/" then String.append a b
  else String.append a (String.append "/" b).

(** [sep.join(l)]. *)
Definition join_with (sep : string) (l : list string) : string :=
  String.concat sep l.

End Py.


(* ------------------------------------------------------------------ *)
(** ** parser.py: the record streams handed to the graph builder *)
(* ------------------------------------------------------------------ *)

Module Parser.

Inductive FileType : Type :=
| PYTHON | JAVASCRIPT | TYPESCRIPT | JSX | TSX.

Module FunctionDefinition.
Record t : Type := mk {
  name : string;
  file_path : string;
  line_number : Z;
  end_line : Z;
  parameters : list string;
  is_exported : bool;
  is_async : bool;
  decorators : list string;
  docstring : option string
}.
End FunctionDefinition.

Module FunctionCall.
Record t : Type := mk {
  function_name : string;
  file_path : string;
  line_number : Z;
  calling_function : option string;
  arguments_count : Z
}.
End FunctionCall.

Module ImportStatement.
Record t : Type := mk {
  imported_names : list string;
  source_module : string;
  file_path : string;
  line_number : Z;
  is_default_import : bool
}.
End ImportStatement.

Module ExportStatement.
Record t : Type := mk {
  exported_names : list string;
  file_path : string;
  line_number : Z;
  is_default_export : bool
}.
End ExportStatement.

Module ParsedFile.
Record t : Type := mk {
  file_path : string;
  file_type : FileType;
  functions : list FunctionDefinition.t;
  calls : list FunctionCall.t;
  imports : list ImportStatement.t;
  exports : list ExportStatement.t;
  parse_errors : list string
}.
End ParsedFile.

(** [FileType.value]. *)
Definition FileType_value (file_type : FileType) : string :=
  match file_type with
  | PYTHON => "python"
  | JAVASCRIPT => "javascript"
  | TYPESCRIPT => "typescript"
  | JSX => "jsx"
  | TSX => "tsx"
  end.

Module FileInfo.
Record t : Type := mk {
  path : string;
  relative_path : string;
  file_type : FileType;
  size_bytes : Z;
  lines : Z
}.
End FileInfo.

(** What [os.walk] and [_create_file_info] see of a directory: the entries
    that are not directories, in listing order, each with its size in bytes
    and its number of lines when it is a regular file that reads as UTF-8,
    and the subdirectories, in listing order. A symbolic link to a
    directory is not followed and has no entry among the subdirectories. *)
Inductive Directory : Type :=
| Dir (files : list (string * option (Z * Z)))
      (dirs : list (string * Directory)).

(** The dict returned by [get_statistics]. *)
Module DiscoveryStatistics.
Record t : Type := mk {
  total_files : Z;
  by_type : Py.dict Z;
  total_lines : Z;
  total_size_bytes : Z
}.
End DiscoveryStatistics.

Module FileDiscovery.

(** [root_path] is the resolved root, as a string. *)
Record t : Type := mk {
  root_path : string
}.

Definition IGNORED_DIRS : list string :=
  [ "node_modules"; ".git"; ".github"; "build"; "dist"; ".next"; "venv";
    ".venv"; "env"; "__pycache__"; ".pytest_cache"; ".mypy_cache";
    "coverage"; ".idea"; ".vscode"; "vendor"; "target"; "out" ].

Definition FILE_EXTENSIONS : Py.dict FileType :=
  [ (".py", PYTHON); (".js", JAVASCRIPT); (".jsx", JSX);
    (".ts", TYPESCRIPT); (".tsx", TSX) ].

Definition _should_ignore_dir (dirname : string) : bool :=
  (Py.mem dirname IGNORED_DIRS || Py.startswith dirname ".")%bool.

Definition _is_code_file (filename : string) : bool :=
  Py.has_key FILE_EXTENSIONS (Py.name_suffix filename).

(** [_create_file_info(file_path)] for the path with the parts [parts] below
    [root_path]; [content] is what the file system has at that path. Every
    failure, whether the path is no regular file or cannot be read, gives
    [None]. *)
Definition _create_file_info (self : t) (parts : list string)
  (content : option (Z * Z)) : option FileInfo.t :=
  match content with
  | None => None
  | Some (size_bytes, lines) =>
      match Py.get FILE_EXTENSIONS (Py.name_suffix (List.last parts "")) with
      | None => None
      | Some file_type =>
          Some (FileInfo.mk (fold_left Py.path_join parts (root_path self))
                            (Py.join_with "/" parts)
                            file_type size_bytes lines)
      end
  end.

(** The loop of [discover_files] from the directory with the parts [parts]
    below [root_path]: the files of the directory first, then the
    subdirectories that are not pruned, one after the other. *)
Fixpoint _walk (self : t) (parts : list string) (tree : Directory)
  : list FileInfo.t :=
  match tree with
  | Dir files dirs =>
      flat_map
        (fun entry : string * option (Z * Z) =>
           if _is_code_file (fst entry) then
             match _create_file_info self (parts ++ [fst entry])
                                     (snd entry) with
             | Some file_info => [file_info]
             | None => []
             end
           else [])
        files
      ++ flat_map
           (fun entry : string * Directory =>
              let '(dirname, subtree) := entry in
              if _should_ignore_dir dirname then []
              else _walk self (parts ++ [dirname]) subtree)
           dirs
  end.

(** [tree] is the directory at [root_path]. *)
Definition discover_files (self : t) (tree : Directory)
  : list FileInfo.t :=
  _walk self [] tree.

Definition get_statistics (self : t) (files : list FileInfo.t)
  : DiscoveryStatistics.t :=
  let by_type :=
    fold_left
      (fun by_type file_info =>
         let file_type := FileType_value (FileInfo.file_type file_info) in
         let by_type :=
           if Py.has_key by_type file_type then by_type
           else Py.set by_type file_type 0 in
         match Py.get by_type file_type with
         | Some n => Py.set by_type file_type (n + 1)
         | None => by_type
         end)
      files Py.empty in
  DiscoveryStatistics.mk
    (Py.len files) by_type
    (fold_left Z.add (map FileInfo.lines files) 0)
    (fold_left Z.add (map FileInfo.size_bytes files) 0).

End FileDiscovery.

End Parser.

(* ------------------------------------------------------------------ *)
(** ** graph_builder.py: nodes, edges and the six build phases *)
(* ------------------------------------------------------------------ *)

Module Graph.
Import Parser.

Inductive NodeType : Type :=
| FUNCTION | CLASS | FILE | MODULE.

Inductive EdgeType : Type :=
| CALLS | IMPORTS | EXPORTS | DEFINES | CONTAINED_IN.

Definition NodeType_eqb (a b : NodeType) : bool :=
  match a, b with
  | FUNCTION, FUNCTION | CLASS, CLASS | FILE, FILE | MODULE, MODULE => true
  | _, _ => false
  end.

Definition EdgeType_eqb (a b : EdgeType) : bool :=
  match a, b with
  | CALLS, CALLS | IMPORTS, IMPORTS | EXPORTS, EXPORTS
  | DEFINES, DEFINES | CONTAINED_IN, CONTAINED_IN => true
  | _, _ => false
  end.

Module GraphNode.
Record t : Type := mk {
  id : string;
  name : string;
  type : NodeType;
  file_path : string;
  line_number : Z;
  end_line : Z;
  parameters : list string;
  is_exported : bool;
  is_async : bool;
  decorators : list string;
  calls : list string;
  called_by : list string;
  imported_from : option string;
  imported_in : list string
}.

(** [node.calls.append(x)]. *)
Definition calls_append (n : t) (x : string) : t :=
  mk (id n) (name n) (type n) (file_path n) (line_number n) (end_line n)
     (parameters n) (is_exported n) (is_async n) (decorators n)
     (calls n ++ [x]) (called_by n) (imported_from n) (imported_in n).

(** [node.called_by.append(x)]. *)
Definition called_by_append (n : t) (x : string) : t :=
  mk (id n) (name n) (type n) (file_path n) (line_number n) (end_line n)
     (parameters n) (is_exported n) (is_async n) (decorators n)
     (calls n) (called_by n ++ [x]) (imported_from n) (imported_in n).

(** [node.imported_in.append(x)]. *)
Definition imported_in_append (n : t) (x : string) : t :=
  mk (id n) (name n) (type n) (file_path n) (line_number n) (end_line n)
     (parameters n) (is_exported n) (is_async n) (decorators n)
     (calls n) (called_by n) (imported_from n) (imported_in n ++ [x]).
End GraphNode.

Module GraphEdge.
Record t : Type := mk {
  id : string;
  source_id : string;
  target_id : string;
  edge_type : EdgeType;
  file_path : string;
  line_number : Z;
  context : option string
}.
End GraphEdge.

Module CodeGraph.
Record t : Type := mk {
  nodes : Py.dict GraphNode.t;
  edges : list GraphEdge.t;
  total_functions : Z;
  total_files : Z;
  total_calls : Z;
  total_imports : Z
}.

(** [CodeGraph()]. *)
Definition init : t := mk Py.empty [] 0 0 0 0.

Definition with_nodes (g : t) (ns : Py.dict GraphNode.t) : t :=
  mk ns (edges g) (total_functions g) (total_files g) (total_calls g)
     (total_imports g).

Definition add_node (self : t) (node : GraphNode.t) : t :=
  let ns := Py.set (nodes self) (GraphNode.id node) node in
  match GraphNode.type node with
  | FUNCTION =>
      mk ns (edges self) (total_functions self + 1) (total_files self)
         (total_calls self) (total_imports self)
  | FILE =>
      mk ns (edges self) (total_functions self) (total_files self + 1)
         (total_calls self) (total_imports self)
  | _ => with_nodes self ns
  end.

Definition add_edge (self : t) (edge : GraphEdge.t) : t :=
  let es := edges self ++ [edge] in
  match GraphEdge.edge_type edge with
  | CALLS =>
      mk (nodes self) es (total_functions self) (total_files self)
         (total_calls self + 1) (total_imports self)
  | IMPORTS =>
      mk (nodes self) es (total_functions self) (total_files self)
         (total_calls self) (total_imports self + 1)
  | _ =>
      mk (nodes self) es (total_functions self) (total_files self)
         (total_calls self) (total_imports self)
  end.

Definition get_node (self : t) (node_id : string) : option GraphNode.t :=
  Py.get (nodes self) node_id.
End CodeGraph.

Module GraphBuilder.
Local Open Scope string_scope.

Record t : Type := mk {
  storage_type : string;
  graph : CodeGraph.t;
  _function_map : Py.dict string
}.

(** [GraphBuilder(storage_type)]. *)
Definition init (storage_type : string) : t :=
  mk storage_type CodeGraph.init Py.empty.

Definition with_graph (self : t) (g : CodeGraph.t) : t :=
  mk (storage_type self) g (_function_map self).

Definition _make_file_id (file_path : string) : string :=
  "file:" ++ Py.path_name file_path.

Definition _make_function_id (file_path func_name : string) : string :=
  Py.path_stem file_path ++ ":" ++ func_name.

Definition _create_file_node (self : t) (parsed_file : ParsedFile.t) : t :=
  let file_id := _make_file_id (ParsedFile.file_path parsed_file) in
  let node :=
    GraphNode.mk file_id (Py.path_name (ParsedFile.file_path parsed_file))
      FILE (ParsedFile.file_path parsed_file) 1 0
      [] false false [] [] [] None [] in
  with_graph self (CodeGraph.add_node (graph self) node).

(** The body of the loop of [_create_function_nodes]. *)
Definition _create_function_nodes_step
  (self : t) (func_def : FunctionDefinition.t) : t :=
  let node_id :=
    _make_function_id (FunctionDefinition.file_path func_def)
                      (FunctionDefinition.name func_def) in
  let node :=
    GraphNode.mk node_id (FunctionDefinition.name func_def) FUNCTION
      (FunctionDefinition.file_path func_def)
      (FunctionDefinition.line_number func_def)
      (FunctionDefinition.end_line func_def)
      (FunctionDefinition.parameters func_def)
      (FunctionDefinition.is_exported func_def)
      (FunctionDefinition.is_async func_def)
      (FunctionDefinition.decorators func_def)
      [] [] None [] in
  let g := CodeGraph.add_node (graph self) node in
  let fm := Py.set (_function_map self)
                   (FunctionDefinition.name func_def) node_id in
  let file_id := _make_file_id (FunctionDefinition.file_path func_def) in
  let edge :=
    GraphEdge.mk (file_id ++ "->defines->" ++ node_id) file_id node_id
      DEFINES (FunctionDefinition.file_path func_def)
      (FunctionDefinition.line_number func_def) None in
  mk (storage_type self) (CodeGraph.add_edge g edge) fm.

Definition _create_function_nodes
  (self : t) (parsed_file : ParsedFile.t) : t :=
  fold_left _create_function_nodes_step
            (ParsedFile.functions parsed_file) self.

Definition _resolve_function_id
  (self : t) (func_name context_file : string) : option string :=
  let local_id := _make_function_id context_file func_name in
  match CodeGraph.get_node (graph self) local_id with
  | Some _ => Some local_id
  | None => Py.get (_function_map self) func_name
  end.

Definition _resolve_imported_function
  (self : t) (func_name source_module importing_file : string)
  : option string :=
  Py.get (_function_map self) func_name.

(** The body of the loop of [_create_call_edges]. *)
Definition _create_call_edges_step (self : t) (call : FunctionCall.t) : t :=
  let source_id :=
    match FunctionCall.calling_function call with
    | Some cf =>
        if Py.truthy cf
        then _make_function_id (FunctionCall.file_path call) cf
        else _make_file_id (FunctionCall.file_path call)
    | None => _make_file_id (FunctionCall.file_path call)
    end in
  match _resolve_function_id self (FunctionCall.function_name call)
                             (FunctionCall.file_path call) with
  | Some target_id =>
      if (Py.truthy source_id && Py.truthy target_id)%bool then
        let edge_id :=
          source_id ++ "->calls->" ++ target_id ++ "@" ++
          Py.str_of_int (FunctionCall.line_number call) in
        let edge :=
          GraphEdge.mk edge_id source_id target_id CALLS
            (FunctionCall.file_path call)
            (FunctionCall.line_number call) None in
        let g := CodeGraph.add_edge (graph self) edge in
        match CodeGraph.get_node g source_id with
        | Some source_node =>
            if negb (Py.mem target_id (GraphNode.calls source_node)) then
              with_graph self
                (CodeGraph.with_nodes g
                   (Py.set (CodeGraph.nodes g) source_id
                      (GraphNode.calls_append source_node target_id)))
            else with_graph self g
        | None => with_graph self g
        end
      else self
  | None => self
  end.

Definition _create_call_edges (self : t) (parsed_file : ParsedFile.t) : t :=
  fold_left _create_call_edges_step (ParsedFile.calls parsed_file) self.

(** The body of the inner loop of [_create_import_edges]. *)
Definition _create_import_edges_step
  (parsed_file : ParsedFile.t) (imp : ImportStatement.t)
  (self : t) (imported_name : string) : t :=
  let file_id := _make_file_id (ParsedFile.file_path parsed_file) in
  match _resolve_imported_function self imported_name
          (ImportStatement.source_module imp)
          (ParsedFile.file_path parsed_file) with
  | Some target_id =>
      if Py.truthy target_id then
        let edge_id :=
          file_id ++ "->imports->" ++ target_id ++ "@" ++
          Py.str_of_int (ImportStatement.line_number imp) in
        let edge :=
          GraphEdge.mk edge_id file_id target_id IMPORTS
            (ParsedFile.file_path parsed_file)
            (ImportStatement.line_number imp)
            (Some ("from " ++ ImportStatement.source_module imp)) in
        with_graph self (CodeGraph.add_edge (graph self) edge)
      else self
  | None => self
  end.

Definition _create_import_edges (self : t) (parsed_file : ParsedFile.t) : t :=
  fold_left
    (fun self imp =>
       fold_left (_create_import_edges_step parsed_file imp)
                 (ImportStatement.imported_names imp) self)
    (ParsedFile.imports parsed_file) self.

(** The body of the inner loop of [_create_export_edges]. *)
Definition _create_export_edges_step
  (parsed_file : ParsedFile.t) (exp : ExportStatement.t)
  (self : t) (exported_name : string) : t :=
  let file_id := _make_file_id (ParsedFile.file_path parsed_file) in
  let func_id :=
    _make_function_id (ParsedFile.file_path parsed_file) exported_name in
  match CodeGraph.get_node (graph self) func_id with
  | Some _ =>
      let edge_id :=
        file_id ++ "->exports->" ++ func_id ++ "@" ++
        Py.str_of_int (ExportStatement.line_number exp) in
      let edge :=
        GraphEdge.mk edge_id file_id func_id EXPORTS
          (ParsedFile.file_path parsed_file)
          (ExportStatement.line_number exp) None in
      with_graph self (CodeGraph.add_edge (graph self) edge)
  | None => self
  end.

Definition _create_export_edges (self : t) (parsed_file : ParsedFile.t) : t :=
  fold_left
    (fun self exp =>
       fold_left (_create_export_edges_step parsed_file exp)
                 (ExportStatement.exported_names exp) self)
    (ParsedFile.exports parsed_file) self.

(** The body of the loop of [_build_reverse_relationships]; the loop runs
    over the edge list, which it does not change, and updates the nodes. *)
Definition _build_reverse_relationships_step
  (ns : Py.dict GraphNode.t) (edge : GraphEdge.t) : Py.dict GraphNode.t :=
  match GraphEdge.edge_type edge with
  | CALLS =>
      match Py.get ns (GraphEdge.target_id edge) with
      | Some target_node =>
          if negb (Py.mem (GraphEdge.source_id edge)
                          (GraphNode.called_by target_node))
          then Py.set ns (GraphEdge.target_id edge)
                 (GraphNode.called_by_append target_node
                                             (GraphEdge.source_id edge))
          else ns
      | None => ns
      end
  | IMPORTS =>
      match Py.get ns (GraphEdge.target_id edge) with
      | Some target_node =>
          if negb (Py.mem (GraphEdge.file_path edge)
                          (GraphNode.imported_in target_node))
          then Py.set ns (GraphEdge.target_id edge)
                 (GraphNode.imported_in_append target_node
                                               (GraphEdge.file_path edge))
          else ns
      | None => ns
      end
  | _ => ns
  end.

Definition _build_reverse_relationships (self : t) : t :=
  let g := graph self in
  with_graph self
    (CodeGraph.with_nodes g
       (fold_left _build_reverse_relationships_step
                  (CodeGraph.edges g) (CodeGraph.nodes g))).

(** [build_graph] leaves its result in [self.graph] and returns it; the
    model returns the builder, whose [graph] field is the returned graph. *)
Definition build_graph (self : t) (parsed_files : list ParsedFile.t) : t :=
  let self := fold_left _create_file_node parsed_files self in
  let self := fold_left _create_function_nodes parsed_files self in
  let self := fold_left _create_call_edges parsed_files self in
  let self := fold_left _create_import_edges parsed_files self in
  let self := fold_left _create_export_edges parsed_files self in
  _build_reverse_relationships self.

End GraphBuilder.

End Graph.

(* ------------------------------------------------------------------ *)
(** ** analyzer.py: indexes and usage queries *)
(* ------------------------------------------------------------------ *)

Module Analyzer.
Import Graph.

Inductive UsageType : Type :=
| DEFINITION | EXPORT | IMPORT | CALL | TEST.

Module UsageLocation.
Record t : Type := mk {
  usage_type : UsageType;
  file_path : string;
  line_number : Z;
  context : string;
  containing_function : option string
}.
End UsageLocation.

Module UsageReport.
Record t : Type := mk {
  function_name : string;
  node_id : string;
  definition : option UsageLocation.t;
  exports : list UsageLocation.t;
  imports : list UsageLocation.t;
  calls : list UsageLocation.t;
  tests : list UsageLocation.t;
  total_usages : Z;
  files_affected : list string
}.

Definition with_total_usages (r : t) (n : Z) : t :=
  mk (function_name r) (node_id r) (definition r) (exports r) (imports r)
     (calls r) (tests r) n (files_affected r).
End UsageReport.

Module GraphIndexes.
Record t : Type := mk {
  function_usages : Py.dict (list UsageLocation.t);
  file_functions : Py.dict (list string);
  function_calls : Py.dict (list string);
  function_called_by : Py.dict (list string);
  exported_functions : Py.dict string;
  imported_functions : Py.dict (list (string * string))
}.

(** [GraphIndexes()]. *)
Definition init : t :=
  mk Py.empty Py.empty Py.empty Py.empty Py.empty Py.empty.
End GraphIndexes.

Module CodeAnalyzer.

Record t : Type := mk {
  graph : CodeGraph.t;
  indexes : GraphIndexes.t;
  _source_code_cache : Py.dict (list string)
}.

(** [CodeAnalyzer(graph)]. *)
Definition init (graph : CodeGraph.t) : t :=
  mk graph GraphIndexes.init Py.empty.

Definition with_indexes (self : t) (ix : GraphIndexes.t) : t :=
  mk (graph self) ix (_source_code_cache self).

Definition with_cache (self : t) (c : Py.dict (list string)) : t :=
  mk (graph self) (indexes self) c.

Definition _build_file_functions_index (self : t) : t :=
  fold_left
    (fun self (item : string * GraphNode.t) =>
       let '(node_id, node) := item in
       match GraphNode.type node with
       | FUNCTION =>
           let ix := indexes self in
           with_indexes self
             (GraphIndexes.mk
                (GraphIndexes.function_usages ix)
                (Py.append_at (GraphIndexes.file_functions ix)
                              (GraphNode.file_path node) node_id)
                (GraphIndexes.function_calls ix)
                (GraphIndexes.function_called_by ix)
                (GraphIndexes.exported_functions ix)
                (GraphIndexes.imported_functions ix))
       | _ => self
       end)
    (Py.items (CodeGraph.nodes (graph self))) self.

Definition _build_call_indexes (self : t) : t :=
  fold_left
    (fun self edge =>
       match GraphEdge.edge_type edge with
       | CALLS =>
           let ix := indexes self in
           with_indexes self
             (GraphIndexes.mk
                (GraphIndexes.function_usages ix)
                (GraphIndexes.file_functions ix)
                (Py.append_at (GraphIndexes.function_calls ix)
                   (GraphEdge.source_id edge) (GraphEdge.target_id edge))
                (Py.append_at (GraphIndexes.function_called_by ix)
                   (GraphEdge.target_id edge) (GraphEdge.source_id edge))
                (GraphIndexes.exported_functions ix)
                (GraphIndexes.imported_functions ix))
       | _ => self
       end)
    (CodeGraph.edges (graph self)) self.

Definition _build_export_import_indexes (self : t) : t :=
  fold_left
    (fun self (item : string * GraphNode.t) =>
       let '(node_id, node) := item in
       if (NodeType_eqb (GraphNode.type node) FUNCTION
           && GraphNode.is_exported node)%bool then
         let ix := indexes self in
         with_indexes self
           (GraphIndexes.mk
              (GraphIndexes.function_usages ix)
              (GraphIndexes.file_functions ix)
              (GraphIndexes.function_calls ix)
              (GraphIndexes.function_called_by ix)
              (Py.set (GraphIndexes.exported_functions ix)
                      (GraphNode.name node) node_id)
              (GraphIndexes.imported_functions ix))
       else self)
    (Py.items (CodeGraph.nodes (graph self))) self.

Section FileSystem.

(** [open(path, 'r', encoding='utf-8').readlines()]: the lines of the file,
    each with its line terminator, or [None] when the call raises. The file
    system is not written to while the indexes are built. *)
Variable readlines : string -> option (list string).

Definition _get_code_context
  (self : t) (file_path : string) (line_number : Z)
  (lines_before lines_after : Z) : t * string :=
  let loaded :=
    match Py.get (_source_code_cache self) file_path with
    | Some lines => Some (self, lines)
    | None =>
        match readlines file_path with
        | Some lines =>
            Some (with_cache self
                    (Py.set (_source_code_cache self) file_path lines),
                  lines)
        | None => None
        end
    end in
  match loaded with
  | None => (self, "")
  | Some (self, lines) =>
      let start_idx := Z.max 0 (line_number - 1 - lines_before) in
      let end_idx := Z.min (Py.len lines) (line_number + lines_after) in
      (self, Py.strip (Py.join (Py.slice lines start_idx end_idx)))
  end.

(** [usages.append(UsageLocation(..., context=self._get_code_context(...)))]
    for a usage found at an edge. *)
Definition _append_edge_usage
  (usage_type : UsageType) (containing_function : option string)
  (acc : t * list UsageLocation.t) (edge : GraphEdge.t)
  : t * list UsageLocation.t :=
  let '(self, usages) := acc in
  let '(self, context) :=
    _get_code_context self (GraphEdge.file_path edge)
                      (GraphEdge.line_number edge) 0 0 in
  (self,
   usages ++ [UsageLocation.mk usage_type (GraphEdge.file_path edge)
                (GraphEdge.line_number edge) context containing_function]).

(** Loop 2 of [_build_usage_index]: EXPORT locations. *)
Definition _export_usages
  (node_id : string) (acc : t * list UsageLocation.t)
  : t * list UsageLocation.t :=
  fold_left
    (fun acc edge =>
       if (String.eqb (GraphEdge.target_id edge) node_id
           && EdgeType_eqb (GraphEdge.edge_type edge) EXPORTS)%bool
       then _append_edge_usage EXPORT None acc edge
       else acc)
    (CodeGraph.edges (graph (fst acc))) acc.

(** Loop 3 of [_build_usage_index]: IMPORT locations. *)
Definition _import_usages
  (node_id : string) (node : GraphNode.t) (acc : t * list UsageLocation.t)
  : t * list UsageLocation.t :=
  fold_left
    (fun acc import_file =>
       fold_left
         (fun acc edge =>
            if (String.eqb (GraphEdge.target_id edge) node_id
                && EdgeType_eqb (GraphEdge.edge_type edge) IMPORTS
                && String.eqb (GraphEdge.file_path edge) import_file)%bool
            then _append_edge_usage IMPORT None acc edge
            else acc)
         (CodeGraph.edges (graph (fst acc))) acc)
    (GraphNode.imported_in node) acc.

(** Loop 4 of [_build_usage_index]: CALL and TEST locations. *)
Definition _call_usages
  (node_id : string) (acc : t * list UsageLocation.t)
  : t * list UsageLocation.t :=
  fold_left
    (fun acc edge =>
       if (String.eqb (GraphEdge.target_id edge) node_id
           && EdgeType_eqb (GraphEdge.edge_type edge) CALLS)%bool
       then
         let containing_func :=
           match CodeGraph.get_node (graph (fst acc))
                                    (GraphEdge.source_id edge) with
           | Some source_node => Some (GraphNode.name source_node)
           | None => None
           end in
         let is_test :=
           Py.contains "test" (Py.lower (GraphEdge.file_path edge)) in
         let usage_type := if is_test then TEST else CALL in
         _append_edge_usage usage_type containing_func acc edge
       else acc)
    (CodeGraph.edges (graph (fst acc))) acc.

(** The body of the loop of [_build_usage_index] for one item of
    [graph.nodes.items()]. *)
Definition _build_usage_index_step
  (self : t) (item : string * GraphNode.t) : t :=
  let '(node_id, node) := item in
  match GraphNode.type node with
  | FUNCTION =>
      let '(self, context) :=
        _get_code_context self (GraphNode.file_path node)
                          (GraphNode.line_number node) 0 0 in
      let definition_usage :=
        UsageLocation.mk DEFINITION (GraphNode.file_path node)
          (GraphNode.line_number node) context None in
      let acc := (self, [definition_usage]) in
      let acc := _export_usages node_id acc in
      let acc := _import_usages node_id node acc in
      let '(self, usages) := _call_usages node_id acc in
      let ix := indexes self in
      with_indexes self
        (GraphIndexes.mk
           (Py.set (Py.set (GraphIndexes.function_usages ix)
                           (GraphNode.name node) usages)
                   node_id usages)
           (GraphIndexes.file_functions ix)
           (GraphIndexes.function_calls ix)
           (GraphIndexes.function_called_by ix)
           (GraphIndexes.exported_functions ix)
           (GraphIndexes.imported_functions ix))
  | _ => self
  end.

Definition _build_usage_index (self : t) : t :=
  fold_left _build_usage_index_step
            (Py.items (CodeGraph.nodes (graph self))) self.

Definition create_indexes (self : t) : t :=
  let self := _build_file_functions_index self in
  let self := _build_call_indexes self in
  let self := _build_usage_index self in
  _build_export_import_indexes self.

End FileSystem.

Definition _get_node_id_by_name (self : t) (function_name : string)
  : option string :=
  Py.get (GraphIndexes.exported_functions (indexes self)) function_name.

(** The body of the categorising loop of [find_all_usages]. *)
Definition _categorize
  (report : UsageReport.t) (usage : UsageLocation.t) : UsageReport.t :=
  let files :=
    Py.set_add (UsageReport.files_affected report)
               (UsageLocation.file_path usage) in
  let r := report in
  match UsageLocation.usage_type usage with
  | DEFINITION =>
      UsageReport.mk (UsageReport.function_name r) (UsageReport.node_id r)
        (Some usage) (UsageReport.exports r) (UsageReport.imports r)
        (UsageReport.calls r) (UsageReport.tests r)
        (UsageReport.total_usages r) files
  | EXPORT =>
      UsageReport.mk (UsageReport.function_name r) (UsageReport.node_id r)
        (UsageReport.definition r) (UsageReport.exports r ++ [usage])
        (UsageReport.imports r) (UsageReport.calls r) (UsageReport.tests r)
        (UsageReport.total_usages r) files
  | IMPORT =>
      UsageReport.mk (UsageReport.function_name r) (UsageReport.node_id r)
        (UsageReport.definition r) (UsageReport.exports r)
        (UsageReport.imports r ++ [usage]) (UsageReport.calls r)
        (UsageReport.tests r) (UsageReport.total_usages r) files
  | CALL =>
      UsageReport.mk (UsageReport.function_name r) (UsageReport.node_id r)
        (UsageReport.definition r) (UsageReport.exports r)
        (UsageReport.imports r) (UsageReport.calls r ++ [usage])
        (UsageReport.tests r) (UsageReport.total_usages r) files
  | TEST =>
      UsageReport.mk (UsageReport.function_name r) (UsageReport.node_id r)
        (UsageReport.definition r) (UsageReport.exports r)
        (UsageReport.imports r) (UsageReport.calls r)
        (UsageReport.tests r ++ [usage]) (UsageReport.total_usages r) files
  end.

Definition find_all_usages (self : t) (function_name : string)
  : option UsageReport.t :=
  match Py.get (GraphIndexes.function_usages (indexes self))
               function_name with
  | None => None
  | Some [] => None
  | Some usages =>
      let node_id :=
        match _get_node_id_by_name self function_name with
        | Some i => if Py.truthy i then i else ""
        | None => ""
        end in
      let report :=
        UsageReport.mk function_name node_id None [] [] [] [] 0 [] in
      let report := fold_left _categorize usages report in
      Some (UsageReport.with_total_usages report (Py.len usages))
  end.

Definition get_callers (self : t) (function_name : string) : list string :=
  match _get_node_id_by_name self function_name with
  | Some node_id =>
      if Py.truthy node_id then
        match Py.get (GraphIndexes.function_called_by (indexes self))
                     node_id with
        | Some l => l
        | None => []
        end
      else []
  | None => []
  end.

Definition get_calls (self : t) (function_name : string) : list string :=
  match _get_node_id_by_name self function_name with
  | Some node_id =>
      if Py.truthy node_id then
        match Py.get (GraphIndexes.function_calls (indexes self))
                     node_id with
        | Some l => l
        | None => []
        end
      else []
  | None => []
  end.

Definition get_function_details (self : t) (function_name : string)
  : option GraphNode.t :=
  match _get_node_id_by_name self function_name with
  | Some node_id =>
      if Py.truthy node_id then CodeGraph.get_node (graph self) node_id
      else None
  | None => None
  end.

Definition get_functions_in_file (self : t) (file_path : string)
  : list string :=
  match Py.get (GraphIndexes.file_functions (indexes self)) file_path with
  | Some l => l
  | None => []
  end.

End CodeAnalyzer.

End Analyzer.

(* ------------------------------------------------------------------ *)
(** ** impact_analyzer.py: module tiers and the risk score *)
(* ------------------------------------------------------------------ *)

Module Impact.
Import Graph Analyzer.
Local Open Scope string_scope.

Inductive CriticalityLevel : Type :=
| CRITICAL_PATH | SECONDARY | TERTIARY | NON_CRITICAL.

Inductive RiskLevel : Type :=
| LOW | MEDIUM | HIGH | CRITICAL.

Definition UsageType_eqb (a b : UsageType) : bool :=
  match a, b with
  | DEFINITION, DEFINITION | EXPORT, EXPORT | IMPORT, IMPORT
  | CALL, CALL | TEST, TEST => true
  | _, _ => false
  end.

Module ModuleUsage.
Record t : Type := mk {
  module_name : string;
  file_path : string;
  criticality : CriticalityLevel;
  definition_count : Z;
  export_count : Z;
  import_count : Z;
  call_count : Z;
  usages : list UsageLocation.t;
  risk_description : string;
  impact_description : string
}.

Definition total_usages (self : t) : Z := Py.len (usages self).
End ModuleUsage.

Module RiskScore.
Record t : Type := mk {
  critical_path_usages : Z;
  secondary_usages : Z;
  tertiary_usages : Z;
  non_critical_usages : Z;
  total_score : Z;
  risk_level : RiskLevel;
  critical_points : Z;
  secondary_points : Z;
  tertiary_points : Z;
  non_critical_points : Z
}.

(** [RiskScore()]. *)
Definition init : t := mk 0 0 0 0 0 LOW 0 0 0 0.

Definition calculate (self : t) : t :=
  let critical_points := critical_path_usages self * 10 in
  let secondary_points := secondary_usages self * 5 in
  let tertiary_points := tertiary_usages self * 2 in
  let non_critical_points := non_critical_usages self * 1 in
  let total_score :=
    critical_points + secondary_points + tertiary_points
    + non_critical_points in
  let risk_level :=
    if (101 <=? total_score)%Z then CRITICAL
    else if (51 <=? total_score)%Z then HIGH
    else if (21 <=? total_score)%Z then MEDIUM
    else LOW in
  mk (critical_path_usages self) (secondary_usages self)
     (tertiary_usages self) (non_critical_usages self)
     total_score risk_level
     critical_points secondary_points tertiary_points non_critical_points.
End RiskScore.

Module ImpactReport.
Record t : Type := mk {
  function_name : string;
  change_description : string;
  modules : list ModuleUsage.t;
  risk_score : RiskScore.t;
  revenue_impact_low : string;
  revenue_impact_high : string;
  affected_users : string;
  recovery_time : string;
  total_usages : Z;
  total_files : Z
}.
End ImpactReport.

Module ImpactAnalyzer.

Record t : Type := mk {
  analyzer : CodeAnalyzer.t
}.

(** The class attribute, in the order of the dict literal. *)
Definition MODULE_PATTERNS : Py.dict CriticalityLevel :=
  [ ("checkout", CRITICAL_PATH);
    ("payment", CRITICAL_PATH);
    ("auth", CRITICAL_PATH);
    ("billing", CRITICAL_PATH);
    ("invoice", SECONDARY);
    ("report", SECONDARY);
    ("email", SECONDARY);
    ("notification", SECONDARY);
    ("util", TERTIARY);
    ("helper", TERTIARY);
    ("validate", TERTIARY);
    ("format", TERTIARY);
    ("test", NON_CRITICAL);
    ("spec", NON_CRITICAL);
    ("mock", NON_CRITICAL);
    ("fixture", NON_CRITICAL) ].

Definition _determine_criticality (file_path file_name : string)
  : CriticalityLevel :=
  let file_path_lower := Py.lower file_path in
  let file_name_lower := Py.lower file_name in
  match
    find (fun item : string * CriticalityLevel =>
            (Py.contains (fst item) file_path_lower
             || Py.contains (fst item) file_name_lower)%bool)
         (Py.items MODULE_PATTERNS)
  with
  | Some (_, criticality) => criticality
  | None => SECONDARY
  end.

Definition _generate_risk_description
  (criticality : CriticalityLevel) (module_name : string) (usage_count : Z)
  : string :=
  match criticality with
  | CRITICAL_PATH =>
      "🔴 HIGH - Core " ++ module_name ++
      " logic. If broken: Users can't complete transactions. Impact: Revenue loss"
  | SECONDARY =>
      "🟡 MEDIUM - " ++ module_name ++
      " functionality. If broken: Feature degradation. Impact: User experience affected"
  | TERTIARY =>
      "🟢 LOW - Helper " ++ module_name ++
      ". If broken: Minor issues. Impact: Edge cases affected"
  | NON_CRITICAL =>
      "⚪ NONE - " ++ module_name ++
      " (tests/dev). If broken: No user impact. Impact: Development only"
  end.

Definition _generate_impact_description
  (criticality : CriticalityLevel) (module_name : string) : string :=
  match criticality with
  | CRITICAL_PATH =>
      "ALL users affected. Transactions blocked. Revenue loss: $50K-$500K/hour"
  | SECONDARY =>
      "Some users affected. Feature unavailable. Business impact: moderate"
  | TERTIARY =>
      "Few users affected. Edge case failures. Business impact: minimal"
  | NON_CRITICAL => "Developers affected. No customer impact."
  end.

(** [sum(1 for u in usages if u.usage_type == ty)]. *)
Definition _count_type (ty : UsageType) (usages : list UsageLocation.t) : Z :=
  Py.len (filter (fun u => UsageType_eqb (UsageLocation.usage_type u) ty)
                 usages).

Definition _create_module_usage
  (file_path : string) (usages : list UsageLocation.t) : ModuleUsage.t :=
  let file_name := Py.path_stem file_path in
  let criticality := _determine_criticality file_path file_name in
  let definition_count := _count_type DEFINITION usages in
  let export_count := _count_type EXPORT usages in
  let import_count := _count_type IMPORT usages in
  let call_count := _count_type CALL usages in
  let risk_desc :=
    _generate_risk_description criticality file_name (Py.len usages) in
  let impact_desc := _generate_impact_description criticality file_name in
  ModuleUsage.mk (Py.upper file_name ++ " MODULE") file_path criticality
    definition_count export_count import_count call_count usages
    risk_desc impact_desc.

Definition criticality_order (c : CriticalityLevel) : Z :=
  match c with
  | CRITICAL_PATH => 0
  | SECONDARY => 1
  | TERTIARY => 2
  | NON_CRITICAL => 3
  end.

Definition _categorize_by_module (usage_report : UsageReport.t)
  : list ModuleUsage.t :=
  let modules_by_file : Py.dict (list UsageLocation.t) := Py.empty in
  let modules_by_file :=
    match UsageReport.definition usage_report with
    | Some d => Py.append_at modules_by_file (UsageLocation.file_path d) d
    | None => modules_by_file
    end in
  let modules_by_file :=
    fold_left
      (fun d usage_list =>
         fold_left
           (fun d usage =>
              Py.append_at d (UsageLocation.file_path usage) usage)
           usage_list d)
      [ UsageReport.exports usage_report; UsageReport.imports usage_report;
        UsageReport.calls usage_report; UsageReport.tests usage_report ]
      modules_by_file in
  let modules :=
    map (fun item : string * list UsageLocation.t =>
           _create_module_usage (fst item) (snd item))
        (Py.items modules_by_file) in
  Py.sorted_by (fun m => criticality_order (ModuleUsage.criticality m))
               modules.

(** The body of the loop of [_calculate_risk_score]. *)
Definition _calculate_risk_score_step
  (score : RiskScore.t) (module : ModuleUsage.t) : RiskScore.t :=
  let usage_count := ModuleUsage.total_usages module in
  let s := score in
  match ModuleUsage.criticality module with
  | CRITICAL_PATH =>
      RiskScore.mk (RiskScore.critical_path_usages s + usage_count)
        (RiskScore.secondary_usages s) (RiskScore.tertiary_usages s)
        (RiskScore.non_critical_usages s) (RiskScore.total_score s)
        (RiskScore.risk_level s) (RiskScore.critical_points s)
        (RiskScore.secondary_points s) (RiskScore.tertiary_points s)
        (RiskScore.non_critical_points s)
  | SECONDARY =>
      RiskScore.mk (RiskScore.critical_path_usages s)
        (RiskScore.secondary_usages s + usage_count)
        (RiskScore.tertiary_usages s)
        (RiskScore.non_critical_usages s) (RiskScore.total_score s)
        (RiskScore.risk_level s) (RiskScore.critical_points s)
        (RiskScore.secondary_points s) (RiskScore.tertiary_points s)
        (RiskScore.non_critical_points s)
  | TERTIARY =>
      RiskScore.mk (RiskScore.critical_path_usages s)
        (RiskScore.secondary_usages s)
        (RiskScore.tertiary_usages s + usage_count)
        (RiskScore.non_critical_usages s) (RiskScore.total_score s)
        (RiskScore.risk_level s) (RiskScore.critical_points s)
        (RiskScore.secondary_points s) (RiskScore.tertiary_points s)
        (RiskScore.non_critical_points s)
  | NON_CRITICAL =>
      RiskScore.mk (RiskScore.critical_path_usages s)
        (RiskScore.secondary_usages s) (RiskScore.tertiary_usages s)
        (RiskScore.non_critical_usages s + usage_count)
        (RiskScore.total_score s)
        (RiskScore.risk_level s) (RiskScore.critical_points s)
        (RiskScore.secondary_points s) (RiskScore.tertiary_points s)
        (RiskScore.non_critical_points s)
  end.

Definition _calculate_risk_score (modules : list ModuleUsage.t)
  : RiskScore.t :=
  RiskScore.calculate
    (fold_left _calculate_risk_score_step modules RiskScore.init).

Definition _is_critical (m : ModuleUsage.t) : bool :=
  match ModuleUsage.criticality m with CRITICAL_PATH => true | _ => false end.

Definition _assess_business_impact
  (report : ImpactReport.t) (modules : list ModuleUsage.t)
  (risk_score : RiskScore.t) : ImpactReport.t :=
  let critical_modules := filter _is_critical modules in
  let set4 (lo hi users rec : string) :=
    ImpactReport.mk (ImpactReport.function_name report)
      (ImpactReport.change_description report)
      (ImpactReport.modules report) (ImpactReport.risk_score report)
      lo hi users rec
      (ImpactReport.total_usages report) (ImpactReport.total_files report) in
  match critical_modules with
  | _ :: _ =>
      set4 "$50K/hour" "$500K/hour" "ALL users (100% of transactions)"
           "3-6 hours"
  | [] =>
      match RiskScore.risk_level risk_score with
      | HIGH =>
          set4 "$10K/hour" "$100K/hour"
               "Many users (30-70% of transactions)" "1-3 hours"
      | MEDIUM =>
          set4 "$1K/hour" "$20K/hour"
               "Some users (10-30% of transactions)" "0.5-2 hours"
      | _ =>
          set4 "$0/hour" "$5K/hour" "Few users or developers only"
               "0.5-1 hour"
      end
  end.

Definition assess_change_impact
  (self : t) (function_name change_description : string)
  : option ImpactReport.t :=
  match CodeAnalyzer.find_all_usages (analyzer self) function_name with
  | None => None
  | Some usage_report =>
      let modules := _categorize_by_module usage_report in
      let risk_score := _calculate_risk_score modules in
      let report :=
        ImpactReport.mk function_name change_description modules risk_score
          "" "" "" ""
          (UsageReport.total_usages usage_report)
          (Py.len (UsageReport.files_affected usage_report)) in
      Some (_assess_business_impact report modules risk_score)
  end.

End ImpactAnalyzer.

End Impact.

(* ------------------------------------------------------------------ *)
(** ** risk_calculator.py: the failure-mode table *)
(* ------------------------------------------------------------------ *)

Module Risk.
Local Open Scope string_scope.
Local Open Scope float_scope.

Inductive FailureMode : Type :=
| MISSED_USAGE
| INCONSISTENT_RENAME
| TYPE_MISMATCH
| TEST_FAILURE
| DOCUMENTATION_SYNC.

Inductive DetectionMethod : Type :=
| SEMANTIC_GRAPH | TYPE_CHECKER | TESTS | BUILD_SYSTEM | MANUAL_REVIEW.

Definition FailureMode_eqb (a b : FailureMode) : bool :=
  match a, b with
  | MISSED_USAGE, MISSED_USAGE
  | INCONSISTENT_RENAME, INCONSISTENT_RENAME
  | TYPE_MISMATCH, TYPE_MISMATCH
  | TEST_FAILURE, TEST_FAILURE
  | DOCUMENTATION_SYNC, DOCUMENTATION_SYNC => true
  | _, _ => false
  end.

Module FailureModeAnalysis.
Record t : Type := mk {
  mode : FailureMode;
  name : string;
  probability_percent : float;
  probability_label : string;
  impact_description : string;
  symptom : string;
  detection_method : DetectionMethod;
  recovery_time_minutes : Z;
  probability_with_graph : float;
  probability_without_graph : float
}.
End FailureModeAnalysis.

Module MitigationStrategy.
Record t : Type := mk {
  failure_mode : FailureMode;
  strategy : string;
  effectiveness_percent : float
}.
End MitigationStrategy.

Module RiskAssessment.
Record t : Type := mk {
  function_name : string;
  change_type : string;
  failure_modes : list FailureModeAnalysis.t;
  mitigations : list MitigationStrategy.t;
  success_rate_percent : float
}.
End RiskAssessment.

Module RiskCalculator.

(** The class has no attributes. *)
Record t : Type := mk { }.

Definition _analyze_missed_usage : FailureModeAnalysis.t :=
  FailureModeAnalysis.mk MISSED_USAGE "Missed a usage location"
    0.01 "LOW" "Code breaks at that location"
    ("Runtime error " ++ Py.dq ++ "function is not defined" ++ Py.dq)
    TESTS 30%Z 0.01 30.0.

Definition _analyze_inconsistent_rename : FailureModeAnalysis.t :=
  FailureModeAnalysis.mk INCONSISTENT_RENAME "Inconsistent renaming"
    0.05 "LOW" "Some files renamed, others not"
    (Py.dq ++ "function is not defined" ++ Py.dq ++ " in some modules")
    TESTS 2%Z 0.01 30.0.

Definition _analyze_type_mismatch : FailureModeAnalysis.t :=
  FailureModeAnalysis.mk TYPE_MISMATCH "Type system mismatch"
    2.0 "MEDIUM" "Type checker reports errors"
    (Py.dq ++ "function is not assigned to type X" ++ Py.dq)
    TYPE_CHECKER 30%Z 0.01 30.0.

Definition _analyze_test_failure : FailureModeAnalysis.t :=
  FailureModeAnalysis.mk TEST_FAILURE "Test expectations wrong"
    0.5 "LOW" "Tests reference old function name"
    (Py.dq ++ "function is not defined" ++ Py.dq ++ " in tests")
    TESTS 10%Z 0.01 30.0.

Definition _analyze_documentation_sync : FailureModeAnalysis.t :=
  FailureModeAnalysis.mk DOCUMENTATION_SYNC "Documentation out of sync"
    50.0 "HIGH" "Documentation still references old name"
    "Developer confusion"
    MANUAL_REVIEW 30%Z 0.01 30.0.

Definition _generate_mitigations : list MitigationStrategy.t :=
  [ MitigationStrategy.mk MISSED_USAGE
      "Use semantic graph to find ALL usages before changing" 99.99;
    MitigationStrategy.mk INCONSISTENT_RENAME
      "Semantic graph ensures all locations updated atomically" 99.95;
    MitigationStrategy.mk TYPE_MISMATCH
      "Run TypeScript type checker before deployment" 98.0;
    MitigationStrategy.mk TEST_FAILURE
      "Execute full test suite in sandbox before approval" 99.5;
    MitigationStrategy.mk DOCUMENTATION_SYNC
      "Human approval process reviews docs during code review" 50.0 ]%list.

Definition _calculate_success_rate
  (v : Py.cpython) (failure_modes : list FailureModeAnalysis.t) : float :=
  let technical_modes :=
    filter (fun fm =>
              negb (FailureMode_eqb (FailureModeAnalysis.mode fm)
                                    DOCUMENTATION_SYNC))
           failure_modes in
  let total_failure_probability :=
    Py.fsum v (map FailureModeAnalysis.probability_percent technical_modes) in
  let success_rate := 100.0 - total_failure_probability in
  Py.round_ndigits success_rate 2.

(** [v] is the interpreter the calculator runs on. *)
Definition calculate_failure_modes
  (v : Py.cpython) (self : t) (function_name change_type : string)
  : RiskAssessment.t :=
  let failure_modes :=
    [ _analyze_missed_usage;
      _analyze_inconsistent_rename;
      _analyze_type_mismatch;
      _analyze_test_failure;
      _analyze_documentation_sync ]%list in
  let mitigations := _generate_mitigations in
  RiskAssessment.mk function_name change_type failure_modes mitigations
    (_calculate_success_rate v failure_modes).

End RiskCalculator.

End Risk.

(* ------------------------------------------------------------------ *)
(** ** orchestrator.py: the facade and its two states *)
(* ------------------------------------------------------------------ *)

Module Orchestrator.
Import Parser Graph Analyzer Impact Risk.
Local Open Scope string_scope.

(** The [stats] dict; [time_taken_seconds] is wall-clock time and is left
    out, as are the [file_discovery] and [parser] attributes of the
    orchestrator, which hold the I/O components behind
    [discover_and_parse]. *)
Module Stats.
Record t : Type := mk {
  files_discovered : Z;
  files_parsed : Z;
  functions_found : Z;
  edges_created : Z
}.
End Stats.

(** The dict returned by [get_complete_analysis]: either the one-key error
    dict or the combined report. *)
Inductive CompleteAnalysis : Type :=
| AnalysisError (error : string)
| Analysis (function_name change_description : string)
           (usage_report : UsageReport.t)
           (impact_assessment : option ImpactReport.t)
           (risk_analysis : RiskAssessment.t)
           (statistics : Stats.t).

Module SemanticGraphOrchestrator.

Record t : Type := mk {
  repository_path : string;
  graph_builder : option GraphBuilder.t;
  graph : option CodeGraph.t;
  analyzer : option CodeAnalyzer.t;
  impact_analyzer : option ImpactAnalyzer.t;
  risk_calculator : option RiskCalculator.t;
  stats : Stats.t
}.

(** [SemanticGraphOrchestrator(repository_path)]. *)
Definition init (repository_path : string) : t :=
  mk repository_path None None None None None (Stats.mk 0 0 0 0).

Definition not_built {A} : Py.result A :=
  Py.Raise (Py.RuntimeError "Graph not built. Call build_graph() first.").

Section Pipeline.

(** Steps 1 and 2, [_discover_files] followed by [_parse_files]: the parsed
    files of a repository in discovery order, or the [ValueError] that
    [FileDiscovery] raises for a path that is not a directory. *)
Variable discover_and_parse : string -> Py.result (list ParsedFile.t).

(** The file system as read by the indexer for snippets. *)
Variable readlines : string -> option (list string).

(** The interpreter the orchestrator runs on. *)
Variable v : Py.cpython.

(** [graph_builder.save_to_json(output_path)] on the file system: [None]
    when the dump of the graph is written, [Some e] when [open] or
    [json.dump] raises [e]. *)
Variable save_to_json : string -> CodeGraph.t -> option Py.exn.

(** [build_graph(storage_path)]: the new state and the returned graph, or
    the exception raised. An exception leaves the state as it is when it is
    raised: file discovery raises before anything is assigned; the save
    step, taken for a non-empty [storage_path], comes after the graph, the
    indexes and the statistics are assigned, and a save that raises leaves
    them in place. *)
Definition build_graph (self : t) (storage_path : option string)
  : t * Py.result CodeGraph.t :=
  match discover_and_parse (repository_path self) with
  | Py.Raise e => (self, Py.Raise e)
  | Py.Return parsed_files =>
      let functions_count :=
        fold_left Z.add
          (map (fun pf => Py.len (ParsedFile.functions pf)) parsed_files)
          0 in
      let builder :=
        GraphBuilder.build_graph (GraphBuilder.init "json") parsed_files in
      let g := GraphBuilder.graph builder in
      let a := CodeAnalyzer.create_indexes readlines (CodeAnalyzer.init g) in
      let self :=
        mk (repository_path self) (Some builder) (Some g) (Some a)
           (Some (ImpactAnalyzer.mk a)) (Some RiskCalculator.mk)
           (Stats.mk (Py.len parsed_files) (Py.len parsed_files)
                     functions_count (Py.len (CodeGraph.edges g))) in
      let saved :=
        match storage_path with
        | Some path =>
            if Py.truthy path then save_to_json path g else None
        | None => None
        end in
      match saved with
      | Some e => (self, Py.Raise e)
      | None => (self, Py.Return g)
      end
  end.

Definition find_usages (self : t) (function_name : string)
  : Py.result (option UsageReport.t) :=
  match analyzer self with
  | None => not_built
  | Some a => Py.Return (CodeAnalyzer.find_all_usages a function_name)
  end.

Definition assess_change_impact
  (self : t) (function_name change_description : string)
  : Py.result (option ImpactReport.t) :=
  match impact_analyzer self with
  | None => not_built
  | Some ia =>
      Py.Return
        (ImpactAnalyzer.assess_change_impact ia function_name
                                             change_description)
  end.

Definition calculate_risk (self : t) (function_name change_type : string)
  : Py.result RiskAssessment.t :=
  match risk_calculator self with
  | None => not_built
  | Some rc =>
      Py.Return
        (RiskCalculator.calculate_failure_modes v rc function_name
                                                change_type)
  end.

Definition get_complete_analysis
  (self : t) (function_name change_description : string)
  : Py.result CompleteAnalysis :=
  match analyzer self with
  | None => not_built
  | Some _ =>
      match find_usages self function_name with
      | Py.Raise e => Py.Raise e
      | Py.Return None =>
          Py.Return (AnalysisError ("Function not found: " ++ function_name))
      | Py.Return (Some usage_report) =>
          match assess_change_impact self function_name
                                     change_description with
          | Py.Raise e => Py.Raise e
          | Py.Return impact_report =>
              match calculate_risk self function_name "rename" with
              | Py.Raise e => Py.Raise e
              | Py.Return risk_assessment =>
                  Py.Return
                    (Analysis function_name change_description usage_report
                       impact_report risk_assessment (stats self))
              end
          end
      end
  end.

End Pipeline.

(** The state in which the components that answer the queries are unset: no
    [build_graph] call has reached [_create_indexes]. *)
Definition Empty (self : t) : Prop :=
  analyzer self = None /\ impact_analyzer self = None
  /\ risk_calculator self = None.

End SemanticGraphOrchestrator.

End Orchestrator.

(* ================================================================== *)
(** * Vocabulary of the statements *)
(* ================================================================== *)

Import Parser Graph Analyzer Impact Risk Orchestrator.

(* ------------------------------------------------------------------ *)
(** ** Notions of the specification *)
(* ------------------------------------------------------------------ *)

Definition CriticalityLevel_eqb (a b : CriticalityLevel) : bool :=
  match a, b with
  | CRITICAL_PATH, CRITICAL_PATH | SECONDARY, SECONDARY
  | TERTIARY, TERTIARY | NON_CRITICAL, NON_CRITICAL => true
  | _, _ => false
  end.

(** The usage count of a tier: the sum of the usage counts of the modules
    assigned that tier. *)
Fixpoint tier_usages (c : CriticalityLevel) (modules : list ModuleUsage.t)
  : Z :=
  match modules with
  | [] => 0
  | m :: r =>
      (if CriticalityLevel_eqb (ModuleUsage.criticality m) c
       then ModuleUsage.total_usages m else 0) + tier_usages c r
  end.

(** The level the score ranges of the specification give. *)
Definition level_of_score (score : Z) : RiskLevel :=
  if score <=? 20 then LOW
  else if score <=? 50 then MEDIUM
  else if score <=? 100 then HIGH
  else CRITICAL.

(** The four list sizes of a report. *)
Definition list_sizes (r : UsageReport.t) : Z :=
  Py.len (UsageReport.exports r) + Py.len (UsageReport.imports r)
  + Py.len (UsageReport.calls r) + Py.len (UsageReport.tests r).

(** The parser stamps every record with the path of the file it parses. *)
Definition records_in_own_file (files : list ParsedFile.t) : Prop :=
  forall pf, In pf files ->
    (forall d, In d (ParsedFile.functions pf) ->
       FunctionDefinition.file_path d = ParsedFile.file_path pf) /\
    (forall c, In c (ParsedFile.calls pf) ->
       FunctionCall.file_path c = ParsedFile.file_path pf).

(* ------------------------------------------------------------------ *)
(** ** What the builder's steps construct *)
(* ------------------------------------------------------------------ *)

(** The stable ID of a definition. *)
Definition function_id (d : FunctionDefinition.t) : string :=
  GraphBuilder._make_function_id (FunctionDefinition.file_path d)
                                 (FunctionDefinition.name d).

(** The node [_create_function_nodes] builds for a definition. *)
Definition function_node (d : FunctionDefinition.t) : GraphNode.t :=
  GraphNode.mk
    (GraphBuilder._make_function_id (FunctionDefinition.file_path d)
                                    (FunctionDefinition.name d))
    (FunctionDefinition.name d) FUNCTION
    (FunctionDefinition.file_path d) (FunctionDefinition.line_number d)
    (FunctionDefinition.end_line d) (FunctionDefinition.parameters d)
    (FunctionDefinition.is_exported d) (FunctionDefinition.is_async d)
    (FunctionDefinition.decorators d) [] [] None [].

(** All definitions of the parsed files, in the order phase 2 visits them. *)
Definition all_functions (files : list ParsedFile.t)
  : list FunctionDefinition.t :=
  flat_map ParsedFile.functions files.

(** The source ID [_create_call_edges] computes for a call site. *)
Definition call_source_id (call : FunctionCall.t) : string :=
  match FunctionCall.calling_function call with
  | Some cf =>
      if Py.truthy cf
      then GraphBuilder._make_function_id (FunctionCall.file_path call) cf
      else GraphBuilder._make_file_id (FunctionCall.file_path call)
  | None => GraphBuilder._make_file_id (FunctionCall.file_path call)
  end.

(** The edge [_create_function_nodes] emits for a definition. *)
Definition defines_edge (d : FunctionDefinition.t) : GraphEdge.t :=
  let file_id :=
    GraphBuilder._make_file_id (FunctionDefinition.file_path d) in
  GraphEdge.mk
    (String.append file_id (String.append "->defines->" (function_id d)))
    file_id (function_id d) DEFINES (FunctionDefinition.file_path d)
    (FunctionDefinition.line_number d) None.

(** The edge [_create_call_edges] emits for a call site with a resolved
    callee. *)
Definition call_edge (call : FunctionCall.t) (target_id : string)
  : GraphEdge.t :=
  GraphEdge.mk
    (String.append (call_source_id call)
       (String.append "->calls->"
          (String.append target_id
             (String.append "@"
                (Py.str_of_int (FunctionCall.line_number call))))))
    (call_source_id call) target_id CALLS (FunctionCall.file_path call)
    (FunctionCall.line_number call) None.

(** The edge [_create_import_edges] emits for a resolved imported name. *)
Definition import_edge (parsed_file : ParsedFile.t) (imp : ImportStatement.t)
  (target_id : string) : GraphEdge.t :=
  let file_id :=
    GraphBuilder._make_file_id (ParsedFile.file_path parsed_file) in
  GraphEdge.mk
    (String.append file_id
       (String.append "->imports->"
          (String.append target_id
             (String.append "@"
                (Py.str_of_int (ImportStatement.line_number imp))))))
    file_id target_id IMPORTS (ParsedFile.file_path parsed_file)
    (ImportStatement.line_number imp)
    (Some (String.append "from " (ImportStatement.source_module imp))).

(** The edge [_create_export_edges] emits for an exported name that has a
    function node in the same file. *)
Definition export_edge (parsed_file : ParsedFile.t) (exp : ExportStatement.t)
  (exported_name : string) : GraphEdge.t :=
  let file_id :=
    GraphBuilder._make_file_id (ParsedFile.file_path parsed_file) in
  let func_id :=
    GraphBuilder._make_function_id (ParsedFile.file_path parsed_file)
                                   exported_name in
  GraphEdge.mk
    (String.append file_id
       (String.append "->exports->"
          (String.append func_id
             (String.append "@"
                (Py.str_of_int (ExportStatement.line_number exp))))))
    file_id func_id EXPORTS (ParsedFile.file_path parsed_file)
    (ExportStatement.line_number exp) None.

(** The builder after phases 1 and 2, and after phases 1 to 5. *)
Definition after_phase2 (b : GraphBuilder.t) (files : list ParsedFile.t)
  : GraphBuilder.t :=
  fold_left GraphBuilder._create_function_nodes files
    (fold_left GraphBuilder._create_file_node files b).

Definition after_phase5 (b : GraphBuilder.t) (files : list ParsedFile.t)
  : GraphBuilder.t :=
  fold_left GraphBuilder._create_export_edges files
    (fold_left GraphBuilder._create_import_edges files
       (fold_left GraphBuilder._create_call_edges files
          (after_phase2 b files))).

(* ------------------------------------------------------------------ *)
(** ** Invariants of the graph builder *)
(* ------------------------------------------------------------------ *)

(** Two nodes that agree on everything but their relationship lists. *)
Definition same_definition (n n' : GraphNode.t) : Prop :=
  GraphNode.id n = GraphNode.id n' /\
  GraphNode.name n = GraphNode.name n' /\
  GraphNode.type n = GraphNode.type n' /\
  GraphNode.file_path n = GraphNode.file_path n' /\
  GraphNode.line_number n = GraphNode.line_number n' /\
  GraphNode.end_line n = GraphNode.end_line n' /\
  GraphNode.parameters n = GraphNode.parameters n' /\
  GraphNode.is_exported n = GraphNode.is_exported n' /\
  GraphNode.is_async n = GraphNode.is_async n' /\
  GraphNode.decorators n = GraphNode.decorators n'.

(** Every node of [ns] is still in [ns'], with the same definition. *)
Definition nodes_kept (ns ns' : Py.dict GraphNode.t) : Prop :=
  forall k n, Py.get ns k = Some n ->
  exists n', Py.get ns' k = Some n' /\ same_definition n n'.

(** The invariant of the first five phases of [build_graph]: the name table
    and the edge targets point into the node map, no [called_by] list is
    filled yet, and only Calls edges have a source other than the node of
    their file. *)
Definition graph_ok (ns : Py.dict GraphNode.t) (es : list GraphEdge.t)
  (fm : Py.dict string) : Prop :=
  (forall name id, Py.get fm name = Some id -> Py.has_key ns id = true) /\
  (forall e, In e es -> Py.has_key ns (GraphEdge.target_id e) = true) /\
  (forall k n, Py.get ns k = Some n -> GraphNode.called_by n = []) /\
  (forall e, In e es -> GraphEdge.edge_type e <> CALLS ->
     GraphEdge.source_id e
     = GraphBuilder._make_file_id (GraphEdge.file_path e)).

Definition builder_ok (b : GraphBuilder.t) : Prop :=
  graph_ok (CodeGraph.nodes (GraphBuilder.graph b))
           (CodeGraph.edges (GraphBuilder.graph b))
           (GraphBuilder._function_map b).

(** The node of the file of every edge is in the node map. *)
Definition files_ok (files : list ParsedFile.t) (b : GraphBuilder.t) : Prop :=
  (forall pf, In pf files ->
     Py.has_key (CodeGraph.nodes (GraphBuilder.graph b))
       (GraphBuilder._make_file_id (ParsedFile.file_path pf)) = true) /\
  (forall e, In e (CodeGraph.edges (GraphBuilder.graph b)) ->
     Py.has_key (CodeGraph.nodes (GraphBuilder.graph b))
       (GraphBuilder._make_file_id (GraphEdge.file_path e)) = true).

(** The invariant of phases 2 to 5 for given parsed files. *)
Definition state_ok (files : list ParsedFile.t) (b : GraphBuilder.t) : Prop :=
  builder_ok b /\ (records_in_own_file files -> files_ok files b).

(** A step of phases 3 to 6: the nodes keep their definitions, and the name
    table and the function counter do not change. *)
Definition extends (b b' : GraphBuilder.t) : Prop :=
  nodes_kept (CodeGraph.nodes (GraphBuilder.graph b))
             (CodeGraph.nodes (GraphBuilder.graph b')) /\
  GraphBuilder._function_map b' = GraphBuilder._function_map b /\
  CodeGraph.total_functions (GraphBuilder.graph b')
  = CodeGraph.total_functions (GraphBuilder.graph b).

(** The [called_by] list stored under a key, empty for a missing key. *)
Definition called_by_of (ns : Py.dict GraphNode.t) (k : string)
  : list string :=
  match Py.get ns k with
  | Some n => GraphNode.called_by n
  | None => []
  end.

(* ------------------------------------------------------------------ *)
(** ** Invariants of the indexer *)
(* ------------------------------------------------------------------ *)

(** The shape of a list of the usage table: one definition, first. *)
Definition usages_shape (l : list UsageLocation.t) : Prop :=
  exists d rest,
    l = d :: rest /\ UsageLocation.usage_type d = DEFINITION /\
    Forall (fun u => UsageLocation.usage_type u <> DEFINITION) rest.

(** What the three edge loops of [_build_usage_index] keep: the indexes and
    the graph of the analyzer, and the shape of the usage list. *)
Definition loop_keeps (self : CodeAnalyzer.t)
  (acc : CodeAnalyzer.t * list UsageLocation.t) : Prop :=
  CodeAnalyzer.indexes (fst acc) = CodeAnalyzer.indexes self /\
  CodeAnalyzer.graph (fst acc) = CodeAnalyzer.graph self /\
  usages_shape (snd acc).

(** What [_build_usage_index] keeps: the graph and every index but the
    usage table, whose lists all start with their only definition. *)
Definition usage_index_ok (self0 self : CodeAnalyzer.t) : Prop :=
  CodeAnalyzer.graph self = CodeAnalyzer.graph self0 /\
  GraphIndexes.exported_functions (CodeAnalyzer.indexes self)
  = GraphIndexes.exported_functions (CodeAnalyzer.indexes self0) /\
  forall k l,
    Py.get (GraphIndexes.function_usages (CodeAnalyzer.indexes self)) k
    = Some l -> usages_shape l.

(* ------------------------------------------------------------------ *)
(** ** Scenarios *)
(* ------------------------------------------------------------------ *)

(** A function definition at a line of a file, with default attributes. *)
Definition def_at (name file_path : string) (line : Z) (exported : bool)
  : FunctionDefinition.t :=
  FunctionDefinition.mk name file_path line line [] exported false [] None.

(** A repository without readable sources, for snippet extraction. *)
Definition no_sources (path : string) : option (list string) := None.

(** Scenario A: [calc.py] defines [a] and [b], and [b] calls [a]. *)
Definition scenario_a_files : list ParsedFile.t :=
  [ ParsedFile.mk "/repo/calc.py" PYTHON
      [ def_at "a" "/repo/calc.py" 1 true;
        def_at "b" "/repo/calc.py" 2 true ]
      [ FunctionCall.mk "a" "/repo/calc.py" 2 (Some "b") 0 ]
      [] [] [] ].

Definition scenario_a_graph : CodeGraph.t :=
  GraphBuilder.graph
    (GraphBuilder.build_graph (GraphBuilder.init "json") scenario_a_files).

Definition scenario_a_analyzer : CodeAnalyzer.t :=
  CodeAnalyzer.create_indexes no_sources (CodeAnalyzer.init scenario_a_graph).

(** Two files define [f]: [a.py] at module level, where [g] calls it, and
    [b.py] in a nested position, together with the nested [h] that the
    module-level [k] calls. *)
Definition shadow_files : list ParsedFile.t :=
  [ ParsedFile.mk "/repo/a.py" PYTHON
      [ def_at "f" "/repo/a.py" 1 true; def_at "g" "/repo/a.py" 3 true ]
      [ FunctionCall.mk "f" "/repo/a.py" 4 (Some "g") 0 ] [] [] [];
    ParsedFile.mk "/repo/b.py" PYTHON
      [ def_at "f" "/repo/b.py" 2 false; def_at "h" "/repo/b.py" 5 false;
        def_at "k" "/repo/b.py" 8 true ]
      [ FunctionCall.mk "h" "/repo/b.py" 9 (Some "k") 0 ] [] [] [] ].

Definition shadow_graph : CodeGraph.t :=
  GraphBuilder.graph
    (GraphBuilder.build_graph (GraphBuilder.init "json") shadow_files).

Definition shadow_analyzer : CodeAnalyzer.t :=
  CodeAnalyzer.create_indexes no_sources (CodeAnalyzer.init shadow_graph).

(** [pricing.py] defines [price]; the test [test_total] in
    [test_checkout.py] calls it. *)
Definition checkout_test_files : list ParsedFile.t :=
  [ ParsedFile.mk "/repo/pricing.py" PYTHON
      [ def_at "price" "/repo/pricing.py" 1 true ] [] [] [] [];
    ParsedFile.mk "/repo/test_checkout.py" PYTHON
      [ def_at "test_total" "/repo/test_checkout.py" 4 true ]
      [ FunctionCall.mk "price" "/repo/test_checkout.py" 5
          (Some "test_total") 0 ] [] [] [] ].

Definition checkout_test_analyzer : CodeAnalyzer.t :=
  CodeAnalyzer.create_indexes no_sources
    (CodeAnalyzer.init
       (GraphBuilder.graph
          (GraphBuilder.build_graph (GraphBuilder.init "json")
                                    checkout_test_files))).

(** Three definitions of [a]: two files with the stem [calc], then a third
    file. *)
Definition collision_files : list ParsedFile.t :=
  [ ParsedFile.mk "/repo/x/calc.py" PYTHON
      [ def_at "a" "/repo/x/calc.py" 1 true ] [] [] [] [];
    ParsedFile.mk "/repo/y/calc.py" PYTHON
      [ def_at "a" "/repo/y/calc.py" 7 true ] [] [] [] [];
    ParsedFile.mk "/repo/other.py" PYTHON
      [ def_at "a" "/repo/other.py" 3 true ] [] [] [] [] ].

Definition collision_builder : GraphBuilder.t :=
  GraphBuilder.build_graph (GraphBuilder.init "json") collision_files.

(** [a.js] holds [function f() {}] and, at module level,
    [const total = f();]: the parser reports [total] as the enclosing
    function of the call, and no function [total] is defined. *)
Definition dangling_files : list ParsedFile.t :=
  [ ParsedFile.mk "/repo/a.js" JAVASCRIPT
      [ def_at "f" "/repo/a.js" 1 false ]
      [ FunctionCall.mk "f" "/repo/a.js" 3 (Some "total") 0 ] [] [] [] ].

Definition dangling_graph : CodeGraph.t :=
  GraphBuilder.graph
    (GraphBuilder.build_graph (GraphBuilder.init "json") dangling_files).

(* ------------------------------------------------------------------ *)
(** ** Relationship lists and counters of the built graph *)
(* ------------------------------------------------------------------ *)

(** The node [_create_file_node] builds for a parsed file. *)
Definition file_node (pf : ParsedFile.t) : GraphNode.t :=
  GraphNode.mk
    (GraphBuilder._make_file_id (ParsedFile.file_path pf))
    (Py.path_name (ParsedFile.file_path pf)) FILE
    (ParsedFile.file_path pf) 1 0 [] false false [] [] [] None [].

(** The number of edges of a kind in an edge list. *)
Definition count_edges (ty : EdgeType) (es : list GraphEdge.t) : Z :=
  Py.len (filter (fun e => EdgeType_eqb (GraphEdge.edge_type e) ty) es).

(** The counters of calls and imports agree with the edge list. *)
Definition counted (g : CodeGraph.t) : Prop :=
  CodeGraph.total_calls g = count_edges CALLS (CodeGraph.edges g) /\
  CodeGraph.total_imports g = count_edges IMPORTS (CodeGraph.edges g).

(** The [calls] and [imported_in] lists stored under a key, empty for a
    missing key. *)
Definition calls_of (ns : Py.dict GraphNode.t) (k : string) : list string :=
  match Py.get ns k with
  | Some n => GraphNode.calls n
  | None => []
  end.

Definition imported_in_of (ns : Py.dict GraphNode.t) (k : string)
  : list string :=
  match Py.get ns k with
  | Some n => GraphNode.imported_in n
  | None => []
  end.

(** The invariant of phases 1 and 2: no relationship list is filled and
    every edge is a Defines edge. *)
Definition fresh_links (b : GraphBuilder.t) : Prop :=
  (forall k n,
     Py.get (CodeGraph.nodes (GraphBuilder.graph b)) k = Some n ->
     GraphNode.calls n = [] /\ GraphNode.imported_in n = []) /\
  (forall e, In e (CodeGraph.edges (GraphBuilder.graph b)) ->
     GraphEdge.edge_type e = DEFINES).

(** The invariant of phases 3 to 5: [imported_in] is not filled yet, and the
    [calls] list of a node holds, once each, the targets of the Calls edges
    that leave it. *)
Definition links_ok (b : GraphBuilder.t) : Prop :=
  let ns := CodeGraph.nodes (GraphBuilder.graph b) in
  let es := CodeGraph.edges (GraphBuilder.graph b) in
  (forall k n, Py.get ns k = Some n -> GraphNode.imported_in n = []) /\
  (forall k n, Py.get ns k = Some n -> NoDup (GraphNode.calls n)) /\
  (forall k n t, Py.get ns k = Some n ->
     (In t (GraphNode.calls n) <->
      exists e, In e es /\ GraphEdge.edge_type e = CALLS /\
                GraphEdge.source_id e = k /\ GraphEdge.target_id e = t)).

(** The IDs under which [build_graph] puts a node: the ID of a parsed file
    and the stable ID of a definition. *)
Definition is_node_id (files : list ParsedFile.t) (k : string) : Prop :=
  (exists pf,
     In pf files /\
     k = GraphBuilder._make_file_id (ParsedFile.file_path pf)) \/
  (exists d, In d (all_functions files) /\ k = function_id d).

(** Scenario B: [checkout.js] exports [calculatePrice]; [payment.js] imports
    it and calls it twice from [pay]. *)
Definition import_files : list ParsedFile.t :=
  [ ParsedFile.mk "/repo/checkout.js" JAVASCRIPT
      [ FunctionDefinition.mk "calculatePrice" "/repo/checkout.js" 2 4
          ["items"] true false [] None ]
      [] []
      [ ExportStatement.mk ["calculatePrice"] "/repo/checkout.js" 2 false ]
      [];
    ParsedFile.mk "/repo/payment.js" JAVASCRIPT
      [ FunctionDefinition.mk "pay" "/repo/payment.js" 3 6
          ["cart"] false false [] None ]
      [ FunctionCall.mk "calculatePrice" "/repo/payment.js" 4 (Some "pay") 0;
        FunctionCall.mk "calculatePrice" "/repo/payment.js" 5 (Some "pay") 0 ]
      [ ImportStatement.mk ["calculatePrice"] "./checkout" "/repo/payment.js"
          1 false ]
      [] [] ].

(** The edges of a kind, in the order of the edge list. *)
Definition edges_of_type (ty : EdgeType) (es : list GraphEdge.t)
  : list GraphEdge.t :=
  filter (fun e => EdgeType_eqb (GraphEdge.edge_type e) ty) es.

(** All call sites of the parsed files, in the order phase 3 visits them. *)
Definition all_calls (files : list ParsedFile.t) : list FunctionCall.t :=
  flat_map ParsedFile.calls files.

(** The edge of a call site whose callee resolves in the builder state [b];
    none when the callee is not found. *)
Definition call_edge_if_resolved (b : GraphBuilder.t) (call : FunctionCall.t)
  : list GraphEdge.t :=
  match GraphBuilder._resolve_function_id b
          (FunctionCall.function_name call) (FunctionCall.file_path call) with
  | Some target => [call_edge call target]
  | None => []
  end.

(** The same, with the test of [_create_call_edges] that both IDs are
    non-empty strings. *)
Definition resolved_call_edge (b : GraphBuilder.t) (call : FunctionCall.t)
  : list GraphEdge.t :=
  match GraphBuilder._resolve_function_id b
          (FunctionCall.function_name call) (FunctionCall.file_path call) with
  | Some target =>
      if (Py.truthy (call_source_id call) && Py.truthy target)%bool
      then [call_edge call target] else []
  | None => []
  end.

(** Two builder states that resolve every callee alike: the same keys in
    the node map and the same name table. *)
Definition same_resolution (b b' : GraphBuilder.t) : Prop :=
  (forall k,
     Py.has_key (CodeGraph.nodes (GraphBuilder.graph b')) k
     = Py.has_key (CodeGraph.nodes (GraphBuilder.graph b)) k) /\
  GraphBuilder._function_map b' = GraphBuilder._function_map b.

(** A definition in one file and a call to it from an earlier file. *)
Definition forward_files : list ParsedFile.t :=
  [ ParsedFile.mk "/repo/app.py" PYTHON
      [ def_at "main" "/repo/app.py" 1 true ]
      [ FunctionCall.mk "helper" "/repo/app.py" 2 (Some "main") 0;
        FunctionCall.mk "print" "/repo/app.py" 3 (Some "main") 0 ]
      [] [] [];
    ParsedFile.mk "/repo/lib.py" PYTHON
      [ def_at "helper" "/repo/lib.py" 1 true ] [] [] [] [] ].

(** The edge of an imported name that the name table of the builder state
    [b] knows; none for an unknown name. The module the name is imported
    from plays no part. *)
Definition import_edge_if_named (b : GraphBuilder.t)
  (parsed_file : ParsedFile.t) (imp : ImportStatement.t)
  (imported_name : string) : list GraphEdge.t :=
  match Py.get (GraphBuilder._function_map b) imported_name with
  | Some target => [import_edge parsed_file imp target]
  | None => []
  end.

(** The same, with the test of [_create_import_edges] that the target is a
    non-empty string. *)
Definition resolved_import_edge (b : GraphBuilder.t)
  (parsed_file : ParsedFile.t) (imp : ImportStatement.t)
  (imported_name : string) : list GraphEdge.t :=
  match Py.get (GraphBuilder._function_map b) imported_name with
  | Some target =>
      if Py.truthy target then [import_edge parsed_file imp target] else []
  | None => []
  end.

(** The edge of an exported name for which the builder state [b] has a node
    under the stable ID of the exporting file; none otherwise. *)
Definition export_edge_if_defined (b : GraphBuilder.t)
  (parsed_file : ParsedFile.t) (exp : ExportStatement.t)
  (exported_name : string) : list GraphEdge.t :=
  if Py.has_key (CodeGraph.nodes (GraphBuilder.graph b))
       (GraphBuilder._make_function_id (ParsedFile.file_path parsed_file)
                                       exported_name)
  then [export_edge parsed_file exp exported_name]
  else [].

(** The import and export edges of the parsed files, in the order phases 4
    and 5 visit the statements and their names. *)
Definition import_edges_of (b : GraphBuilder.t) (files : list ParsedFile.t)
  : list GraphEdge.t :=
  flat_map
    (fun pf =>
       flat_map
         (fun imp =>
            flat_map (import_edge_if_named b pf imp)
                     (ImportStatement.imported_names imp))
         (ParsedFile.imports pf))
    files.

Definition export_edges_of (b : GraphBuilder.t) (files : list ParsedFile.t)
  : list GraphEdge.t :=
  flat_map
    (fun pf =>
       flat_map
         (fun exp =>
            flat_map (export_edge_if_defined b pf exp)
                     (ExportStatement.exported_names exp))
         (ParsedFile.exports pf))
    files.

(** Two modules define [total]; [cart.js] imports it from [./prices]. *)
Definition homonym_files : list ParsedFile.t :=
  [ ParsedFile.mk "/repo/prices.js" JAVASCRIPT
      [ def_at "total" "/repo/prices.js" 1 true ] [] []
      [ ExportStatement.mk ["total"; "missing"] "/repo/prices.js" 9 false ]
      [];
    ParsedFile.mk "/repo/stats.js" JAVASCRIPT
      [ def_at "total" "/repo/stats.js" 1 true ] [] [] [] [];
    ParsedFile.mk "/repo/cart.js" JAVASCRIPT [] []
      [ ImportStatement.mk ["total"] "./prices" "/repo/cart.js" 1 false ]
      [] [] ].

(* ------------------------------------------------------------------ *)
(** ** The content of the usage index *)
(* ------------------------------------------------------------------ *)

(** A usage without its source snippet. *)
Definition erase_context (u : UsageLocation.t) : UsageLocation.t :=
  UsageLocation.mk (UsageLocation.usage_type u) (UsageLocation.file_path u)
    (UsageLocation.line_number u) "" (UsageLocation.containing_function u).

(** The usage at the place of an edge, without snippet. *)
Definition edge_usage (ty : UsageType) (cf : option string)
  (e : GraphEdge.t) : UsageLocation.t :=
  UsageLocation.mk ty (GraphEdge.file_path e) (GraphEdge.line_number e) ""
                   cf.

(** The edges of a kind that target a node. *)
Definition targets (node_id : string) (ty : EdgeType) (e : GraphEdge.t)
  : bool :=
  (String.eqb (GraphEdge.target_id e) node_id
   && EdgeType_eqb (GraphEdge.edge_type e) ty)%bool.

(** Whether a path is a test path for the indexer. *)
Definition is_test_path (path : string) : bool :=
  Py.contains "test" (Py.lower path).

(** The enclosing function the indexer reports for a Calls edge: the name
    of the source node, when there is one. *)
Definition containing_function_of (g : CodeGraph.t) (e : GraphEdge.t)
  : option string :=
  match CodeGraph.get_node g (GraphEdge.source_id e) with
  | Some source_node => Some (GraphNode.name source_node)
  | None => None
  end.

Definition call_usage (g : CodeGraph.t) (e : GraphEdge.t)
  : UsageLocation.t :=
  edge_usage (if is_test_path (GraphEdge.file_path e) then TEST else CALL)
             (containing_function_of g e) e.

Definition definition_usage (node : GraphNode.t) : UsageLocation.t :=
  UsageLocation.mk DEFINITION (GraphNode.file_path node)
    (GraphNode.line_number node) "" None.

Definition export_usages (g : CodeGraph.t) (node_id : string)
  : list UsageLocation.t :=
  map (edge_usage EXPORT None)
      (filter (targets node_id EXPORTS) (CodeGraph.edges g)).

Definition import_usages (g : CodeGraph.t) (node_id : string)
  (node : GraphNode.t) : list UsageLocation.t :=
  flat_map
    (fun import_file =>
       map (edge_usage IMPORT None)
           (filter (fun e =>
                      (targets node_id IMPORTS e
                       && String.eqb (GraphEdge.file_path e) import_file)%bool)
                   (CodeGraph.edges g)))
    (GraphNode.imported_in node).

Definition call_usages (g : CodeGraph.t) (node_id : string)
  : list UsageLocation.t :=
  map (call_usage g) (filter (targets node_id CALLS) (CodeGraph.edges g)).

(** The usages of a function node, as the graph determines them. *)
Definition node_usages (g : CodeGraph.t) (node_id : string)
  (node : GraphNode.t) : list UsageLocation.t :=
  definition_usage node
  :: export_usages g node_id ++ import_usages g node_id node
     ++ call_usages g node_id.

(** A key of the usage table belongs to a function node of the graph: it is
    the node's ID or its name. *)
Definition key_of_function (g : CodeGraph.t) (k node_id : string)
  (node : GraphNode.t) : Prop :=
  In (node_id, node) (Py.items (CodeGraph.nodes g)) /\
  GraphNode.type node = FUNCTION /\
  (k = node_id \/ k = GraphNode.name node).

(** What an edge loop of [_build_usage_index] keeps and adds. *)
Definition loop_adds (self : CodeAnalyzer.t)
  (acc acc' : CodeAnalyzer.t * list UsageLocation.t)
  (added : list UsageLocation.t) : Prop :=
  CodeAnalyzer.graph (fst acc') = CodeAnalyzer.graph self /\
  CodeAnalyzer.indexes (fst acc') = CodeAnalyzer.indexes self /\
  map erase_context (snd acc') = map erase_context (snd acc) ++ added.

(** The invariant of the loop of [_build_usage_index]. *)
Definition usage_index_content (g : CodeGraph.t) (self : CodeAnalyzer.t)
  : Prop :=
  CodeAnalyzer.graph self = g /\
  forall k l,
    Py.get (GraphIndexes.function_usages (CodeAnalyzer.indexes self)) k
    = Some l ->
    exists node_id node,
      key_of_function g k node_id node /\
      map erase_context l = node_usages g node_id node.

(** The list stored under a key of an index of lists, empty for a missing
    key. *)
Definition list_at {V} (d : Py.dict (list V)) (k : string) : list V :=
  match Py.get d k with
  | Some l => l
  | None => []
  end.

Definition UsageType_is (ty : UsageType) (u : UsageLocation.t) : bool :=
  UsageType_eqb (UsageLocation.usage_type u) ty.

(** The definition a report ends with after a list of usages: the last
    usage of kind [DEFINITION] in the list, if any. *)
Definition last_definition (l : list UsageLocation.t)
  (d0 : option UsageLocation.t) : option UsageLocation.t :=
  fold_left
    (fun d u =>
       match UsageLocation.usage_type u with
       | DEFINITION => Some u
       | _ => d
       end)
    l d0.

(** The Calls edges that leave a node. *)
Definition leaves (node_id : string) (ty : EdgeType) (e : GraphEdge.t)
  : bool :=
  (String.eqb (GraphEdge.source_id e) node_id
   && EdgeType_eqb (GraphEdge.edge_type e) ty)%bool.

(** The function nodes of a file, as items of the node map. *)
Definition function_in_file (file_path : string)
  (item : string * GraphNode.t) : bool :=
  (NodeType_eqb (GraphNode.type (snd item)) FUNCTION
   && String.eqb (GraphNode.file_path (snd item)) file_path)%bool.

(** What the index phases after the first two keep. *)
Definition side_indexes_kept (self self' : CodeAnalyzer.t) : Prop :=
  GraphIndexes.file_functions (CodeAnalyzer.indexes self')
  = GraphIndexes.file_functions (CodeAnalyzer.indexes self) /\
  GraphIndexes.function_calls (CodeAnalyzer.indexes self')
  = GraphIndexes.function_calls (CodeAnalyzer.indexes self) /\
  GraphIndexes.function_called_by (CodeAnalyzer.indexes self')
  = GraphIndexes.function_called_by (CodeAnalyzer.indexes self).

(** An exported function node of a given name. *)
Definition exported_function (g : CodeGraph.t) (function_name : string)
  (node : GraphNode.t) : Prop :=
  (exists node_id, In (node_id, node) (Py.items (CodeGraph.nodes g))) /\
  GraphNode.type node = FUNCTION /\ GraphNode.is_exported node = true /\
  GraphNode.name node = function_name.

(** The node map is a dictionary with non-empty keys: no key occurs twice,
    and no key is the empty string. *)
Definition node_ids_ok (g : CodeGraph.t) : Prop :=
  NoDup (map fst (Py.items (CodeGraph.nodes g))) /\
  forall node_id node,
    In (node_id, node) (Py.items (CodeGraph.nodes g)) ->
    Py.truthy node_id = true.

(** The lines [_get_code_context] works on: those of the cache if the file
    is cached, else those read from the file. *)
Definition source_lines (readlines : string -> option (list string))
  (self : CodeAnalyzer.t) (file_path : string) : option (list string) :=
  match Py.get (CodeAnalyzer._source_code_cache self) file_path with
  | Some lines => Some lines
  | None => readlines file_path
  end.

(** The line terminator. *)
Definition newline : string := String (ascii_of_nat 10) EmptyString.

(** A file of three lines. *)
Definition three_lines (path : string) : option (list string) :=
  if String.eqb path "/repo/a.py"
  then Some [ String.append "def a():" newline;
              String.append "    return b()  " newline;
              "# end" ]
  else None.

(* ------------------------------------------------------------------ *)
(** ** Modules of an impact report *)
(* ------------------------------------------------------------------ *)

(** The usages of a report, in the order [_categorize_by_module] visits
    them. *)
Definition report_usages (r : UsageReport.t) : list UsageLocation.t :=
  match UsageReport.definition r with Some d => [d] | None => [] end
  ++ UsageReport.exports r ++ UsageReport.imports r
  ++ UsageReport.calls r ++ UsageReport.tests r.

Definition in_file (file_path : string) (u : UsageLocation.t) : bool :=
  String.eqb (UsageLocation.file_path u) file_path.

(** The grouping loop of [_categorize_by_module]. *)
Definition group_by_file (l : list UsageLocation.t)
  (d : Py.dict (list UsageLocation.t)) : Py.dict (list UsageLocation.t) :=
  fold_left
    (fun d usage => Py.append_at d (UsageLocation.file_path usage) usage)
    l d.

(** The distinct files of a list of usages, in the order of their first
    usage. *)
Definition files_of (l : list UsageLocation.t) : list string :=
  fold_left Py.set_add (map UsageLocation.file_path l) [].

(** The tier [_create_module_usage] gives a file. *)
Definition criticality_of_file (file_path : string) : CriticalityLevel :=
  ImpactAnalyzer._determine_criticality file_path (Py.path_stem file_path).

Definition by_criticality (m1 m2 : ModuleUsage.t) : Prop :=
  ImpactAnalyzer.criticality_order (ModuleUsage.criticality m1)
  <= ImpactAnalyzer.criticality_order (ModuleUsage.criticality m2).

Definition in_tier (c : CriticalityLevel) (m : ModuleUsage.t) : bool :=
  CriticalityLevel_eqb (ModuleUsage.criticality m) c.

(** The usage counts of a list of modules, added up. *)
Definition sum_usages (ms : list ModuleUsage.t) : Z :=
  fold_right (fun m s => ModuleUsage.total_usages m + s) 0 ms.

(** The four sentences [_assess_business_impact] writes. *)
Definition business_impact (r : ImpactReport.t)
  : string * string * string * string :=
  (ImpactReport.revenue_impact_low r, ImpactReport.revenue_impact_high r,
   ImpactReport.affected_users r, ImpactReport.recovery_time r).

(** Scenario C: [lib.py] defines [f], and [g] of the same file calls it
    twenty times. *)
Definition busy_files : list ParsedFile.t :=
  [ ParsedFile.mk "/repo/lib.py" PYTHON
      [ def_at "f" "/repo/lib.py" 1 false;
        def_at "g" "/repo/lib.py" 5 false ]
      (repeat (FunctionCall.mk "f" "/repo/lib.py" 6 (Some "g") 0) 20)
      [] [] [] ].

Definition busy_analyzer : CodeAnalyzer.t :=
  CodeAnalyzer.create_indexes no_sources
    (CodeAnalyzer.init
       (GraphBuilder.graph
          (GraphBuilder.build_graph (GraphBuilder.init "json") busy_files))).

(** The number of usages a grouping holds. *)
Definition grouped_usages (d : Py.dict (list UsageLocation.t)) : Z :=
  fold_right (fun item s => Py.len (snd item) + s) 0 (Py.items d).

(** The modules before they are sorted. *)
Definition modules_in_file_order (r : UsageReport.t) : list ModuleUsage.t :=
  map (fun item : string * list UsageLocation.t =>
         ImpactAnalyzer._create_module_usage (fst item) (snd item))
      (Py.items (group_by_file (report_usages r) Py.empty)).

(** Whether a pattern of a tier occurs in the lower-cased path or stem. *)
Definition matches_tier (file_path file_name : string)
  (c : CriticalityLevel) : bool :=
  existsb
    (fun item : string * CriticalityLevel =>
       (CriticalityLevel_eqb (snd item) c
        && (Py.contains (fst item) (Py.lower file_path)
            || Py.contains (fst item) (Py.lower file_name)))%bool)
    (Py.items ImpactAnalyzer.MODULE_PATTERNS).

(* ------------------------------------------------------------------ *)
(** ** The orchestrator after a build *)
(* ------------------------------------------------------------------ *)

(** The combined report of [get_complete_analysis] for a usage report: the
    impact assessment is present. *)
Definition complete_for (function_name change_description : string)
  (stats : Stats.t) (usage_report : UsageReport.t) (c : CompleteAnalysis)
  : Prop :=
  exists impact_report risk_assessment,
    c = Analysis function_name change_description usage_report
                 (Some impact_report) risk_assessment stats.

(** A repository that parses to Scenario B. *)
Definition import_repository (path : string)
  : Py.result (list ParsedFile.t) :=
  Py.Return import_files.

(** The graph the orchestrator builds from the parsed files. *)
Definition built_graph (files : list ParsedFile.t) : CodeGraph.t :=
  GraphBuilder.graph
    (GraphBuilder.build_graph (GraphBuilder.init "json") files).

(** The state of the orchestrator once [_create_indexes] has run on the
    parsed files. *)
Definition indexed_state (readlines : string -> option (list string))
  (self : SemanticGraphOrchestrator.t) (files : list ParsedFile.t)
  : SemanticGraphOrchestrator.t :=
  let a :=
    CodeAnalyzer.create_indexes readlines
      (CodeAnalyzer.init (built_graph files)) in
  SemanticGraphOrchestrator.mk
    (SemanticGraphOrchestrator.repository_path self)
    (Some (GraphBuilder.build_graph (GraphBuilder.init "json") files))
    (Some (built_graph files)) (Some a)
    (Some (ImpactAnalyzer.mk a)) (Some RiskCalculator.mk)
    (Stats.mk (Py.len files) (Py.len files)
       (fold_left Z.add
          (map (fun pf => Py.len (ParsedFile.functions pf)) files) 0)
       (Py.len (CodeGraph.edges (built_graph files)))).

(** What the save step of [build_graph] does for a storage path. *)
Definition save_outcome (save_to_json : string -> CodeGraph.t -> option Py.exn)
  (storage_path : option string) (g : CodeGraph.t) : option Py.exn :=
  match storage_path with
  | Some path => if Py.truthy path then save_to_json path g else None
  | None => None
  end.

(** Each of the four queries returns. *)
Definition queries_answer (v : Py.cpython)
  (self : SemanticGraphOrchestrator.t)
  (function_name change_description change_type : string) : Prop :=
  (exists r,
     SemanticGraphOrchestrator.find_usages self function_name
     = Py.Return r) /\
  (exists r,
     SemanticGraphOrchestrator.assess_change_impact self function_name
       change_description = Py.Return r) /\
  (exists r,
     SemanticGraphOrchestrator.calculate_risk v self function_name
       change_type = Py.Return r) /\
  (exists r,
     SemanticGraphOrchestrator.get_complete_analysis v self function_name
       change_description = Py.Return r).

(** Each of the four queries raises the error of the unbuilt state. *)
Definition queries_raise_not_built (v : Py.cpython)
  (self : SemanticGraphOrchestrator.t)
  (function_name change_description change_type : string) : Prop :=
  SemanticGraphOrchestrator.find_usages self function_name
  = Py.Raise (Py.RuntimeError "Graph not built. Call build_graph() first.")
  /\
  SemanticGraphOrchestrator.assess_change_impact self function_name
    change_description
  = Py.Raise (Py.RuntimeError "Graph not built. Call build_graph() first.")
  /\
  SemanticGraphOrchestrator.calculate_risk v self function_name change_type
  = Py.Raise (Py.RuntimeError "Graph not built. Call build_graph() first.")
  /\
  SemanticGraphOrchestrator.get_complete_analysis v self function_name
    change_description
  = Py.Raise (Py.RuntimeError "Graph not built. Call build_graph() first.").

(** A file system on which every dump is written, and one on which no dump
    can be written. *)
Definition writable (path : string) (g : CodeGraph.t) : option Py.exn :=
  None.

Definition read_only (path : string) (g : CodeGraph.t) : option Py.exn :=
  Some (Py.OSError (String.append "[Errno 30] Read-only file system: "
                                  path)).

(** The orchestrator for [/repo] after its first [build_graph], called with
    a storage path on the read-only file system. *)
Definition after_failed_save : SemanticGraphOrchestrator.t :=
  fst (SemanticGraphOrchestrator.build_graph import_repository no_sources
         read_only (SemanticGraphOrchestrator.init "/repo")
         (Some "/mnt/graph.json")).

(* ------------------------------------------------------------------ *)
(** ** File discovery *)
(* ------------------------------------------------------------------ *)

(** Induction on a directory tree, with the property at hand for every
    subdirectory. *)
Fixpoint Directory_tree_ind (P : Directory -> Prop)
  (H : forall files dirs,
         Forall (fun entry => P (snd entry)) dirs -> P (Dir files dirs))
  (tree : Directory) : P tree :=
  match tree with
  | Dir files dirs =>
      H files dirs
        ((fix all (l : list (string * Directory))
            : Forall (fun entry => P (snd entry)) l :=
            match l with
            | [] => Forall_nil _
            | entry :: r =>
                Forall_cons entry (Directory_tree_ind P H (snd entry))
                            (all r)
            end) dirs)
  end.

(** [file_at tree dirs name content]: the directory reached from [tree]
    through the subdirectories [dirs] lists the file [name] with
    [content]. *)
Inductive file_at
  : Directory -> list string -> string -> option (Z * Z) -> Prop :=
| file_here files dirs name content :
    In (name, content) files ->
    file_at (Dir files dirs) [] name content
| file_below files dirs dirname subtree rest name content :
    In (dirname, subtree) dirs ->
    file_at subtree rest name content ->
    file_at (Dir files dirs) (dirname :: rest) name content.

Definition FileType_eqb (a b : FileType) : bool :=
  match a, b with
  | PYTHON, PYTHON | JAVASCRIPT, JAVASCRIPT | TYPESCRIPT, TYPESCRIPT
  | JSX, JSX | TSX, TSX => true
  | _, _ => false
  end.

(** The number of files of a type in a list of discovered files. *)
Definition files_of_type (file_type : FileType) (files : list FileInfo.t)
  : Z :=
  Py.len (filter (fun f => FileType_eqb (FileInfo.file_type f) file_type)
                 files).

(** A repository with a source file at the top, one in [src], and files
    below [node_modules] and [.cache]. *)
Definition sample_tree : Directory :=
  Dir [ ("app.py", Some (120, 8)); ("README.md", Some (40, 3));
        ("broken.js", None) ]
      [ ("src", Dir [ ("cart.ts", Some (300, 20)) ] []);
        ("node_modules",
         Dir [] [ ("lib", Dir [ ("index.js", Some (900, 50)) ] []) ]);
        (".cache", Dir [ ("tmp.py", Some (10, 1)) ] []) ].

(* ================================================================== *)
(** * Properties *)
(* ================================================================== *)

(* ------------------------------------------------------------------ *)
(** ** Dictionaries *)
(* ------------------------------------------------------------------ *)

Section DictFacts.
Context {V : Type}.
Implicit Types (d : Py.dict V) (k : string) (v : V).

Lemma get_set_same d k v : Py.get (Py.set d k v) k = Some v.
Proof.
  induction d as [|[k' v'] r IH]; simpl.
  - now rewrite String.eqb_refl.
  - destruct (String.eqb k k') eqn:E; simpl; rewrite E; auto.
Qed.

Lemma get_set_other d k k' v :
  k <> k' -> Py.get (Py.set d k v) k' = Py.get d k'.
Proof.
  intros Hne. induction d as [|[k0 v0] r IH]; simpl.
  - destruct (String.eqb k' k) eqn:E; auto.
    apply String.eqb_eq in E. congruence.
  - destruct (String.eqb k k0) eqn:E; simpl.
    + apply String.eqb_eq in E. subst k0.
      destruct (String.eqb k' k) eqn:E'; auto.
      apply String.eqb_eq in E'. congruence.
    + now rewrite IH.
Qed.

Lemma get_set d k k' v :
  Py.get (Py.set d k v) k' =
  if String.eqb k k' then Some v else Py.get d k'.
Proof.
  destruct (String.eqb k k') eqn:E.
  - apply String.eqb_eq in E. subst. apply get_set_same.
  - apply String.eqb_neq in E. now apply get_set_other.
Qed.

Lemma has_key_set d k k' v :
  Py.has_key d k' = true -> Py.has_key (Py.set d k v) k' = true.
Proof.
  unfold Py.has_key. rewrite get_set.
  destruct (String.eqb k k'); auto.
Qed.

Lemma has_key_set_same d k v : Py.has_key (Py.set d k v) k = true.
Proof. unfold Py.has_key. now rewrite get_set_same. Qed.

End DictFacts.

(* ------------------------------------------------------------------ *)
(** ** Criticality tiers *)
(* ------------------------------------------------------------------ *)

(** When no pattern of [MODULE_PATTERNS] occurs in the lower-cased path or
    stem, the tier is Secondary. *)
Lemma determine_criticality_default (file_path file_name : string) :
  (forall pattern c,
     In (pattern, c) ImpactAnalyzer.MODULE_PATTERNS ->
     Py.contains pattern (Py.lower file_path) = false /\
     Py.contains pattern (Py.lower file_name) = false) ->
  ImpactAnalyzer._determine_criticality file_path file_name = SECONDARY.
Proof.
  intros H. unfold ImpactAnalyzer._determine_criticality.
  destruct (find _ _) as [[p c]|] eqn:F; [|reflexivity].
  apply find_some in F. destruct F as [Hin Hm]. simpl in Hm.
  destruct (H p c Hin) as [H1 H2]. rewrite H1, H2 in Hm. discriminate.
Qed.

(** A path that contains one of the four CriticalPath patterns is
    CriticalPath, whatever else it contains: these patterns are the first
    four of the table. *)
Lemma critical_pattern_wins (file_path file_name pattern : string) :
  In pattern ["checkout"; "payment"; "auth"; "billing"] ->
  Py.contains pattern (Py.lower file_path) = true ->
  ImpactAnalyzer._determine_criticality file_path file_name = CRITICAL_PATH.
Proof.
  intros Hp Hc. unfold ImpactAnalyzer._determine_criticality,
    ImpactAnalyzer.MODULE_PATTERNS, Py.items.
  simpl find.
  destruct Hp as [<-|[<-|[<-|[<-|[]]]]];
    repeat first
      [ rewrite Hc; simpl; reflexivity
      | match goal with
        | |- context [if (Py.contains ?p ?s || ?b)%bool then _ else _] =>
            destruct (Py.contains p s || b)%bool eqn:?; [reflexivity|]
        end ].
Qed.

(** C1 (evaluation of the code at the failing input). The module built for
    the path [test_checkout.py] is assigned the tier CriticalPath, whatever
    its usages: the patterns are probed in the order of the dict literal,
    where [checkout] comes before [test]. So it is in a report of
    [assess_change_impact]: the module of the test file
    [/repo/test_checkout.py], which holds one Test usage, is CriticalPath.
    The claim has NonCritical here. *)
Theorem test_checkout_is_critical_path :
  (forall usages,
     ModuleUsage.criticality
       (ImpactAnalyzer._create_module_usage "test_checkout.py" usages)
     = CRITICAL_PATH) /\
  (exists report m u,
     ImpactAnalyzer.assess_change_impact
       (ImpactAnalyzer.mk checkout_test_analyzer) "price" "Rename"
     = Some report /\
     In m (ImpactReport.modules report) /\
     ModuleUsage.file_path m = "/repo/test_checkout.py" /\
     ModuleUsage.usages m = [u] /\
     UsageLocation.usage_type u = TEST /\
     ModuleUsage.criticality m = CRITICAL_PATH).
Proof.
  split; [reflexivity|].
  eexists. eexists. eexists.
  split; [vm_compute; reflexivity|].
  split; [left; reflexivity|].
  repeat split.
Qed.

(* ------------------------------------------------------------------ *)
(** ** Risk score *)
(* ------------------------------------------------------------------ *)

Lemma tier_usages_nonneg c modules : 0 <= tier_usages c modules.
Proof.
  induction modules as [|m r IH]; simpl; [lia|].
  unfold ModuleUsage.total_usages, Py.len.
  destruct (CriticalityLevel_eqb _ _); lia.
Qed.

Lemma risk_score_counts modules : forall s,
  let s' := fold_left ImpactAnalyzer._calculate_risk_score_step modules s in
  RiskScore.critical_path_usages s' =
    RiskScore.critical_path_usages s + tier_usages CRITICAL_PATH modules /\
  RiskScore.secondary_usages s' =
    RiskScore.secondary_usages s + tier_usages SECONDARY modules /\
  RiskScore.tertiary_usages s' =
    RiskScore.tertiary_usages s + tier_usages TERTIARY modules /\
  RiskScore.non_critical_usages s' =
    RiskScore.non_critical_usages s + tier_usages NON_CRITICAL modules.
Proof.
  induction modules as [|m r IH]; intros s; simpl.
  - repeat split; lia.
  - specialize (IH (ImpactAnalyzer._calculate_risk_score_step s m)).
    simpl in IH. destruct IH as (H1 & H2 & H3 & H4).
    rewrite H1, H2, H3, H4.
    unfold ImpactAnalyzer._calculate_risk_score_step.
    destruct (ModuleUsage.criticality m); simpl; repeat split; lia.
Qed.

Lemma calculate_risk_score_spec modules :
  let s := ImpactAnalyzer._calculate_risk_score modules in
  RiskScore.critical_path_usages s = tier_usages CRITICAL_PATH modules /\
  RiskScore.secondary_usages s = tier_usages SECONDARY modules /\
  RiskScore.tertiary_usages s = tier_usages TERTIARY modules /\
  RiskScore.non_critical_usages s = tier_usages NON_CRITICAL modules /\
  RiskScore.total_score s =
    RiskScore.critical_path_usages s * 10
    + RiskScore.secondary_usages s * 5
    + RiskScore.tertiary_usages s * 2
    + RiskScore.non_critical_usages s * 1 /\
  RiskScore.risk_level s = level_of_score (RiskScore.total_score s).
Proof.
  unfold ImpactAnalyzer._calculate_risk_score.
  destruct (risk_score_counts modules RiskScore.init) as (H1 & H2 & H3 & H4).
  simpl in H1, H2, H3, H4.
  unfold RiskScore.calculate; simpl.
  rewrite H1, H2, H3, H4.
  repeat split.
  unfold level_of_score.
  set (t := _ + _ + _ + _).
  destruct (101 <=? t) eqn:E1; destruct (51 <=? t) eqn:E2;
    destruct (21 <=? t) eqn:E3;
    destruct (t <=? 20) eqn:F1; destruct (t <=? 50) eqn:F2;
    destruct (t <=? 100) eqn:F3; try reflexivity; lia.
Qed.

Lemma assess_business_impact_keeps report modules risk_score :
  let r := ImpactAnalyzer._assess_business_impact report modules risk_score in
  ImpactReport.modules r = ImpactReport.modules report /\
  ImpactReport.risk_score r = ImpactReport.risk_score report.
Proof.
  unfold ImpactAnalyzer._assess_business_impact.
  destruct (filter _ _); [destruct (RiskScore.risk_level _)|]; simpl; auto.
Qed.

(** C3. For every report produced by [assess_change_impact], each tier count
    is the sum of the usage counts of the modules of that tier, the total
    score is the weighted sum with weights 10, 5, 2 and 1, and the level is
    Low up to 20, Medium up to 50, High up to 100 and Critical from 101; the
    score is never negative. *)
Theorem risk_score_weighted_sum
  (self : ImpactAnalyzer.t) (function_name change_description : string)
  (report : ImpactReport.t) :
  ImpactAnalyzer.assess_change_impact self function_name change_description
    = Some report ->
  let s := ImpactReport.risk_score report in
  let ms := ImpactReport.modules report in
  RiskScore.critical_path_usages s = tier_usages CRITICAL_PATH ms /\
  RiskScore.secondary_usages s = tier_usages SECONDARY ms /\
  RiskScore.tertiary_usages s = tier_usages TERTIARY ms /\
  RiskScore.non_critical_usages s = tier_usages NON_CRITICAL ms /\
  RiskScore.total_score s =
    RiskScore.critical_path_usages s * 10
    + RiskScore.secondary_usages s * 5
    + RiskScore.tertiary_usages s * 2
    + RiskScore.non_critical_usages s * 1 /\
  0 <= RiskScore.total_score s /\
  (RiskScore.total_score s <= 20 -> RiskScore.risk_level s = LOW) /\
  (21 <= RiskScore.total_score s <= 50 -> RiskScore.risk_level s = MEDIUM) /\
  (51 <= RiskScore.total_score s <= 100 -> RiskScore.risk_level s = HIGH) /\
  (101 <= RiskScore.total_score s -> RiskScore.risk_level s = CRITICAL).
Proof.
  unfold ImpactAnalyzer.assess_change_impact.
  destruct (CodeAnalyzer.find_all_usages _ _) as [u|]; [|discriminate].
  intros [= <-].
  set (ms := ImpactAnalyzer._categorize_by_module u).
  match goal with
  | |- context [ImpactAnalyzer._assess_business_impact ?r ?m ?k] =>
      destruct (assess_business_impact_keeps r m k) as [Hm Hs]
  end.
  cbv zeta. rewrite Hm, Hs. simpl ImpactReport.modules.
  simpl ImpactReport.risk_score.
  destruct (calculate_risk_score_spec ms) as (H1 & H2 & H3 & H4 & H5 & H6).
  cbv zeta in *.
  repeat (split; [assumption|]).
  assert (Hpos : 0 <= RiskScore.total_score
                        (ImpactAnalyzer._calculate_risk_score ms)).
  { rewrite H5, H1, H2, H3, H4.
    pose proof (tier_usages_nonneg CRITICAL_PATH ms).
    pose proof (tier_usages_nonneg SECONDARY ms).
    pose proof (tier_usages_nonneg TERTIARY ms).
    pose proof (tier_usages_nonneg NON_CRITICAL ms). lia. }
  split; [exact Hpos|].
  rewrite H6. unfold level_of_score.
  set (t := RiskScore.total_score _) in *.
  repeat split; intros Hr;
    destruct (t <=? 20) eqn:F1; destruct (t <=? 50) eqn:F2;
    destruct (t <=? 100) eqn:F3; try reflexivity; lia.
Qed.

Lemma risk_score_weighted_sum_witness :
  exists report,
    ImpactAnalyzer.assess_change_impact
      (ImpactAnalyzer.mk scenario_a_analyzer) "a" "Rename" = Some report /\
    RiskScore.total_score (ImpactReport.risk_score report) = 10 /\
    RiskScore.risk_level (ImpactReport.risk_score report) = LOW.
Proof.
  eexists. split; [vm_compute; reflexivity|].
  match goal with
  | |- context [ImpactReport.risk_score ?r] =>
      pose proof (risk_score_weighted_sum
                    (ImpactAnalyzer.mk scenario_a_analyzer) "a" "Rename" r
                    eq_refl) as H
  end.
  cbv zeta in H.
  destruct H as (_ & _ & _ & _ & Hsum & _ & Hlow & _).
  split; [rewrite Hsum; reflexivity | apply Hlow; vm_compute; discriminate].
Defined.

(* ------------------------------------------------------------------ *)
(** ** Unknown names *)
(* ------------------------------------------------------------------ *)

(** C7. For a name that is not a key of the usage index, [find_all_usages]
    returns [None] and so does [assess_change_impact]; both are total
    functions of the model, so neither raises. *)
Theorem unknown_name_is_absent
  (self : CodeAnalyzer.t) (function_name change_description : string) :
  Py.has_key (GraphIndexes.function_usages (CodeAnalyzer.indexes self))
             function_name = false ->
  CodeAnalyzer.find_all_usages self function_name = None /\
  ImpactAnalyzer.assess_change_impact (ImpactAnalyzer.mk self)
    function_name change_description = None.
Proof.
  unfold Py.has_key. intros Hk.
  assert (Hf : CodeAnalyzer.find_all_usages self function_name = None).
  { unfold CodeAnalyzer.find_all_usages.
    case_eq (Py.get (GraphIndexes.function_usages (CodeAnalyzer.indexes self))
                    function_name).
    - intros l Hl. rewrite Hl in Hk. discriminate.
    - reflexivity. }
  split; [exact Hf|].
  unfold ImpactAnalyzer.assess_change_impact. simpl. now rewrite Hf.
Qed.

Lemma unknown_name_is_absent_witness :
  Py.has_key
    (GraphIndexes.function_usages (CodeAnalyzer.indexes scenario_a_analyzer))
    "nonexistent" = false /\
  CodeAnalyzer.find_all_usages scenario_a_analyzer "nonexistent" = None /\
  ImpactAnalyzer.assess_change_impact (ImpactAnalyzer.mk scenario_a_analyzer)
    "nonexistent" "_" = None.
Proof.
  split; [reflexivity|].
  apply (unknown_name_is_absent scenario_a_analyzer "nonexistent" "_").
  reflexivity.
Defined.

(* ------------------------------------------------------------------ *)
(** ** The orchestrator before a build *)
(* ------------------------------------------------------------------ *)

Lemma init_is_Empty (repository_path : string) :
  SemanticGraphOrchestrator.Empty
    (SemanticGraphOrchestrator.init repository_path).
Proof. repeat split. Qed.

(** The two ways [build_graph] ends: file discovery raises and the state is
    as before; or the state is the indexed one, and the call returns the
    graph unless the save step raises. *)
Lemma build_graph_cases discover_and_parse readlines save_to_json
  self storage_path :
  SemanticGraphOrchestrator.build_graph discover_and_parse readlines
    save_to_json self storage_path
  = match discover_and_parse
            (SemanticGraphOrchestrator.repository_path self) with
    | Py.Raise e => (self, Py.Raise e)
    | Py.Return files =>
        (indexed_state readlines self files,
         match save_outcome save_to_json storage_path (built_graph files) with
         | Some e => Py.Raise e
         | None => Py.Return (built_graph files)
         end)
    end.
Proof.
  unfold SemanticGraphOrchestrator.build_graph, save_outcome.
  destruct (discover_and_parse _) as [files|e]; [|reflexivity].
  cbv zeta. fold (built_graph files).
  destruct storage_path as [path|]; [destruct (Py.truthy path)|];
    try reflexivity.
  destruct (save_to_json path (built_graph files)); reflexivity.
Qed.

(** A build that returns leaves the indexed state and returns its graph. *)
Lemma build_graph_returns discover_and_parse readlines save_to_json
  self storage_path self' g :
  SemanticGraphOrchestrator.build_graph discover_and_parse readlines
    save_to_json self storage_path = (self', Py.Return g) ->
  exists files,
    self' = indexed_state readlines self files /\ g = built_graph files.
Proof.
  rewrite build_graph_cases.
  destruct (discover_and_parse _) as [files|e]; [|discriminate].
  destruct (save_outcome _ _ _); [discriminate|].
  intros [= <- <-]. eauto.
Qed.

(** In the indexed state every query returns. *)
Lemma indexed_state_answers readlines v self files name d c :
  queries_answer v (indexed_state readlines self files) name d c.
Proof.
  unfold queries_answer, SemanticGraphOrchestrator.get_complete_analysis,
    SemanticGraphOrchestrator.find_usages,
    SemanticGraphOrchestrator.assess_change_impact,
    SemanticGraphOrchestrator.calculate_risk.
  cbn [indexed_state SemanticGraphOrchestrator.analyzer
       SemanticGraphOrchestrator.impact_analyzer
       SemanticGraphOrchestrator.risk_calculator].
  repeat split; eauto.
  destruct (CodeAnalyzer.find_all_usages _ _); eauto.
Qed.

(** C8 (counterexample). The only [build_graph] call on the orchestrator
    failed: it raised the [OSError] of the save step. Yet the orchestrator
    is not in the Empty state and [find_usages] returns a report instead of
    raising the error of the unbuilt state; so do the other queries. *)
Lemma queries_answer_after_failed_save_counterexample :
  (exists e,
     SemanticGraphOrchestrator.build_graph import_repository no_sources
       read_only (SemanticGraphOrchestrator.init "/repo")
       (Some "/mnt/graph.json")
     = (after_failed_save, Py.Raise e)) /\
  ~ SemanticGraphOrchestrator.Empty after_failed_save /\
  (exists report,
     SemanticGraphOrchestrator.find_usages after_failed_save "calculatePrice"
     = Py.Return (Some report) /\
     UsageReport.total_usages report = 5) /\
  queries_answer Py.From312 after_failed_save "calculatePrice" "Rename"
                 "rename".
Proof.
  split; [|split; [|split]].
  - eexists. unfold after_failed_save. rewrite build_graph_cases.
    reflexivity.
  - intros (H & _). unfold after_failed_save in H.
    rewrite build_graph_cases in H. discriminate H.
  - eexists. split; [vm_compute; reflexivity | reflexivity].
  - unfold after_failed_save. rewrite build_graph_cases.
    apply indexed_state_answers.
Qed.

(** C8 (amended). In the Empty state each of [find_usages],
    [assess_change_impact], [calculate_risk] and [get_complete_analysis]
    raises the RuntimeError [Graph not built. Call build_graph() first.];
    none returns an absent result. A [build_graph] call in which file
    discovery raises leaves the state as it was, so the queries still raise.
    A call that gets past file discovery leaves the Empty state, whether it
    returns the graph or raises in the save step: every query returns from
    then on. *)
Theorem queries_raise_until_indexes_are_built
  (v : Py.cpython) (self : SemanticGraphOrchestrator.t)
  (function_name change_description change_type : string) :
  SemanticGraphOrchestrator.Empty self ->
  queries_raise_not_built v self function_name change_description
                          change_type /\
  forall discover_and_parse readlines save_to_json storage_path
         self' outcome,
    SemanticGraphOrchestrator.build_graph discover_and_parse readlines
      save_to_json self storage_path = (self', outcome) ->
    match discover_and_parse
            (SemanticGraphOrchestrator.repository_path self) with
    | Py.Raise e =>
        outcome = Py.Raise e /\ self' = self /\
        queries_raise_not_built v self' function_name change_description
                                change_type
    | Py.Return files =>
        ~ SemanticGraphOrchestrator.Empty self' /\
        queries_answer v self' function_name change_description
                       change_type /\
        (outcome = Py.Return (built_graph files) \/
         exists e, outcome = Py.Raise e /\
                   save_outcome save_to_json storage_path
                                (built_graph files) = Some e)
    end.
Proof.
  intros (Ha & Hi & Hr).
  assert (Hraise : queries_raise_not_built v self function_name
                     change_description change_type).
  { unfold queries_raise_not_built, SemanticGraphOrchestrator.find_usages,
      SemanticGraphOrchestrator.assess_change_impact,
      SemanticGraphOrchestrator.calculate_risk,
      SemanticGraphOrchestrator.get_complete_analysis.
    rewrite Ha, Hi, Hr. now repeat split. }
  split; [exact Hraise|].
  intros discover_and_parse readlines save_to_json storage_path self' outcome.
  rewrite build_graph_cases.
  destruct (discover_and_parse _) as [files|e].
  - intros [= <- <-]. split; [|split].
    + intros (H & _). discriminate H.
    + apply indexed_state_answers.
    + destruct (save_outcome _ _ _) as [e|]; [right; eauto | now left].
  - intros [= <- <-]. auto.
Qed.

Lemma queries_raise_until_indexes_are_built_witness :
  SemanticGraphOrchestrator.Empty (SemanticGraphOrchestrator.init "/repo") /\
  SemanticGraphOrchestrator.find_usages
    (SemanticGraphOrchestrator.init "/repo") "calculatePrice"
  = Py.Raise (Py.RuntimeError "Graph not built. Call build_graph() first.")
  /\
  queries_answer Py.From312 after_failed_save "calculatePrice" "Rename"
                 "rename".
Proof.
  split; [apply init_is_Empty|].
  destruct (queries_raise_until_indexes_are_built Py.From312
              (SemanticGraphOrchestrator.init "/repo")
              "calculatePrice" "Rename" "rename" (init_is_Empty "/repo"))
    as [(H & _) Hbuild].
  split; [exact H|].
  specialize (Hbuild import_repository no_sources read_only
                (Some "/mnt/graph.json") after_failed_save
                (snd (SemanticGraphOrchestrator.build_graph
                        import_repository no_sources read_only
                        (SemanticGraphOrchestrator.init "/repo")
                        (Some "/mnt/graph.json")))).
  cbn [import_repository] in Hbuild.
  destruct Hbuild as (_ & Hq & _); [|exact Hq].
  unfold after_failed_save.
  destruct (SemanticGraphOrchestrator.build_graph _ _ _ _ _); reflexivity.
Defined.

(* ------------------------------------------------------------------ *)
(** ** The failure-mode table *)
(* ------------------------------------------------------------------ *)

Local Open Scope float_scope.

(** C9. [calculate_failure_modes] takes no graph; for every interpreter,
    function name and change type it returns the five failure modes
    Missed-Usage 0.01, Inconsistent-Rename 0.05, Type-Mismatch 2.0,
    Test-Failure 0.5 and Documentation-Sync 50.0 (percent), five mitigation
    strategies, and the success rate 97.44, which is 100 minus the sum of
    the four technical probabilities; any two calls agree on the table, the
    mitigations and the rate. *)
Theorem failure_modes_fixed_table
  (v v' : Py.cpython) (self self' : RiskCalculator.t)
  (function_name change_type function_name' change_type' : string) :
  let a := RiskCalculator.calculate_failure_modes v self function_name
                                                  change_type in
  let a' := RiskCalculator.calculate_failure_modes v' self' function_name'
                                                   change_type' in
  map (fun fm => (FailureModeAnalysis.mode fm,
                  FailureModeAnalysis.probability_percent fm))
      (RiskAssessment.failure_modes a)
  = [ (MISSED_USAGE, 0.01); (INCONSISTENT_RENAME, 0.05);
      (TYPE_MISMATCH, 2.0); (TEST_FAILURE, 0.5);
      (DOCUMENTATION_SYNC, 50.0) ]%list /\
  List.length (RiskAssessment.mitigations a) = 5%nat /\
  RiskAssessment.success_rate_percent a = 97.44 /\
  RiskAssessment.success_rate_percent a
  = 100.0 - Py.fsum v [0.01; 0.05; 2.0; 0.5]%list /\
  RiskAssessment.failure_modes a = RiskAssessment.failure_modes a' /\
  RiskAssessment.mitigations a = RiskAssessment.mitigations a' /\
  RiskAssessment.success_rate_percent a
  = RiskAssessment.success_rate_percent a'.
Proof.
  destruct v, v'; cbv zeta; repeat split; vm_compute; reflexivity.
Qed.

Local Close Scope float_scope.

(* ------------------------------------------------------------------ *)
(** ** Loops *)
(* ------------------------------------------------------------------ *)

(** An invariant of a loop body that holds on entry holds on exit. *)
Lemma fold_left_invariant {A B} (P : A -> Prop) (f : A -> B -> A)
  (l : list B) (a : A) :
  P a -> (forall a b, In b l -> P a -> P (f a b)) -> P (fold_left f l a).
Proof.
  revert a. induction l as [|b r IH]; intros a Ha Hf; simpl; [exact Ha|].
  apply IH.
  - apply Hf; [now left | exact Ha].
  - intros a' b' Hin. apply Hf. now right.
Qed.

(** A loop nested in a loop is one loop over the concatenated items. *)
Lemma fold_left_flat_map {A B C} (f : A -> C -> A) (g : B -> list C)
  (l : list B) (a : A) :
  fold_left (fun a b => fold_left f (g b) a) l a
  = fold_left f (flat_map g l) a.
Proof.
  revert a. induction l as [|b r IH]; intros a; simpl; [reflexivity|].
  now rewrite fold_left_app, IH.
Qed.

Lemma mem_In (x : string) (l : list string) :
  Py.mem x l = true <-> In x l.
Proof.
  unfold Py.mem. rewrite existsb_exists. split.
  - intros (y & Hy & E). apply String.eqb_eq in E. now subst.
  - intros H. exists x. split; [exact H | apply String.eqb_refl].
Qed.

(* ------------------------------------------------------------------ *)
(** ** The usage index *)
(* ------------------------------------------------------------------ *)

Section UsageIndex.
Variable readlines : string -> option (list string).

Lemma get_code_context_indexes self file_path line b a :
  CodeAnalyzer.indexes
    (fst (CodeAnalyzer._get_code_context readlines self file_path line b a))
  = CodeAnalyzer.indexes self /\
  CodeAnalyzer.graph
    (fst (CodeAnalyzer._get_code_context readlines self file_path line b a))
  = CodeAnalyzer.graph self.
Proof.
  unfold CodeAnalyzer._get_code_context.
  destruct (Py.get _ _); [|destruct (readlines _)]; simpl; auto.
Qed.



Lemma append_edge_usage_keeps self ty cf acc edge :
  ty <> DEFINITION -> loop_keeps self acc ->
  loop_keeps self (CodeAnalyzer._append_edge_usage readlines ty cf acc edge).
Proof.
  intros Hty (Hi & Hg & d & rest & Hl & Hd & Hr).
  destruct acc as [s us]. simpl in *. subst us.
  unfold CodeAnalyzer._append_edge_usage.
  pose proof (get_code_context_indexes s (GraphEdge.file_path edge)
                (GraphEdge.line_number edge) 0 0) as [Hi' Hg'].
  destruct (CodeAnalyzer._get_code_context _ _ _ _ _ _) as [s' ctx].
  simpl in *. unfold loop_keeps; simpl.
  split; [congruence | split; [congruence |]].
  exists d, (rest ++ [UsageLocation.mk ty (GraphEdge.file_path edge)
                       (GraphEdge.line_number edge) ctx cf]).
  repeat split; auto.
  apply Forall_app. split; [exact Hr|]. now constructor.
Qed.

Lemma export_usages_keeps self node_id acc :
  loop_keeps self acc ->
  loop_keeps self (CodeAnalyzer._export_usages readlines node_id acc).
Proof.
  intros H. unfold CodeAnalyzer._export_usages.
  apply fold_left_invariant; [exact H|].
  intros a e _ Ha. destruct (_ && _)%bool; [|exact Ha].
  apply append_edge_usage_keeps; [discriminate | exact Ha].
Qed.

Lemma import_usages_keeps self node_id node acc :
  loop_keeps self acc ->
  loop_keeps self (CodeAnalyzer._import_usages readlines node_id node acc).
Proof.
  intros H. unfold CodeAnalyzer._import_usages.
  apply fold_left_invariant; [exact H|].
  intros a f _ Ha.
  apply fold_left_invariant; [exact Ha|].
  intros a' e _ Ha'. destruct (_ && _)%bool; [|exact Ha'].
  apply append_edge_usage_keeps; [discriminate | exact Ha'].
Qed.

Lemma call_usages_keeps self node_id acc :
  loop_keeps self acc ->
  loop_keeps self (CodeAnalyzer._call_usages readlines node_id acc).
Proof.
  intros H. unfold CodeAnalyzer._call_usages.
  apply fold_left_invariant; [exact H|].
  intros a e _ Ha. destruct (_ && _)%bool; [|exact Ha].
  apply append_edge_usage_keeps; [|exact Ha].
  destruct (Py.contains _ _); discriminate.
Qed.


Lemma build_usage_index_step_ok self0 self item :
  usage_index_ok self0 self ->
  usage_index_ok self0
    (CodeAnalyzer._build_usage_index_step readlines self item).
Proof.
  intros (Hg & He & Hu). destruct item as [node_id node].
  unfold CodeAnalyzer._build_usage_index_step.
  destruct (GraphNode.type node); try (now repeat split).
  pose proof (get_code_context_indexes self (GraphNode.file_path node)
                (GraphNode.line_number node) 0 0) as [Hi' Hg'].
  destruct (CodeAnalyzer._get_code_context _ _ _ _ _ _) as [s1 ctx].
  simpl in Hi', Hg'.
  set (d := UsageLocation.mk DEFINITION _ _ ctx None).
  assert (K : loop_keeps s1 (s1, [d])).
  { repeat split. exists d, []. repeat split. constructor. }
  apply (export_usages_keeps s1 node_id) in K.
  apply (import_usages_keeps s1 node_id node) in K.
  apply (call_usages_keeps s1 node_id) in K.
  destruct (CodeAnalyzer._call_usages _ _ _) as [s2 usages].
  destruct K as (Ki & Kg & Ks). simpl in Ki, Kg, Ks.
  unfold usage_index_ok. simpl. rewrite Ki, Kg, Hi', Hg'.
  repeat split; [exact Hg | exact He |].
  intros k l. rewrite !get_set.
  destruct (String.eqb node_id k); [now intros [= <-]|].
  destruct (String.eqb (GraphNode.name node) k); [now intros [= <-]|].
  apply Hu.
Qed.

Lemma build_usage_index_ok self :
  (forall k l,
     Py.get (GraphIndexes.function_usages (CodeAnalyzer.indexes self)) k
     = Some l -> usages_shape l) ->
  usage_index_ok self (CodeAnalyzer._build_usage_index readlines self).
Proof.
  intros H. unfold CodeAnalyzer._build_usage_index.
  apply fold_left_invariant; [now repeat split|].
  intros a b _. apply build_usage_index_step_ok.
Qed.

End UsageIndex.

Lemma file_functions_index_keeps self :
  let self' := CodeAnalyzer._build_file_functions_index self in
  CodeAnalyzer.graph self' = CodeAnalyzer.graph self /\
  GraphIndexes.function_usages (CodeAnalyzer.indexes self')
  = GraphIndexes.function_usages (CodeAnalyzer.indexes self) /\
  GraphIndexes.exported_functions (CodeAnalyzer.indexes self')
  = GraphIndexes.exported_functions (CodeAnalyzer.indexes self).
Proof.
  unfold CodeAnalyzer._build_file_functions_index.
  apply fold_left_invariant; [now repeat split|].
  intros a [node_id node] _ (H1 & H2 & H3).
  destruct (GraphNode.type node); simpl; auto.
Qed.

Lemma call_indexes_keeps self :
  let self' := CodeAnalyzer._build_call_indexes self in
  CodeAnalyzer.graph self' = CodeAnalyzer.graph self /\
  GraphIndexes.function_usages (CodeAnalyzer.indexes self')
  = GraphIndexes.function_usages (CodeAnalyzer.indexes self) /\
  GraphIndexes.exported_functions (CodeAnalyzer.indexes self')
  = GraphIndexes.exported_functions (CodeAnalyzer.indexes self).
Proof.
  unfold CodeAnalyzer._build_call_indexes.
  apply fold_left_invariant; [now repeat split|].
  intros a e _ (H1 & H2 & H3).
  destruct (GraphEdge.edge_type e); simpl; auto.
Qed.

(** The export index maps a name only to an exported function node of that
    name, and leaves the usage table alone. *)
Lemma export_import_indexes_sound self :
  let self' := CodeAnalyzer._build_export_import_indexes self in
  GraphIndexes.function_usages (CodeAnalyzer.indexes self')
  = GraphIndexes.function_usages (CodeAnalyzer.indexes self) /\
  forall k v,
    Py.get (GraphIndexes.exported_functions (CodeAnalyzer.indexes self')) k
    = Some v ->
    Py.get (GraphIndexes.exported_functions (CodeAnalyzer.indexes self)) k
    = Some v \/
    exists n,
      In (v, n) (Py.items (CodeGraph.nodes (CodeAnalyzer.graph self))) /\
      GraphNode.type n = FUNCTION /\ GraphNode.is_exported n = true /\
      GraphNode.name n = k.
Proof.
  unfold CodeAnalyzer._build_export_import_indexes.
  apply fold_left_invariant; [split; auto|].
  intros a [node_id node] Hin (H1 & H2).
  destruct (NodeType_eqb (GraphNode.type node) FUNCTION) eqn:Ht; simpl;
    [|split; assumption].
  destruct (GraphNode.is_exported node) eqn:Hx; simpl; [|split; assumption].
  split; [exact H1|].
  intros k v. rewrite get_set.
  destruct (String.eqb (GraphNode.name node) k) eqn:E; [|apply H2].
  intros [= <-]. right. exists node. apply String.eqb_eq in E.
  repeat split; auto.
  destruct (GraphNode.type node); try discriminate; reflexivity.
Qed.

Lemma create_indexes_facts readlines graph :
  let a := CodeAnalyzer.create_indexes readlines (CodeAnalyzer.init graph) in
  (forall k l,
     Py.get (GraphIndexes.function_usages (CodeAnalyzer.indexes a)) k
     = Some l -> usages_shape l) /\
  (forall k v,
     Py.get (GraphIndexes.exported_functions (CodeAnalyzer.indexes a)) k
     = Some v ->
     exists n,
       In (v, n) (Py.items (CodeGraph.nodes graph)) /\
       GraphNode.type n = FUNCTION /\ GraphNode.is_exported n = true /\
       GraphNode.name n = k).
Proof.
  unfold CodeAnalyzer.create_indexes.
  set (s0 := CodeAnalyzer.init graph).
  destruct (file_functions_index_keeps s0) as (G1 & U1 & E1).
  set (s1 := CodeAnalyzer._build_file_functions_index s0) in *.
  destruct (call_indexes_keeps s1) as (G2 & U2 & E2).
  set (s2 := CodeAnalyzer._build_call_indexes s1) in *.
  destruct (build_usage_index_ok readlines s2) as (G3 & E3 & U3).
  { intros k l. rewrite U2, U1. discriminate. }
  set (s3 := CodeAnalyzer._build_usage_index readlines s2) in *.
  destruct (export_import_indexes_sound s3) as (U4 & E4).
  cbv zeta in *. split.
  - intros k l. rewrite U4. apply U3.
  - intros k v Hk. destruct (E4 k v Hk) as [H|H].
    + rewrite E3, E2, E1 in H. discriminate.
    + rewrite G3, G2, G1 in H. exact H.
Qed.

(* ------------------------------------------------------------------ *)
(** ** Usage reports *)
(* ------------------------------------------------------------------ *)

Lemma categorize_ids l : forall r,
  let r' := fold_left CodeAnalyzer._categorize l r in
  UsageReport.node_id r' = UsageReport.node_id r /\
  UsageReport.function_name r' = UsageReport.function_name r.
Proof.
  induction l as [|u l IH]; intros r; simpl; [auto|].
  destruct (IH (CodeAnalyzer._categorize r u)) as [H1 H2].
  rewrite H1, H2. unfold CodeAnalyzer._categorize.
  destruct (UsageLocation.usage_type u); simpl; auto.
Qed.

Lemma categorize_counts l : forall r,
  Forall (fun u => UsageLocation.usage_type u <> DEFINITION) l ->
  let r' := fold_left CodeAnalyzer._categorize l r in
  UsageReport.definition r' = UsageReport.definition r /\
  list_sizes r' = list_sizes r + Py.len l.
Proof.
  induction l as [|u l IH]; intros r Hl; simpl.
  - unfold Py.len. simpl. split; [reflexivity | lia].
  - inversion Hl as [|? ? Hu Hl']; subst.
    destruct (IH (CodeAnalyzer._categorize r u) Hl') as [H1 H2].
    rewrite H1, H2. clear IH H1 H2.
    unfold CodeAnalyzer._categorize, list_sizes, Py.len.
    destruct (UsageLocation.usage_type u); try congruence; simpl;
      rewrite ?length_app; simpl; split; try reflexivity; lia.
Qed.

Lemma find_all_usages_report self function_name report :
  CodeAnalyzer.find_all_usages self function_name = Some report ->
  exists usages,
    Py.get (GraphIndexes.function_usages (CodeAnalyzer.indexes self))
           function_name = Some usages /\
    usages <> [] /\
    UsageReport.total_usages report = Py.len usages /\
    UsageReport.definition report
    = UsageReport.definition
        (fold_left CodeAnalyzer._categorize usages
           (UsageReport.mk function_name
              (UsageReport.node_id report) None [] [] [] [] 0 [])) /\
    list_sizes report
    = list_sizes
        (fold_left CodeAnalyzer._categorize usages
           (UsageReport.mk function_name
              (UsageReport.node_id report) None [] [] [] [] 0 [])) /\
    UsageReport.node_id report
    = match CodeAnalyzer._get_node_id_by_name self function_name with
      | Some i => if Py.truthy i then i else ""
      | None => ""
      end.
Proof.
  unfold CodeAnalyzer.find_all_usages.
  destruct (Py.get _ _) as [[|u us]|]; try discriminate.
  intros [= <-]. exists (u :: us).
  set (nid := match CodeAnalyzer._get_node_id_by_name self function_name with
              | Some i => if Py.truthy i then i else ""
              | None => ""
              end).
  set (r0 := UsageReport.mk function_name nid None [] [] [] [] 0 []).
  destruct (categorize_ids (u :: us) r0) as [Hn _].
  cbv zeta in Hn.
  unfold UsageReport.with_total_usages, list_sizes. simpl.
  simpl in Hn. rewrite Hn. simpl.
  repeat split; try reflexivity. discriminate.
Qed.

(** C4. For every report returned by [find_all_usages] on indexes built by
    [create_indexes], [total_usages] is one if a definition is present, else
    zero, plus the lengths of [exports], [imports], [calls] and [tests]. *)
Theorem total_usages_is_sum
  (readlines : string -> option (list string)) (graph : CodeGraph.t)
  (function_name : string) (report : UsageReport.t) :
  CodeAnalyzer.find_all_usages
    (CodeAnalyzer.create_indexes readlines (CodeAnalyzer.init graph))
    function_name = Some report ->
  UsageReport.total_usages report
  = (match UsageReport.definition report with Some _ => 1 | None => 0 end)
    + Py.len (UsageReport.exports report)
    + Py.len (UsageReport.imports report)
    + Py.len (UsageReport.calls report)
    + Py.len (UsageReport.tests report).
Proof.
  intros H. apply find_all_usages_report in H.
  destruct H as (usages & Hget & _ & Htot & Hdef & Hsz & _).
  destruct (create_indexes_facts readlines graph) as [Hshape _].
  destruct (Hshape _ _ Hget) as (d & rest & -> & Hd & Hrest).
  simpl in Hdef, Hsz.
  unfold CodeAnalyzer._categorize at 2 in Hdef.
  unfold CodeAnalyzer._categorize at 2 in Hsz.
  rewrite Hd in Hdef, Hsz.
  match type of Hdef with
  | _ = UsageReport.definition (fold_left _ _ ?r0) =>
      destruct (categorize_counts rest r0 Hrest) as [Kd Ks]
  end.
  cbv zeta in Kd, Ks. rewrite Kd in Hdef. rewrite Ks in Hsz.
  simpl in Hdef. rewrite Hdef, Htot.
  unfold list_sizes in Hsz. simpl in Hsz.
  clear Kd Ks Hshape Hget. unfold Py.len in *.
  simpl Datatypes.length in *. lia.
Qed.

Lemma total_usages_is_sum_witness :
  exists report,
    CodeAnalyzer.find_all_usages scenario_a_analyzer "a" = Some report /\
    UsageReport.total_usages report = 2.
Proof.
  eexists. split; [vm_compute; reflexivity|].
  match goal with
  | |- UsageReport.total_usages ?r = _ =>
      rewrite (total_usages_is_sum no_sources scenario_a_graph "a" r eq_refl)
  end.
  reflexivity.
Defined.

(* ------------------------------------------------------------------ *)
(** ** Names of functions that are not exported *)
(* ------------------------------------------------------------------ *)

(** C10 (counterexample). The node [b:f] has [is_exported = false], yet the
    report for its name [f] carries the node ID [a:f] of the exported
    function of the same name, and [get_callers] returns the callers of
    that other function. *)
Lemma unexported_name_resolves_counterexample :
  (exists n,
     CodeGraph.get_node shadow_graph "b:f" = Some n /\
     GraphNode.name n = "f" /\ GraphNode.is_exported n = false) /\
  (exists report,
     CodeAnalyzer.find_all_usages shadow_analyzer "f" = Some report /\
     UsageReport.node_id report = "a:f" /\
     UsageReport.node_id report <> "") /\
  CodeAnalyzer.get_callers shadow_analyzer "f" = ["a:g"].
Proof.
  split; [|split].
  - eexists. split; [vm_compute; reflexivity|]. split; reflexivity.
  - eexists. split; [vm_compute; reflexivity|]. split; [reflexivity|].
    discriminate.
  - vm_compute. reflexivity.
Qed.

(** C10 (amended). When no function node of the graph with the given name
    has [is_exported = true], every report [find_all_usages] returns for
    that name has the empty node ID, and [get_callers] and [get_calls]
    return the empty list: the name is resolved through the index of
    exported functions only. *)
Theorem unexported_name_has_no_node_id
  (readlines : string -> option (list string)) (graph : CodeGraph.t)
  (function_name : string) :
  (forall id n,
     In (id, n) (Py.items (CodeGraph.nodes graph)) ->
     GraphNode.type n = FUNCTION ->
     GraphNode.name n = function_name ->
     GraphNode.is_exported n = false) ->
  let a := CodeAnalyzer.create_indexes readlines (CodeAnalyzer.init graph) in
  (forall report,
     CodeAnalyzer.find_all_usages a function_name = Some report ->
     UsageReport.node_id report = "") /\
  CodeAnalyzer.get_callers a function_name = [] /\
  CodeAnalyzer.get_calls a function_name = [].
Proof.
  intros Hnone a.
  assert (Hid : CodeAnalyzer._get_node_id_by_name a function_name = None).
  { unfold CodeAnalyzer._get_node_id_by_name.
    destruct (Py.get _ _) as [v|] eqn:E; [|reflexivity].
    destruct (create_indexes_facts readlines graph) as [_ Hexp].
    destruct (Hexp _ _ E) as (n & Hin & Hty & Hx & Hname).
    rewrite (Hnone _ _ Hin Hty Hname) in Hx. discriminate. }
  split; [|split].
  - intros report H. apply find_all_usages_report in H.
    destruct H as (_ & _ & _ & _ & _ & _ & Hn). now rewrite Hn, Hid.
  - unfold CodeAnalyzer.get_callers. now rewrite Hid.
  - unfold CodeAnalyzer.get_calls. now rewrite Hid.
Qed.

Lemma unexported_name_has_no_node_id_witness :
  (exists report,
     CodeAnalyzer.find_all_usages shadow_analyzer "h" = Some report /\
     UsageReport.total_usages report = 2 /\
     UsageReport.node_id report = "") /\
  CodeAnalyzer.get_callers shadow_analyzer "h" = [].
Proof.
  assert (Hnone : forall id n,
            In (id, n) (Py.items (CodeGraph.nodes shadow_graph)) ->
            GraphNode.type n = FUNCTION ->
            GraphNode.name n = "h" ->
            GraphNode.is_exported n = false).
  { vm_compute. intros id n H _ Hn.
    repeat (destruct H as [H|H]; [inversion H; subst; clear H;
                                  try reflexivity; try discriminate|]).
    contradiction. }
  destruct (unexported_name_has_no_node_id no_sources shadow_graph "h" Hnone)
    as (Hrep & Hcallers & _).
  split; [|exact Hcallers].
  eexists. split; [vm_compute; reflexivity|]. split; [reflexivity|].
  apply Hrep. vm_compute. reflexivity.
Defined.

(* ------------------------------------------------------------------ *)
(** ** The graph builder, step by step *)
(* ------------------------------------------------------------------ *)

Lemma same_definition_refl n : same_definition n n.
Proof. repeat split. Qed.

Lemma same_definition_trans n1 n2 n3 :
  same_definition n1 n2 -> same_definition n2 n3 -> same_definition n1 n3.
Proof.
  unfold same_definition. intros H1 H2.
  decompose [and] H1. decompose [and] H2. repeat split; congruence.
Qed.

Lemma nodes_kept_refl ns : nodes_kept ns ns.
Proof. intros k n H. exists n. split; [exact H | apply same_definition_refl]. Qed.

Lemma nodes_kept_trans ns1 ns2 ns3 :
  nodes_kept ns1 ns2 -> nodes_kept ns2 ns3 -> nodes_kept ns1 ns3.
Proof.
  intros H1 H2 k n Hk.
  destruct (H1 k n Hk) as (n2 & Hk2 & S12).
  destruct (H2 k n2 Hk2) as (n3 & Hk3 & S23).
  exists n3. split; [exact Hk3 | eapply same_definition_trans; eauto].
Qed.

(** Writing back a node with the same definition keeps the nodes. *)
Lemma nodes_kept_set ns k n n' :
  Py.get ns k = Some n -> same_definition n n' ->
  nodes_kept ns (Py.set ns k n').
Proof.
  intros Hk Hs k0 n0 H0. rewrite get_set.
  destruct (String.eqb k k0) eqn:E.
  - apply String.eqb_eq in E. subst k0. rewrite Hk in H0.
    injection H0 as <-. eauto.
  - exists n0. split; [exact H0 | apply same_definition_refl].
Qed.

Lemma nodes_kept_has_key ns ns' k :
  nodes_kept ns ns' -> Py.has_key ns k = true -> Py.has_key ns' k = true.
Proof.
  unfold Py.has_key. intros H Hk.
  destruct (Py.get ns k) as [n|] eqn:E; [|discriminate].
  destruct (H k n E) as (n' & -> & _). reflexivity.
Qed.

Section GraphOk.
Implicit Types (ns : Py.dict GraphNode.t) (es : list GraphEdge.t)
  (fm : Py.dict string).

Lemma graph_ok_set_node ns es fm k n :
  graph_ok ns es fm -> GraphNode.called_by n = [] ->
  graph_ok (Py.set ns k n) es fm.
Proof.
  intros (H1 & H2 & H3 & H4) Hn. repeat split.
  - intros name id Hid. apply has_key_set. eauto.
  - intros e He. apply has_key_set. eauto.
  - intros k0 n0. rewrite get_set.
    destruct (String.eqb k k0); [now intros [= <-] | apply H3].
  - exact H4.
Qed.

Lemma graph_ok_add_edge ns es fm e :
  graph_ok ns es fm ->
  Py.has_key ns (GraphEdge.target_id e) = true ->
  (GraphEdge.edge_type e <> CALLS ->
   GraphEdge.source_id e
   = GraphBuilder._make_file_id (GraphEdge.file_path e)) ->
  graph_ok ns (es ++ [e]) fm.
Proof.
  intros (H1 & H2 & H3 & H4) Ht Hs. repeat split; auto.
  - intros e0 He0. apply in_app_or in He0.
    destruct He0 as [He0|[<-|[]]]; auto.
  - intros e0 He0. apply in_app_or in He0.
    destruct He0 as [He0|[<-|[]]]; auto.
Qed.

Lemma graph_ok_set_name ns es fm name id :
  graph_ok ns es fm -> Py.has_key ns id = true ->
  graph_ok ns es (Py.set fm name id).
Proof.
  intros (H1 & H2 & H3 & H4) Hid. repeat split; auto.
  intros name0 id0. rewrite get_set.
  destruct (String.eqb name name0); [now intros [= <-] | apply H1].
Qed.

End GraphOk.

(** *** What each step does to the nodes, the edges and the name table *)

Lemma create_file_node_view b pf :
  let b' := GraphBuilder._create_file_node b pf in
  let fid := GraphBuilder._make_file_id (ParsedFile.file_path pf) in
  exists n,
    GraphNode.called_by n = [] /\
    CodeGraph.nodes (GraphBuilder.graph b')
    = Py.set (CodeGraph.nodes (GraphBuilder.graph b)) fid n /\
    CodeGraph.edges (GraphBuilder.graph b')
    = CodeGraph.edges (GraphBuilder.graph b) /\
    GraphBuilder._function_map b' = GraphBuilder._function_map b /\
    CodeGraph.total_functions (GraphBuilder.graph b')
    = CodeGraph.total_functions (GraphBuilder.graph b).
Proof.
  eexists. split; [|split; [reflexivity | repeat split]]. reflexivity.
Qed.

Lemma create_function_nodes_step_view b d :
  let b' := GraphBuilder._create_function_nodes_step b d in
  CodeGraph.nodes (GraphBuilder.graph b')
  = Py.set (CodeGraph.nodes (GraphBuilder.graph b))
           (function_id d) (function_node d) /\
  CodeGraph.edges (GraphBuilder.graph b')
  = CodeGraph.edges (GraphBuilder.graph b) ++ [defines_edge d] /\
  GraphBuilder._function_map b'
  = Py.set (GraphBuilder._function_map b)
           (FunctionDefinition.name d) (function_id d) /\
  CodeGraph.total_functions (GraphBuilder.graph b')
  = CodeGraph.total_functions (GraphBuilder.graph b) + 1.
Proof. repeat split. Qed.

Lemma resolve_function_id_has_key b func_name context_file target :
  builder_ok b ->
  GraphBuilder._resolve_function_id b func_name context_file = Some target ->
  Py.has_key (CodeGraph.nodes (GraphBuilder.graph b)) target = true.
Proof.
  intros (H1 & _) H. unfold GraphBuilder._resolve_function_id in H.
  unfold CodeGraph.get_node in H.
  destruct (Py.get (CodeGraph.nodes _) _) eqn:E.
  - injection H as <-. unfold Py.has_key. now rewrite E.
  - eauto.
Qed.

Lemma create_call_edges_step_view b call :
  let b' := GraphBuilder._create_call_edges_step b call in
  b' = b \/
  exists target,
    GraphBuilder._resolve_function_id b (FunctionCall.function_name call)
      (FunctionCall.file_path call) = Some target /\
    CodeGraph.edges (GraphBuilder.graph b')
    = CodeGraph.edges (GraphBuilder.graph b) ++ [call_edge call target] /\
    GraphBuilder._function_map b' = GraphBuilder._function_map b /\
    CodeGraph.total_functions (GraphBuilder.graph b')
    = CodeGraph.total_functions (GraphBuilder.graph b) /\
    (CodeGraph.nodes (GraphBuilder.graph b')
     = CodeGraph.nodes (GraphBuilder.graph b) \/
     exists sn,
       Py.get (CodeGraph.nodes (GraphBuilder.graph b)) (call_source_id call)
       = Some sn /\
       CodeGraph.nodes (GraphBuilder.graph b')
       = Py.set (CodeGraph.nodes (GraphBuilder.graph b))
                (call_source_id call)
                (GraphNode.calls_append sn target)).
Proof.
  unfold GraphBuilder._create_call_edges_step.
  fold (call_source_id call).
  destruct (GraphBuilder._resolve_function_id _ _ _) as [target|];
    [|now left].
  destruct (Py.truthy (call_source_id call) && Py.truthy target)%bool;
    [|now left].
  right. exists target. split; [reflexivity|].
  unfold CodeGraph.get_node.
  cbn [CodeGraph.add_edge GraphEdge.edge_type CodeGraph.nodes].
  destruct (Py.get (CodeGraph.nodes (GraphBuilder.graph b))
                   (call_source_id call)) as [sn|] eqn:E.
  - destruct (negb _).
    + do 3 (split; [reflexivity|]). right. exists sn. split; reflexivity.
    + do 3 (split; [reflexivity|]). now left.
  - do 3 (split; [reflexivity|]). now left.
Qed.

Lemma create_import_edges_step_view pf imp b imported_name :
  let b' := GraphBuilder._create_import_edges_step pf imp b imported_name in
  b' = b \/
  exists target,
    Py.get (GraphBuilder._function_map b) imported_name = Some target /\
    CodeGraph.edges (GraphBuilder.graph b')
    = CodeGraph.edges (GraphBuilder.graph b) ++ [import_edge pf imp target] /\
    CodeGraph.nodes (GraphBuilder.graph b')
    = CodeGraph.nodes (GraphBuilder.graph b) /\
    GraphBuilder._function_map b' = GraphBuilder._function_map b /\
    CodeGraph.total_functions (GraphBuilder.graph b')
    = CodeGraph.total_functions (GraphBuilder.graph b).
Proof.
  unfold GraphBuilder._create_import_edges_step,
    GraphBuilder._resolve_imported_function.
  destruct (Py.get _ _) as [target|]; [|now left].
  destruct (Py.truthy target); [|now left].
  right. exists target. repeat split.
Qed.

Lemma create_export_edges_step_view pf exp b exported_name :
  let b' := GraphBuilder._create_export_edges_step pf exp b exported_name in
  b' = b \/
  (Py.has_key (CodeGraph.nodes (GraphBuilder.graph b))
     (GraphBuilder._make_function_id (ParsedFile.file_path pf) exported_name)
   = true /\
   CodeGraph.edges (GraphBuilder.graph b')
   = CodeGraph.edges (GraphBuilder.graph b)
     ++ [export_edge pf exp exported_name] /\
   CodeGraph.nodes (GraphBuilder.graph b')
   = CodeGraph.nodes (GraphBuilder.graph b) /\
   GraphBuilder._function_map b' = GraphBuilder._function_map b /\
   CodeGraph.total_functions (GraphBuilder.graph b')
   = CodeGraph.total_functions (GraphBuilder.graph b)).
Proof.
  unfold GraphBuilder._create_export_edges_step, CodeGraph.get_node,
    Py.has_key.
  destruct (Py.get _ _); [|now left].
  right. repeat split.
Qed.

(** *** The invariant, step by step *)

Lemma extends_refl b : extends b b.
Proof. split; [apply nodes_kept_refl | split; reflexivity]. Qed.

Lemma extends_trans b1 b2 b3 : extends b1 b2 -> extends b2 b3 -> extends b1 b3.
Proof.
  intros (N1 & F1 & T1) (N2 & F2 & T2). split; [|split; congruence].
  eapply nodes_kept_trans; eauto.
Qed.

Lemma fold_left_extends {B} (P : GraphBuilder.t -> Prop)
  (f : GraphBuilder.t -> B -> GraphBuilder.t) (l : list B) :
  (forall b x, In x l -> P b -> P (f b x) /\ extends b (f b x)) ->
  forall b, P b -> P (fold_left f l b) /\ extends b (fold_left f l b).
Proof.
  induction l as [|x r IH]; intros Hf b Hb; simpl.
  - split; [exact Hb | apply extends_refl].
  - destruct (Hf b x (or_introl eq_refl) Hb) as [Hb' He].
    destruct (IH (fun b y Hy => Hf b y (or_intror Hy)) _ Hb') as [Hb'' He'].
    split; [exact Hb'' | eapply extends_trans; eauto].
Qed.

Lemma files_ok_add_edge files b b' e :
  files_ok files b ->
  CodeGraph.nodes (GraphBuilder.graph b')
  = CodeGraph.nodes (GraphBuilder.graph b) ->
  CodeGraph.edges (GraphBuilder.graph b')
  = CodeGraph.edges (GraphBuilder.graph b) ++ [e] ->
  Py.has_key (CodeGraph.nodes (GraphBuilder.graph b))
    (GraphBuilder._make_file_id (GraphEdge.file_path e)) = true ->
  files_ok files b'.
Proof.
  intros [F E] Hn He Hk. split.
  - intros pf Hpf. rewrite Hn. auto.
  - intros e0. rewrite He, Hn. intros H0. apply in_app_or in H0.
    destruct H0 as [H0|[<-|[]]]; auto.
Qed.

Lemma create_function_nodes_step_ok files b d :
  (exists pf, In pf files /\ In d (ParsedFile.functions pf)) ->
  state_ok files b ->
  state_ok files (GraphBuilder._create_function_nodes_step b d).
Proof.
  intros (pf & Hpf & Hd) [Hb Hf].
  destruct (create_function_nodes_step_view b d) as (Hn & He & Hm & _).
  split.
  - unfold builder_ok. rewrite Hn, He, Hm.
    apply graph_ok_add_edge;
      [apply graph_ok_set_name; [apply graph_ok_set_node|] | |];
      try apply has_key_set_same; auto.
  - intros WF. specialize (Hf WF). destruct Hf as [F E]. split.
    + intros pf0 H0. rewrite Hn. apply has_key_set. auto.
    + intros e0. rewrite He, Hn. intros H0. apply has_key_set.
      apply in_app_or in H0. destruct H0 as [H0|[<-|[]]]; [auto|].
      simpl. destruct (WF pf Hpf) as [W _]. rewrite (W d Hd). auto.
Qed.

Lemma create_call_edges_step_ok files pf b call :
  In pf files -> In call (ParsedFile.calls pf) ->
  state_ok files b ->
  state_ok files (GraphBuilder._create_call_edges_step b call) /\
  extends b (GraphBuilder._create_call_edges_step b call).
Proof.
  intros Hpf Hc [Hb Hf].
  destruct (create_call_edges_step_view b call)
    as [->|(target & Hres & He & Hm & Ht & Hn)].
  { split; [split; assumption | apply extends_refl]. }
  pose proof (resolve_function_id_has_key _ _ _ _ Hb Hres) as Hk.
  assert (Hfile : records_in_own_file files ->
                  Py.has_key (CodeGraph.nodes (GraphBuilder.graph b))
                    (GraphBuilder._make_file_id (FunctionCall.file_path call))
                  = true).
  { intros WF. destruct (Hf WF) as [F _]. destruct (WF pf Hpf) as [_ W].
    rewrite (W call Hc). auto. }
  destruct Hn as [Hn|(sn & Hsn & Hn)].
  - split; [split|].
    + unfold builder_ok. rewrite Hn, He, Hm.
      apply graph_ok_add_edge; auto. intros H. now elim H.
    + intros WF. eapply files_ok_add_edge; eauto; simpl; auto.
    + split; [rewrite Hn; apply nodes_kept_refl | auto].
  - destruct Hb as (B1 & B2 & B3 & B4).
    split; [split|].
    + unfold builder_ok. rewrite Hn, He, Hm.
      apply graph_ok_add_edge.
      * apply graph_ok_set_node; [repeat split; assumption|].
        simpl. eauto.
      * apply has_key_set. exact Hk.
      * intros H. now elim H.
    + intros WF. destruct (Hf WF) as [F E]. split.
      * intros pf0 H0. rewrite Hn. apply has_key_set. auto.
      * intros e0. rewrite He, Hn. intros H0. apply has_key_set.
        apply in_app_or in H0. destruct H0 as [H0|[<-|[]]]; simpl; auto.
    + split; [|auto]. rewrite Hn. eapply nodes_kept_set; eauto.
      repeat split.
Qed.

Lemma create_import_edges_step_ok files pf imp b imported_name :
  In pf files ->
  state_ok files b ->
  state_ok files
    (GraphBuilder._create_import_edges_step pf imp b imported_name) /\
  extends b (GraphBuilder._create_import_edges_step pf imp b imported_name).
Proof.
  intros Hpf [Hb Hf].
  destruct (create_import_edges_step_view pf imp b imported_name)
    as [->|(target & Hres & He & Hn & Hm & Ht)].
  { split; [split; assumption | apply extends_refl]. }
  split; [split|].
  - unfold builder_ok. rewrite Hn, He, Hm.
    apply graph_ok_add_edge; auto. simpl. destruct Hb as (B1 & _). eauto.
  - intros WF. destruct (Hf WF) as [F E].
    eapply files_ok_add_edge; eauto; simpl; auto.
  - split; [rewrite Hn; apply nodes_kept_refl | auto].
Qed.

Lemma create_export_edges_step_ok files pf exp b exported_name :
  In pf files ->
  state_ok files b ->
  state_ok files
    (GraphBuilder._create_export_edges_step pf exp b exported_name) /\
  extends b (GraphBuilder._create_export_edges_step pf exp b exported_name).
Proof.
  intros Hpf [Hb Hf].
  destruct (create_export_edges_step_view pf exp b exported_name)
    as [->|(Hk & He & Hn & Hm & Ht)].
  { split; [split; assumption | apply extends_refl]. }
  split; [split|].
  - unfold builder_ok. rewrite Hn, He, Hm.
    apply graph_ok_add_edge; auto.
  - intros WF. destruct (Hf WF) as [F E].
    eapply files_ok_add_edge; eauto; simpl; auto.
  - split; [rewrite Hn; apply nodes_kept_refl | auto].
Qed.

(** *** The invariant, phase by phase *)

Lemma init_builder_ok storage_type :
  builder_ok (GraphBuilder.init storage_type).
Proof.
  unfold builder_ok, graph_ok. simpl. repeat split.
  - intros name id H. cbv in H. discriminate H.
  - intros e [].
  - intros k n H. cbv in H. discriminate H.
  - intros e [].
Qed.

Lemma file_nodes_phase files : forall b,
  builder_ok b ->
  let b1 := fold_left GraphBuilder._create_file_node files b in
  builder_ok b1 /\
  (forall pf, In pf files ->
     Py.has_key (CodeGraph.nodes (GraphBuilder.graph b1))
       (GraphBuilder._make_file_id (ParsedFile.file_path pf)) = true) /\
  (forall k, Py.has_key (CodeGraph.nodes (GraphBuilder.graph b)) k = true ->
     Py.has_key (CodeGraph.nodes (GraphBuilder.graph b1)) k = true) /\
  CodeGraph.edges (GraphBuilder.graph b1)
  = CodeGraph.edges (GraphBuilder.graph b) /\
  GraphBuilder._function_map b1 = GraphBuilder._function_map b /\
  CodeGraph.total_functions (GraphBuilder.graph b1)
  = CodeGraph.total_functions (GraphBuilder.graph b).
Proof.
  induction files as [|pf r IH]; intros b Hb; simpl.
  - split; [exact Hb|]. split; [intros pf []|]. repeat split; auto.
  - destruct (create_file_node_view b pf) as (n & Hcb & Hn & He & Hm & Ht).
    cbv zeta in *.
    set (b' := GraphBuilder._create_file_node b pf) in *.
    assert (Hb' : builder_ok b').
    { unfold builder_ok. rewrite Hn, He, Hm.
      now apply graph_ok_set_node. }
    destruct (IH b' Hb') as (I1 & I2 & I3 & I4 & I5 & I6).
    split; [exact I1|]. split; [|split; [|repeat split; congruence]].
    + intros pf0 [<-|H0]; [|auto].
      apply I3. rewrite Hn. apply has_key_set_same.
    + intros k Hk. apply I3. rewrite Hn. now apply has_key_set.
Qed.

Lemma after_phase2_ok storage_type files :
  state_ok files (after_phase2 (GraphBuilder.init storage_type) files).
Proof.
  unfold after_phase2.
  destruct (file_nodes_phase files _ (init_builder_ok storage_type))
    as (Hb & Hf & _ & He & _).
  cbv zeta in *.
  set (b1 := fold_left GraphBuilder._create_file_node files _) in *.
  assert (H1 : state_ok files b1).
  { split; [exact Hb|]. intros _. split; [exact Hf|].
    rewrite He. simpl. intros e []. }
  clearbody b1.
  apply fold_left_invariant; [exact H1|].
  intros b pf Hpf Hs. unfold GraphBuilder._create_function_nodes.
  apply fold_left_invariant; [exact Hs|].
  intros b' d Hd. apply create_function_nodes_step_ok. eauto.
Qed.

Lemma after_phase5_ok storage_type files :
  let b2 := after_phase2 (GraphBuilder.init storage_type) files in
  let b5 := after_phase5 (GraphBuilder.init storage_type) files in
  state_ok files b5 /\ extends b2 b5.
Proof.
  unfold after_phase5.
  pose proof (after_phase2_ok storage_type files) as H2.
  set (b2 := after_phase2 _ _) in *. clearbody b2. cbv zeta.
  destruct (fold_left_extends (state_ok files)
              GraphBuilder._create_call_edges files) with (b := b2)
    as [H3 E3]; [|exact H2|].
  { intros b pf Hpf Hs. unfold GraphBuilder._create_call_edges.
    apply fold_left_extends; [|exact Hs].
    intros b' c Hc. now apply create_call_edges_step_ok with (pf := pf). }
  set (b3 := fold_left GraphBuilder._create_call_edges files b2) in *.
  clearbody b3.
  destruct (fold_left_extends (state_ok files)
              GraphBuilder._create_import_edges files) with (b := b3)
    as [H4 E4]; [|exact H3|].
  { intros b pf Hpf Hs. unfold GraphBuilder._create_import_edges.
    apply fold_left_extends; [|exact Hs].
    intros b' imp _ Hs'.
    apply fold_left_extends; [|exact Hs'].
    intros b'' name _. now apply create_import_edges_step_ok. }
  set (b4 := fold_left GraphBuilder._create_import_edges files b3) in *.
  clearbody b4.
  destruct (fold_left_extends (state_ok files)
              GraphBuilder._create_export_edges files) with (b := b4)
    as [H5 E5]; [|exact H4|].
  { intros b pf Hpf Hs. unfold GraphBuilder._create_export_edges.
    apply fold_left_extends; [|exact Hs].
    intros b' exp _ Hs'.
    apply fold_left_extends; [|exact Hs'].
    intros b'' name _. now apply create_export_edges_step_ok. }
  split; [exact H5|].
  eapply extends_trans; [exact E3|]. eapply extends_trans; eauto.
Qed.

Lemma build_graph_phases b files :
  GraphBuilder.build_graph b files
  = GraphBuilder._build_reverse_relationships (after_phase5 b files).
Proof. reflexivity. Qed.

(** *** Phase 6 *)

Lemma reverse_step_kept ns e :
  nodes_kept ns (GraphBuilder._build_reverse_relationships_step ns e).
Proof.
  unfold GraphBuilder._build_reverse_relationships_step.
  destruct (GraphEdge.edge_type e); try apply nodes_kept_refl;
    destruct (Py.get ns (GraphEdge.target_id e)) as [tn|] eqn:E;
    try apply nodes_kept_refl;
    destruct (negb _); try apply nodes_kept_refl;
    (eapply nodes_kept_set; [exact E | repeat split]).
Qed.

Lemma reverse_phase_kept es : forall ns,
  nodes_kept ns
    (fold_left GraphBuilder._build_reverse_relationships_step es ns).
Proof.
  induction es as [|e r IH]; intros ns; simpl; [apply nodes_kept_refl|].
  eapply nodes_kept_trans; [apply reverse_step_kept | apply IH].
Qed.

Lemma reverse_relationships_extends b :
  extends b (GraphBuilder._build_reverse_relationships b) /\
  CodeGraph.edges (GraphBuilder.graph
                     (GraphBuilder._build_reverse_relationships b))
  = CodeGraph.edges (GraphBuilder.graph b).
Proof.
  unfold GraphBuilder._build_reverse_relationships, extends. simpl.
  repeat split. apply reverse_phase_kept.
Qed.

(** One step of phase 6 adds the source of a Calls edge to the [called_by]
    list of its target, when the target is in the node map, and nothing
    else. *)
Lemma reverse_step_called_by ns e k a :
  In a (called_by_of (GraphBuilder._build_reverse_relationships_step ns e) k)
  <->
  In a (called_by_of ns k) \/
  (GraphEdge.edge_type e = CALLS /\ GraphEdge.target_id e = k /\
   GraphEdge.source_id e = a /\ Py.has_key ns k = true).
Proof.
  unfold GraphBuilder._build_reverse_relationships_step, called_by_of,
    Py.has_key.
  destruct (GraphEdge.edge_type e) eqn:Ety;
    try (split; [now left | intros [H|(H & _)]; [exact H | discriminate]]).
  - (* CALLS *)
    destruct (Py.get ns (GraphEdge.target_id e)) as [tn|] eqn:Et.
    + destruct (Py.mem (GraphEdge.source_id e) (GraphNode.called_by tn))
        eqn:Em; simpl.
      * apply mem_In in Em. split; [now left|].
        intros [H|(_ & <- & <- & _)]; [exact H|]. now rewrite Et.
      * rewrite get_set.
        destruct (String.eqb (GraphEdge.target_id e) k) eqn:Ek.
        -- apply String.eqb_eq in Ek. subst k. rewrite Et. simpl.
           rewrite in_app_iff. simpl. split.
           ++ intros [H|[<-|[]]]; [now left | right; auto].
           ++ intros [H|(_ & _ & <- & _)]; [now left | right; now left].
        -- apply String.eqb_neq in Ek. split; [now left|].
           intros [H|(_ & H & _)]; [exact H | contradiction].
    + split; [now left|].
      intros [H|(_ & <- & _ & H)]; [exact H|]. rewrite Et in H. discriminate.
  - (* IMPORTS *)
    destruct (Py.get ns (GraphEdge.target_id e)) as [tn|] eqn:Et;
      [destruct (negb _)|];
      try (split; [now left | intros [H|(H & _)]; [exact H | discriminate]]).
    rewrite get_set.
    destruct (String.eqb (GraphEdge.target_id e) k) eqn:Ek.
    + apply String.eqb_eq in Ek. subst k. rewrite Et. simpl.
      split; [now left | intros [H|(H & _)]; [exact H | discriminate]].
    + split; [now left | intros [H|(H & _)]; [exact H | discriminate]].
Qed.

Lemma reverse_step_has_key ns e k :
  Py.has_key (GraphBuilder._build_reverse_relationships_step ns e) k
  = Py.has_key ns k.
Proof.
  unfold GraphBuilder._build_reverse_relationships_step.
  destruct (GraphEdge.edge_type e); try reflexivity;
    destruct (Py.get ns (GraphEdge.target_id e)) as [tn|] eqn:Et;
    try reflexivity; destruct (negb _); try reflexivity;
    unfold Py.has_key; rewrite get_set;
    (destruct (String.eqb (GraphEdge.target_id e) k) eqn:Ek;
     [apply String.eqb_eq in Ek; subst k; now rewrite Et | reflexivity]).
Qed.

Lemma reverse_phase_called_by es : forall ns k a,
  In a (called_by_of
          (fold_left GraphBuilder._build_reverse_relationships_step es ns) k)
  <->
  In a (called_by_of ns k) \/
  (exists e, In e es /\ GraphEdge.edge_type e = CALLS /\
             GraphEdge.target_id e = k /\ GraphEdge.source_id e = a /\
             Py.has_key ns k = true).
Proof.
  induction es as [|e r IH]; intros ns k a; simpl.
  - split; [now left | intros [H|(e & [] & _)]; exact H].
  - rewrite IH, reverse_step_called_by, reverse_step_has_key. split.
    + intros [[H|(H1 & H2 & H3 & H4)]|(e0 & H0 & H)].
      * now left.
      * right. exists e. auto.
      * right. exists e0. auto.
    + intros [H|(e0 & [<-|H0] & H1 & H2 & H3 & H4)].
      * left. now left.
      * left. right. auto.
      * right. exists e0. auto.
Qed.

Lemma has_key_get {V} (d : Py.dict V) k :
  Py.has_key d k = true <-> exists v, Py.get d k = Some v.
Proof.
  unfold Py.has_key. destruct (Py.get d k) as [v|].
  - split; eauto.
  - split; [discriminate | intros (v & H); discriminate].
Qed.

(* ------------------------------------------------------------------ *)
(** ** The built graph *)
(* ------------------------------------------------------------------ *)

(** C5. After [build_graph], for every Calls edge the [called_by] list of the
    target node contains the source ID; and a source ID is in the
    [called_by] list of a node only if the graph has a Calls edge from that
    source to that node. *)
Theorem called_by_iff_calls_edge
  (storage_type : string) (files : list ParsedFile.t) :
  let g :=
    GraphBuilder.graph
      (GraphBuilder.build_graph (GraphBuilder.init storage_type) files) in
  (forall e,
     In e (CodeGraph.edges g) -> GraphEdge.edge_type e = CALLS ->
     exists n,
       CodeGraph.get_node g (GraphEdge.target_id e) = Some n /\
       In (GraphEdge.source_id e) (GraphNode.called_by n)) /\
  (forall a b n,
     CodeGraph.get_node g b = Some n -> In a (GraphNode.called_by n) ->
     exists e,
       In e (CodeGraph.edges g) /\ GraphEdge.edge_type e = CALLS /\
       GraphEdge.source_id e = a /\ GraphEdge.target_id e = b).
Proof.
  rewrite build_graph_phases.
  destruct (after_phase5_ok storage_type files) as [[Hok _] _].
  cbv zeta in Hok.
  set (b5 := after_phase5 _ _) in *. clearbody b5.
  destruct Hok as (_ & Htgt & Hcb & _).
  unfold GraphBuilder._build_reverse_relationships, CodeGraph.get_node.
  cbn [GraphBuilder.graph GraphBuilder.with_graph CodeGraph.with_nodes
       CodeGraph.nodes CodeGraph.edges].
  set (es := CodeGraph.edges (GraphBuilder.graph b5)) in *.
  set (ns := CodeGraph.nodes (GraphBuilder.graph b5)) in *.
  split.
  - intros e He Hty.
    assert (Hin : In (GraphEdge.source_id e)
                    (called_by_of
                       (fold_left
                          GraphBuilder._build_reverse_relationships_step
                          es ns)
                       (GraphEdge.target_id e))).
    { apply reverse_phase_called_by. right. exists e. repeat split; auto. }
    unfold called_by_of in Hin.
    destruct (Py.get _ _) as [n|]; [eauto | contradiction].
  - intros a b n Hn Ha.
    assert (Hin : In a (called_by_of
                          (fold_left
                             GraphBuilder._build_reverse_relationships_step
                             es ns) b)).
    { unfold called_by_of. now rewrite Hn. }
    apply reverse_phase_called_by in Hin.
    destruct Hin as [Hin|(e & He & Hty & Ht & Hs & _)]; [|eauto].
    unfold called_by_of in Hin.
    destruct (Py.get ns b) as [n0|] eqn:E; [|contradiction].
    rewrite (Hcb _ _ E) in Hin. contradiction.
Qed.

Lemma called_by_iff_calls_edge_witness :
  exists n,
    CodeGraph.get_node scenario_a_graph "calc:a" = Some n /\
    In "calc:b" (GraphNode.called_by n).
Proof.
  destruct (called_by_iff_calls_edge "json" scenario_a_files) as [Hfwd _].
  apply (Hfwd (GraphEdge.mk "calc:b->calls->calc:a@2" "calc:b" "calc:a"
                 CALLS "/repo/calc.py" 2 None)).
  - vm_compute. right. right. left. reflexivity.
  - reflexivity.
Defined.

(** C6 (evaluation of the code at the failing input). [a.js] holds the
    function [f] and one call of [f] whose enclosing function the parser
    names [total]; no function [total] is defined. The callee resolves, so
    [_create_call_edges] passes its test of the two IDs, the source ID
    [a:total] being a non-empty string, and emits the edge: the graph has a
    Calls edge whose target [a:f] is in the node map and whose source
    [a:total] is not. The claim has every source ID in the node map, or no
    edge. *)
Theorem edge_from_undefined_caller_dangles :
  all_calls dangling_files
  = [ FunctionCall.mk "f" "/repo/a.js" 3 (Some "total") 0 ] /\
  map function_id (all_functions dangling_files) = ["a:f"] /\
  map fst (Py.items (CodeGraph.nodes dangling_graph))
  = ["file:a.js"; "a:f"] /\
  exists e,
    In e (CodeGraph.edges dangling_graph) /\
    GraphEdge.edge_type e = CALLS /\
    GraphEdge.source_id e = "a:total" /\
    GraphEdge.target_id e = "a:f" /\
    CodeGraph.get_node dangling_graph (GraphEdge.source_id e) = None /\
    CodeGraph.get_node dangling_graph (GraphEdge.target_id e) <> None.
Proof.
  split; [reflexivity|]. split; [reflexivity|]. split; [reflexivity|].
  exists (GraphEdge.mk "a:total->calls->a:f@3" "a:total" "a:f" CALLS
            "/repo/a.js" 3 None).
  split; [vm_compute; right; left; reflexivity|].
  repeat split. vm_compute. discriminate.
Qed.

(** C2 (counterexample). Of the two definitions with the stable ID [calc:a]
    the node map holds the second, at line 7 of [/repo/y/calc.py], not the
    first; the name table maps [a] to the ID of the last of the three
    definitions, not of the first; and all three are counted. *)
Lemma first_writer_wins_counterexample :
  function_id (def_at "a" "/repo/x/calc.py" 1 true) = "calc:a" /\
  function_id (def_at "a" "/repo/y/calc.py" 7 true) = "calc:a" /\
  (exists n,
     CodeGraph.get_node (GraphBuilder.graph collision_builder) "calc:a"
     = Some n /\
     GraphNode.file_path n = "/repo/y/calc.py" /\
     GraphNode.line_number n = 7) /\
  Py.get (GraphBuilder._function_map collision_builder) "a"
  = Some "other:a" /\
  CodeGraph.total_functions (GraphBuilder.graph collision_builder) = 3.
Proof.
  split; [reflexivity|]. split; [reflexivity|]. split; [|split].
  - eexists. split; [vm_compute; reflexivity|]. split; reflexivity.
  - vm_compute. reflexivity.
  - vm_compute. reflexivity.
Qed.

(** *** Phase 2 and the last definition *)

Lemma create_function_nodes_flat b files :
  fold_left GraphBuilder._create_function_nodes files b
  = fold_left GraphBuilder._create_function_nodes_step
              (all_functions files) b.
Proof.
  unfold GraphBuilder._create_function_nodes, all_functions.
  apply fold_left_flat_map.
Qed.

Lemma function_nodes_count defs : forall b,
  CodeGraph.total_functions
    (GraphBuilder.graph
       (fold_left GraphBuilder._create_function_nodes_step defs b))
  = CodeGraph.total_functions (GraphBuilder.graph b) + Py.len defs.
Proof.
  unfold Py.len.
  induction defs as [|d r IH]; intros b; simpl fold_left.
  - simpl. lia.
  - rewrite IH.
    destruct (create_function_nodes_step_view b d) as (_ & _ & _ & Ht).
    cbv zeta in Ht. rewrite Ht. simpl Datatypes.length. lia.
Qed.

(** A node is not touched by later definitions with other IDs. *)
Lemma function_nodes_keep_node defs k n : forall b,
  (forall d', In d' defs -> function_id d' <> k) ->
  Py.get (CodeGraph.nodes (GraphBuilder.graph b)) k = Some n ->
  Py.get (CodeGraph.nodes
            (GraphBuilder.graph
               (fold_left GraphBuilder._create_function_nodes_step defs b)))
         k = Some n.
Proof.
  induction defs as [|d r IH]; intros b Hne Hk; simpl; [exact Hk|].
  apply IH; [intros d' H'; apply Hne; now right|].
  destruct (create_function_nodes_step_view b d) as (Hn & _).
  cbv zeta in Hn. rewrite Hn, get_set_other; [exact Hk|].
  apply Hne. now left.
Qed.

(** A name-table entry is not touched by later definitions with other
    names. *)
Lemma function_nodes_keep_name defs name id : forall b,
  (forall d', In d' defs -> FunctionDefinition.name d' <> name) ->
  Py.get (GraphBuilder._function_map b) name = Some id ->
  Py.get (GraphBuilder._function_map
            (fold_left GraphBuilder._create_function_nodes_step defs b))
         name = Some id.
Proof.
  induction defs as [|d r IH]; intros b Hne Hk; simpl; [exact Hk|].
  apply IH; [intros d' H'; apply Hne; now right|].
  destruct (create_function_nodes_step_view b d) as (_ & _ & Hm & _).
  cbv zeta in Hm. rewrite Hm, get_set_other; [exact Hk|].
  apply Hne. now left.
Qed.

(** C2 (amended). During [build_graph] a definition replaces every earlier
    definition with the same stable ID in the node map and every earlier
    definition with the same bare name in the name table (last writer
    wins): the node kept under an ID is the node of the last definition
    with that ID, and the name table maps a name to the ID of the last
    definition with that name. No collision is recorded; the function
    counter counts every definition, replaced or not. *)
Theorem last_definition_wins
  (storage_type : string) (files : list ParsedFile.t)
  (before after : list FunctionDefinition.t) (d : FunctionDefinition.t) :
  all_functions files = before ++ d :: after ->
  let b := GraphBuilder.build_graph (GraphBuilder.init storage_type) files in
  ((forall d', In d' after -> function_id d' <> function_id d) ->
   exists n,
     CodeGraph.get_node (GraphBuilder.graph b) (function_id d) = Some n /\
     same_definition (function_node d) n) /\
  ((forall d', In d' after ->
      FunctionDefinition.name d' <> FunctionDefinition.name d) ->
   Py.get (GraphBuilder._function_map b) (FunctionDefinition.name d)
   = Some (function_id d)) /\
  CodeGraph.total_functions (GraphBuilder.graph b)
  = Py.len (all_functions files).
Proof.
  intros Hsplit. rewrite build_graph_phases.
  destruct (after_phase5_ok storage_type files) as [_ E25].
  cbv zeta in E25.
  destruct (reverse_relationships_extends
              (after_phase5 (GraphBuilder.init storage_type) files))
    as [E56 _].
  pose proof (extends_trans _ _ _ E25 E56) as (Hkept & Hmap & Htot).
  clear E25 E56. cbv zeta. rewrite Hmap, Htot. clear Hmap Htot.
  unfold CodeGraph.get_node.
  unfold after_phase2 in *. rewrite create_function_nodes_flat in *.
  destruct (file_nodes_phase files _ (init_builder_ok storage_type))
    as (_ & _ & _ & _ & _ & Ht1).
  cbv zeta in Ht1.
  set (b1 := fold_left GraphBuilder._create_file_node files _) in *.
  split; [|split].
  - intros Hne. apply Hkept. rewrite Hsplit, fold_left_app. simpl.
    apply function_nodes_keep_node; [exact Hne|].
    destruct (create_function_nodes_step_view
                (fold_left GraphBuilder._create_function_nodes_step before b1)
                d) as (Hn & _).
    cbv zeta in Hn. rewrite Hn. apply get_set_same.
  - intros Hne. rewrite Hsplit, fold_left_app. simpl.
    apply function_nodes_keep_name; [exact Hne|].
    destruct (create_function_nodes_step_view
                (fold_left GraphBuilder._create_function_nodes_step before b1)
                d) as (_ & _ & Hm & _).
    cbv zeta in Hm. rewrite Hm. apply get_set_same.
  - rewrite function_nodes_count, Ht1. reflexivity.
Qed.

Lemma last_definition_wins_witness :
  all_functions collision_files
  = [def_at "a" "/repo/x/calc.py" 1 true]
    ++ def_at "a" "/repo/y/calc.py" 7 true
    :: [def_at "a" "/repo/other.py" 3 true] /\
  exists n,
    CodeGraph.get_node (GraphBuilder.graph collision_builder) "calc:a"
    = Some n /\
    same_definition (function_node (def_at "a" "/repo/y/calc.py" 7 true)) n.
Proof.
  split; [reflexivity|].
  destruct (last_definition_wins "json" collision_files
              [def_at "a" "/repo/x/calc.py" 1 true]
              [def_at "a" "/repo/other.py" 3 true]
              (def_at "a" "/repo/y/calc.py" 7 true) eq_refl)
    as (Hnode & _ & _).
  apply Hnode. intros d' [<-|[]]. vm_compute. discriminate.
Defined.

(* ------------------------------------------------------------------ *)
(** ** Counters of the built graph *)
(* ------------------------------------------------------------------ *)

Lemma count_edges_app ty es e :
  count_edges ty (es ++ [e])
  = count_edges ty es
    + (if EdgeType_eqb (GraphEdge.edge_type e) ty then 1 else 0).
Proof.
  unfold count_edges, Py.len. rewrite filter_app, length_app. simpl.
  destruct (EdgeType_eqb _ _); simpl; lia.
Qed.

Lemma counted_add_edge g e : counted g -> counted (CodeGraph.add_edge g e).
Proof.
  intros [Hc Hi]. unfold counted, CodeGraph.add_edge.
  destruct (GraphEdge.edge_type e) eqn:E; simpl;
    rewrite !count_edges_app, E; simpl; lia.
Qed.

Lemma counted_add_node g n : counted g -> counted (CodeGraph.add_node g n).
Proof.
  intros H. unfold counted, CodeGraph.add_node.
  destruct (GraphNode.type n); exact H.
Qed.

Lemma counted_with_nodes g ns : counted g -> counted (CodeGraph.with_nodes g ns).
Proof. intros H. exact H. Qed.

(** What a builder step keeps: the agreement of the counters with the edge
    list, and the counter of files. *)
Lemma create_function_nodes_step_counted b d :
  counted (GraphBuilder.graph b) ->
  counted (GraphBuilder.graph (GraphBuilder._create_function_nodes_step b d))
  /\ CodeGraph.total_files
       (GraphBuilder.graph (GraphBuilder._create_function_nodes_step b d))
     = CodeGraph.total_files (GraphBuilder.graph b).
Proof.
  intros H. split; [|reflexivity].
  unfold GraphBuilder._create_function_nodes_step.
  cbn [GraphBuilder.graph].
  apply counted_add_edge, counted_add_node, H.
Qed.

Lemma create_call_edges_step_counted b c :
  counted (GraphBuilder.graph b) ->
  counted (GraphBuilder.graph (GraphBuilder._create_call_edges_step b c))
  /\ CodeGraph.total_files
       (GraphBuilder.graph (GraphBuilder._create_call_edges_step b c))
     = CodeGraph.total_files (GraphBuilder.graph b).
Proof.
  intros H. unfold GraphBuilder._create_call_edges_step.
  destruct (GraphBuilder._resolve_function_id _ _ _); [|now split].
  destruct (_ && _)%bool; [|now split].
  match goal with
  | |- context [CodeGraph.add_edge ?g ?e] =>
      pose proof (counted_add_edge g e H) as H'
  end.
  destruct (CodeGraph.get_node _ _); [destruct (negb _)|];
    (split; [exact H' | reflexivity]).
Qed.

Lemma create_import_edges_step_counted pf imp b name :
  counted (GraphBuilder.graph b) ->
  counted (GraphBuilder.graph
             (GraphBuilder._create_import_edges_step pf imp b name))
  /\ CodeGraph.total_files
       (GraphBuilder.graph
          (GraphBuilder._create_import_edges_step pf imp b name))
     = CodeGraph.total_files (GraphBuilder.graph b).
Proof.
  intros H. unfold GraphBuilder._create_import_edges_step.
  destruct (GraphBuilder._resolve_imported_function _ _ _ _); [|now split].
  destruct (Py.truthy _); [|now split].
  split; [apply counted_add_edge, H | reflexivity].
Qed.

Lemma create_export_edges_step_counted pf exp b name :
  counted (GraphBuilder.graph b) ->
  counted (GraphBuilder.graph
             (GraphBuilder._create_export_edges_step pf exp b name))
  /\ CodeGraph.total_files
       (GraphBuilder.graph
          (GraphBuilder._create_export_edges_step pf exp b name))
     = CodeGraph.total_files (GraphBuilder.graph b).
Proof.
  intros H. unfold GraphBuilder._create_export_edges_step.
  destruct (CodeGraph.get_node _ _); [|now split].
  split; [apply counted_add_edge, H | reflexivity].
Qed.

(** A loop whose body keeps [counted] and the file counter keeps them. *)
Lemma fold_left_counted {B} (f : GraphBuilder.t -> B -> GraphBuilder.t)
  (l : list B) :
  (forall b x,
     counted (GraphBuilder.graph b) ->
     counted (GraphBuilder.graph (f b x)) /\
     CodeGraph.total_files (GraphBuilder.graph (f b x))
     = CodeGraph.total_files (GraphBuilder.graph b)) ->
  forall b,
    counted (GraphBuilder.graph b) ->
    counted (GraphBuilder.graph (fold_left f l b)) /\
    CodeGraph.total_files (GraphBuilder.graph (fold_left f l b))
    = CodeGraph.total_files (GraphBuilder.graph b).
Proof.
  intros Hf. induction l as [|x r IH]; intros b Hb; simpl; [now split|].
  destruct (Hf b x Hb) as [H1 H2]. destruct (IH _ H1) as [H3 H4].
  split; [exact H3 | congruence].
Qed.

Lemma file_nodes_counted files : forall b,
  counted (GraphBuilder.graph b) ->
  counted (GraphBuilder.graph
             (fold_left GraphBuilder._create_file_node files b)) /\
  CodeGraph.total_files
    (GraphBuilder.graph (fold_left GraphBuilder._create_file_node files b))
  = CodeGraph.total_files (GraphBuilder.graph b) + Py.len files.
Proof.
  unfold Py.len.
  induction files as [|pf r IH]; intros b Hb; simpl fold_left.
  - split; [exact Hb | simpl; lia].
  - destruct (IH (GraphBuilder._create_file_node b pf)) as [H1 H2].
    { unfold GraphBuilder._create_file_node. cbn [GraphBuilder.graph
        GraphBuilder.with_graph]. apply counted_add_node, Hb. }
    split; [exact H1|]. rewrite H2. simpl Datatypes.length.
    unfold GraphBuilder._create_file_node. simpl. lia.
Qed.

(** X1. After [build_graph] on a fresh builder the counter of files is the
    number of parsed files, and the counters of calls and imports are the
    numbers of Calls and Imports edges of the edge list. *)
Theorem graph_counters_agree
  (storage_type : string) (files : list ParsedFile.t) :
  let g :=
    GraphBuilder.graph
      (GraphBuilder.build_graph (GraphBuilder.init storage_type) files) in
  CodeGraph.total_files g = Py.len files /\
  CodeGraph.total_calls g = count_edges CALLS (CodeGraph.edges g) /\
  CodeGraph.total_imports g = count_edges IMPORTS (CodeGraph.edges g).
Proof.
  rewrite build_graph_phases. unfold after_phase5, after_phase2.
  destruct (file_nodes_counted files (GraphBuilder.init storage_type))
    as [C1 F1]; [split; reflexivity|].
  set (b1 := fold_left GraphBuilder._create_file_node files _) in *.
  destruct (fold_left_counted GraphBuilder._create_function_nodes files)
    with (b := b1) as [C2 F2]; [|exact C1|].
  { intros b pf. unfold GraphBuilder._create_function_nodes.
    apply fold_left_counted. intros b' d.
    apply create_function_nodes_step_counted. }
  set (b2 := fold_left GraphBuilder._create_function_nodes files b1) in *.
  destruct (fold_left_counted GraphBuilder._create_call_edges files)
    with (b := b2) as [C3 F3]; [|exact C2|].
  { intros b pf. unfold GraphBuilder._create_call_edges.
    apply fold_left_counted. intros b' c.
    apply create_call_edges_step_counted. }
  set (b3 := fold_left GraphBuilder._create_call_edges files b2) in *.
  destruct (fold_left_counted GraphBuilder._create_import_edges files)
    with (b := b3) as [C4 F4]; [|exact C3|].
  { intros b pf. unfold GraphBuilder._create_import_edges.
    apply fold_left_counted. intros b' imp.
    apply fold_left_counted. intros b'' name.
    apply create_import_edges_step_counted. }
  set (b4 := fold_left GraphBuilder._create_import_edges files b3) in *.
  destruct (fold_left_counted GraphBuilder._create_export_edges files)
    with (b := b4) as [C5 F5]; [|exact C4|].
  { intros b pf. unfold GraphBuilder._create_export_edges.
    apply fold_left_counted. intros b' exp.
    apply fold_left_counted. intros b'' name.
    apply create_export_edges_step_counted. }
  set (b5 := fold_left GraphBuilder._create_export_edges files b4) in *.
  destruct C5 as [Hc Hi].
  unfold GraphBuilder._build_reverse_relationships. simpl.
  split; [|split; assumption].
  rewrite F5, F4, F3, F2, F1. reflexivity.
Qed.

(* ------------------------------------------------------------------ *)
(** ** Relationship lists of the built graph *)
(* ------------------------------------------------------------------ *)

Lemma create_file_node_nodes b pf :
  CodeGraph.nodes (GraphBuilder.graph (GraphBuilder._create_file_node b pf))
  = Py.set (CodeGraph.nodes (GraphBuilder.graph b))
           (GraphBuilder._make_file_id (ParsedFile.file_path pf))
           (file_node pf) /\
  CodeGraph.edges (GraphBuilder.graph (GraphBuilder._create_file_node b pf))
  = CodeGraph.edges (GraphBuilder.graph b).
Proof. split; reflexivity. Qed.

Lemma fresh_links_after_phase2 storage_type files :
  fresh_links (after_phase2 (GraphBuilder.init storage_type) files).
Proof.
  unfold after_phase2.
  apply fold_left_invariant.
  - apply fold_left_invariant.
    + split; [intros k n H; cbv in H; discriminate H | intros e []].
    + intros b pf _ [Hn He].
      destruct (create_file_node_nodes b pf) as [En Ee].
      split.
      * intros k n. rewrite En, get_set.
        destruct (String.eqb _ k); [intros [= <-]; now split | apply Hn].
      * intros e. rewrite Ee. apply He.
  - intros b pf _ Hb. unfold GraphBuilder._create_function_nodes.
    apply fold_left_invariant; [exact Hb|].
    intros b' d _ [Hn He].
    destruct (create_function_nodes_step_view b' d) as (En & Ee & _).
    cbv zeta in En, Ee. split.
    + intros k n. rewrite En, get_set.
      destruct (String.eqb _ k); [intros [= <-]; now split | apply Hn].
    + intros e. rewrite Ee. intros H. apply in_app_or in H.
      destruct H as [H|[<-|[]]]; [now apply He | reflexivity].
Qed.

Lemma fresh_links_ok b : fresh_links b -> links_ok b.
Proof.
  intros [Hn He]. split; [|split].
  - intros k n H. now destruct (Hn k n H).
  - intros k n H. destruct (Hn k n H) as [-> _]. constructor.
  - intros k n t H. destruct (Hn k n H) as [-> _]. split; [intros []|].
    intros (e & Hin & Hty & _). rewrite (He e Hin) in Hty. discriminate.
Qed.

Lemma NoDup_snoc {A} (l : list A) (x : A) :
  NoDup l -> ~ In x l -> NoDup (l ++ [x]).
Proof.
  induction l as [|a r IH]; intros Hl Hx; simpl.
  - constructor; [intros [] | constructor].
  - inversion Hl as [|? ? Ha Hr]; subst. constructor.
    + rewrite in_app_iff. simpl. intros [H|[H|[]]]; [contradiction|].
      subst. apply Hx. now left.
    + apply IH; [exact Hr|]. intros H. apply Hx. now right.
Qed.

(** The call step, in the cases its effect on the [calls] lists needs. *)
Lemma create_call_edges_step_links b call :
  let b' := GraphBuilder._create_call_edges_step b call in
  let ns := CodeGraph.nodes (GraphBuilder.graph b) in
  b' = b \/
  exists target,
    CodeGraph.edges (GraphBuilder.graph b')
    = CodeGraph.edges (GraphBuilder.graph b) ++ [call_edge call target] /\
    ((Py.get ns (call_source_id call) = None /\
      CodeGraph.nodes (GraphBuilder.graph b') = ns) \/
     (exists sn,
        Py.get ns (call_source_id call) = Some sn /\
        In target (GraphNode.calls sn) /\
        CodeGraph.nodes (GraphBuilder.graph b') = ns) \/
     (exists sn,
        Py.get ns (call_source_id call) = Some sn /\
        ~ In target (GraphNode.calls sn) /\
        CodeGraph.nodes (GraphBuilder.graph b')
        = Py.set ns (call_source_id call)
                 (GraphNode.calls_append sn target))).
Proof.
  unfold GraphBuilder._create_call_edges_step.
  fold (call_source_id call).
  destruct (GraphBuilder._resolve_function_id _ _ _) as [target|];
    [|now left].
  destruct (Py.truthy (call_source_id call) && Py.truthy target)%bool;
    [|now left].
  right. exists target.
  unfold CodeGraph.get_node.
  cbn [CodeGraph.add_edge GraphEdge.edge_type CodeGraph.nodes].
  destruct (Py.get (CodeGraph.nodes (GraphBuilder.graph b))
                   (call_source_id call)) as [sn|] eqn:E.
  - destruct (Py.mem target (GraphNode.calls sn)) eqn:M; simpl negb; cbv iota.
    + split; [reflexivity|]. right. left. exists sn.
      apply mem_In in M. repeat split; auto.
    + split; [reflexivity|]. right. right. exists sn.
      repeat split; auto. intros H. apply mem_In in H. congruence.
  - split; [reflexivity|]. left. split; reflexivity.
Qed.

Lemma calls_edges_add_other (es : list GraphEdge.t) e :
  GraphEdge.edge_type e <> CALLS ->
  forall k t,
    (exists e0, In e0 (es ++ [e]) /\ GraphEdge.edge_type e0 = CALLS /\
                GraphEdge.source_id e0 = k /\ GraphEdge.target_id e0 = t)
    <->
    (exists e0, In e0 es /\ GraphEdge.edge_type e0 = CALLS /\
                GraphEdge.source_id e0 = k /\ GraphEdge.target_id e0 = t).
Proof.
  intros Hty k t. split; intros (e0 & Hin & H).
  - apply in_app_or in Hin. destruct Hin as [Hin|[<-|[]]]; [eauto|].
    destruct H as [H _]. contradiction.
  - exists e0. split; [apply in_or_app; now left | exact H].
Qed.

Lemma create_call_edges_step_links_ok b call :
  links_ok b -> links_ok (GraphBuilder._create_call_edges_step b call).
Proof.
  intros HL.
  destruct (create_call_edges_step_links b call)
    as [->|(target & Ee & Hcase)]; [exact HL|].
  destruct HL as (L1 & L2 & L3). cbv zeta in *.
  assert (Hnew : forall k t,
            (exists e0,
               In e0 (CodeGraph.edges (GraphBuilder.graph b)
                      ++ [call_edge call target]) /\
               GraphEdge.edge_type e0 = CALLS /\
               GraphEdge.source_id e0 = k /\ GraphEdge.target_id e0 = t)
            <->
            (exists e0,
               In e0 (CodeGraph.edges (GraphBuilder.graph b)) /\
               GraphEdge.edge_type e0 = CALLS /\
               GraphEdge.source_id e0 = k /\ GraphEdge.target_id e0 = t)
            \/ (k = call_source_id call /\ t = target)).
  { intros k t. split.
    - intros (e0 & Hin & Hty & Hs & Ht). apply in_app_or in Hin.
      destruct Hin as [Hin|[<-|[]]]; [left; eauto|].
      right. simpl in Hs, Ht. auto.
    - intros [(e0 & Hin & H)|[-> ->]].
      + exists e0. split; [apply in_or_app; now left | exact H].
      + exists (call_edge call target).
        split; [apply in_or_app; right; now left | repeat split]. }
  unfold links_ok. cbv zeta. rewrite Ee.
  destruct Hcase as [[Hnone En]|[(sn & Hsn & Hin & En)|(sn & Hsn & Hnin & En)]];
    rewrite En.
  - split; [exact L1|]. split; [exact L2|].
    intros k n t Hk. rewrite Hnew, (L3 k n t Hk). split; [now left|].
    intros [H|[-> _]]; [exact H | congruence].
  - split; [exact L1|]. split; [exact L2|].
    intros k n t Hk. rewrite Hnew, (L3 k n t Hk). split; [now left|].
    intros [H|[-> ->]]; [exact H|].
    rewrite Hsn in Hk. injection Hk as <-. apply (L3 _ _ _ Hsn), Hin.
  - split; [|split].
    + intros k n. rewrite get_set.
      destruct (String.eqb _ k); [|apply L1].
      intros [= <-]. simpl. eauto.
    + intros k n. rewrite get_set.
      destruct (String.eqb _ k); [|apply L2].
      intros [= <-]. simpl. apply NoDup_snoc; eauto.
    + intros k n t. rewrite get_set, Hnew.
      destruct (String.eqb (call_source_id call) k) eqn:E.
      * apply String.eqb_eq in E. subst k. intros [= <-]. simpl.
        rewrite in_app_iff, (L3 _ _ t Hsn). simpl. split.
        -- intros [H|[<-|[]]]; [now left | right; auto].
        -- intros [H|[_ ->]]; [now left | right; now left].
      * apply String.eqb_neq in E. intros Hk. rewrite (L3 k n t Hk).
        split; [now left|]. intros [H|[-> _]]; [exact H | congruence].
Qed.

Lemma create_import_edges_step_links_ok pf imp b name :
  links_ok b ->
  links_ok (GraphBuilder._create_import_edges_step pf imp b name).
Proof.
  intros HL.
  destruct (create_import_edges_step_view pf imp b name)
    as [->|(target & _ & Ee & En & _)]; [exact HL|].
  destruct HL as (L1 & L2 & L3).
  unfold links_ok. cbv zeta. rewrite Ee, En.
  split; [exact L1|]. split; [exact L2|].
  intros k n t Hk. rewrite calls_edges_add_other; [now apply L3|].
  discriminate.
Qed.

Lemma create_export_edges_step_links_ok pf exp b name :
  links_ok b ->
  links_ok (GraphBuilder._create_export_edges_step pf exp b name).
Proof.
  intros HL.
  destruct (create_export_edges_step_view pf exp b name)
    as [->|(_ & Ee & En & _)]; [exact HL|].
  destruct HL as (L1 & L2 & L3).
  unfold links_ok. cbv zeta. rewrite Ee, En.
  split; [exact L1|]. split; [exact L2|].
  intros k n t Hk. rewrite calls_edges_add_other; [now apply L3|].
  discriminate.
Qed.

Lemma links_ok_after_phase5 storage_type files :
  links_ok (after_phase5 (GraphBuilder.init storage_type) files).
Proof.
  unfold after_phase5.
  apply fold_left_invariant; [apply fold_left_invariant;
                              [apply fold_left_invariant|]|].
  - apply fresh_links_ok, fresh_links_after_phase2.
  - intros b pf _ Hb. unfold GraphBuilder._create_call_edges.
    apply fold_left_invariant; [exact Hb|].
    intros b' c _. apply create_call_edges_step_links_ok.
  - intros b pf _ Hb. unfold GraphBuilder._create_import_edges.
    apply fold_left_invariant; [exact Hb|].
    intros b' imp _ Hb'. apply fold_left_invariant; [exact Hb'|].
    intros b'' name _. apply create_import_edges_step_links_ok.
  - intros b pf _ Hb. unfold GraphBuilder._create_export_edges.
    apply fold_left_invariant; [exact Hb|].
    intros b' exp _ Hb'. apply fold_left_invariant; [exact Hb'|].
    intros b'' name _. apply create_export_edges_step_links_ok.
Qed.

(** *** Phase 6 and the three lists *)

Lemma reverse_step_calls ns e k :
  calls_of (GraphBuilder._build_reverse_relationships_step ns e) k
  = calls_of ns k.
Proof.
  unfold GraphBuilder._build_reverse_relationships_step, calls_of.
  destruct (GraphEdge.edge_type e); try reflexivity;
    destruct (Py.get ns (GraphEdge.target_id e)) as [tn|] eqn:Et;
    try reflexivity; destruct (negb _); try reflexivity;
    rewrite get_set;
    (destruct (String.eqb (GraphEdge.target_id e) k) eqn:Ek;
     [apply String.eqb_eq in Ek; subst k; now rewrite Et | reflexivity]).
Qed.

Lemma reverse_phase_calls es : forall ns k,
  calls_of (fold_left GraphBuilder._build_reverse_relationships_step es ns) k
  = calls_of ns k /\
  Py.has_key (fold_left GraphBuilder._build_reverse_relationships_step es ns)
             k
  = Py.has_key ns k.
Proof.
  induction es as [|e r IH]; intros ns k; simpl; [now split|].
  destruct (IH (GraphBuilder._build_reverse_relationships_step ns e) k)
    as [H1 H2].
  now rewrite H1, H2, reverse_step_calls, reverse_step_has_key.
Qed.

(** One step of phase 6 adds the file of an Imports edge to the
    [imported_in] list of its target, when the target is in the node map,
    and nothing else. *)
Lemma reverse_step_imported_in ns e k f :
  In f (imported_in_of
          (GraphBuilder._build_reverse_relationships_step ns e) k)
  <->
  In f (imported_in_of ns k) \/
  (GraphEdge.edge_type e = IMPORTS /\ GraphEdge.target_id e = k /\
   GraphEdge.file_path e = f /\ Py.has_key ns k = true).
Proof.
  unfold GraphBuilder._build_reverse_relationships_step, imported_in_of,
    Py.has_key.
  destruct (GraphEdge.edge_type e) eqn:Ety;
    try (split; [now left | intros [H|(H & _)]; [exact H | discriminate]]).
  - (* CALLS *)
    destruct (Py.get ns (GraphEdge.target_id e)) as [tn|] eqn:Et;
      [destruct (negb _)|];
      try (split; [now left | intros [H|(H & _)]; [exact H | discriminate]]).
    rewrite get_set.
    destruct (String.eqb (GraphEdge.target_id e) k) eqn:Ek.
    + apply String.eqb_eq in Ek. subst k. rewrite Et. simpl.
      split; [now left | intros [H|(H & _)]; [exact H | discriminate]].
    + split; [now left | intros [H|(H & _)]; [exact H | discriminate]].
  - (* IMPORTS *)
    destruct (Py.get ns (GraphEdge.target_id e)) as [tn|] eqn:Et.
    + destruct (Py.mem (GraphEdge.file_path e) (GraphNode.imported_in tn))
        eqn:Em; simpl.
      * apply mem_In in Em. split; [now left|].
        intros [H|(_ & <- & <- & _)]; [exact H|]. now rewrite Et.
      * rewrite get_set.
        destruct (String.eqb (GraphEdge.target_id e) k) eqn:Ek.
        -- apply String.eqb_eq in Ek. subst k. rewrite Et. simpl.
           rewrite in_app_iff. simpl. split.
           ++ intros [H|[<-|[]]]; [now left | right; auto].
           ++ intros [H|(_ & _ & <- & _)]; [now left | right; now left].
        -- apply String.eqb_neq in Ek. split; [now left|].
           intros [H|(_ & H & _)]; [exact H | contradiction].
    + split; [now left|].
      intros [H|(_ & <- & _ & H)]; [exact H|]. rewrite Et in H. discriminate.
Qed.

Lemma reverse_phase_imported_in es : forall ns k f,
  In f (imported_in_of
          (fold_left GraphBuilder._build_reverse_relationships_step es ns) k)
  <->
  In f (imported_in_of ns k) \/
  (exists e, In e es /\ GraphEdge.edge_type e = IMPORTS /\
             GraphEdge.target_id e = k /\ GraphEdge.file_path e = f /\
             Py.has_key ns k = true).
Proof.
  induction es as [|e r IH]; intros ns k f; simpl.
  - split; [now left | intros [H|(e & [] & _)]; exact H].
  - rewrite IH, reverse_step_imported_in, reverse_step_has_key. split.
    + intros [[H|(H1 & H2 & H3 & H4)]|(e0 & H0 & H)].
      * now left.
      * right. exists e. auto.
      * right. exists e0. auto.
    + intros [H|(e0 & [<-|H0] & H1 & H2 & H3 & H4)].
      * left. now left.
      * left. right. auto.
      * right. exists e0. auto.
Qed.

(** Phase 6 appends to a list only what is not in it. *)
Lemma reverse_step_nodup ns e :
  (forall k, NoDup (called_by_of ns k) /\ NoDup (imported_in_of ns k)) ->
  forall k,
    NoDup (called_by_of
             (GraphBuilder._build_reverse_relationships_step ns e) k) /\
    NoDup (imported_in_of
             (GraphBuilder._build_reverse_relationships_step ns e) k).
Proof.
  intros H k. pose proof (H k) as Hk.
  unfold GraphBuilder._build_reverse_relationships_step.
  destruct (GraphEdge.edge_type e); try exact Hk.
  - (* CALLS *)
    destruct (Py.get ns (GraphEdge.target_id e)) as [tn|] eqn:Et;
      [|exact Hk].
    destruct (Py.mem _ _) eqn:Em; [exact Hk|]. simpl negb. cbv iota.
    unfold called_by_of, imported_in_of. rewrite get_set.
    destruct (String.eqb (GraphEdge.target_id e) k) eqn:Ek; [|exact Hk].
    apply String.eqb_eq in Ek. subst k.
    unfold called_by_of, imported_in_of in Hk. rewrite Et in Hk.
    destruct Hk as [Hc Hi]. simpl. split; [|exact Hi].
    apply NoDup_snoc; [exact Hc|]. intros Hin. apply mem_In in Hin.
    congruence.
  - (* IMPORTS *)
    destruct (Py.get ns (GraphEdge.target_id e)) as [tn|] eqn:Et;
      [|exact Hk].
    destruct (Py.mem _ _) eqn:Em; [exact Hk|]. simpl negb. cbv iota.
    unfold called_by_of, imported_in_of. rewrite get_set.
    destruct (String.eqb (GraphEdge.target_id e) k) eqn:Ek; [|exact Hk].
    apply String.eqb_eq in Ek. subst k.
    unfold called_by_of, imported_in_of in Hk. rewrite Et in Hk.
    destruct Hk as [Hc Hi]. simpl. split; [exact Hc|].
    apply NoDup_snoc; [exact Hi|]. intros Hin. apply mem_In in Hin.
    congruence.
Qed.

Lemma reverse_phase_nodup es : forall ns,
  (forall k, NoDup (called_by_of ns k) /\ NoDup (imported_in_of ns k)) ->
  forall k,
    NoDup (called_by_of
             (fold_left GraphBuilder._build_reverse_relationships_step es ns)
             k) /\
    NoDup (imported_in_of
             (fold_left GraphBuilder._build_reverse_relationships_step es ns)
             k).
Proof.
  induction es as [|e r IH]; intros ns H; simpl; [exact H|].
  apply IH. now apply reverse_step_nodup.
Qed.

(** X2. After [build_graph] on a fresh builder, a file path is in the
    [imported_in] list of a node exactly when an Imports edge that occurs in
    that file targets the node. *)
Theorem imported_in_iff_imports_edge
  (storage_type : string) (files : list ParsedFile.t)
  (k f : string) (n : GraphNode.t) :
  let g :=
    GraphBuilder.graph
      (GraphBuilder.build_graph (GraphBuilder.init storage_type) files) in
  CodeGraph.get_node g k = Some n ->
  (In f (GraphNode.imported_in n) <->
   exists e,
     In e (CodeGraph.edges g) /\ GraphEdge.edge_type e = IMPORTS /\
     GraphEdge.target_id e = k /\ GraphEdge.file_path e = f).
Proof.
  rewrite build_graph_phases.
  pose proof (links_ok_after_phase5 storage_type files) as (L1 & _ & _).
  cbv zeta in L1.
  set (b5 := after_phase5 _ _) in *. clearbody b5.
  unfold GraphBuilder._build_reverse_relationships, CodeGraph.get_node.
  cbn [GraphBuilder.graph GraphBuilder.with_graph CodeGraph.with_nodes
       CodeGraph.nodes CodeGraph.edges].
  set (es := CodeGraph.edges (GraphBuilder.graph b5)) in *.
  set (ns := CodeGraph.nodes (GraphBuilder.graph b5)) in *.
  intros Hn.
  pose proof (reverse_phase_imported_in es ns k f) as Hiff.
  unfold imported_in_of at 1 in Hiff. rewrite Hn in Hiff. rewrite Hiff.
  pose proof (reverse_phase_calls es ns k) as [_ Hkey].
  unfold Py.has_key in Hkey at 1. rewrite Hn in Hkey.
  split.
  - intros [Hin|(e & He & Hty & Ht & Hf & _)]; [|eauto].
    unfold imported_in_of in Hin.
    destruct (Py.get ns k) as [n0|] eqn:E; [|contradiction].
    rewrite (L1 _ _ E) in Hin. contradiction.
  - intros (e & He & Hty & Ht & Hf). right. exists e. repeat split; auto.
Qed.

Lemma imported_in_iff_imports_edge_witness :
  exists n,
    CodeGraph.get_node
      (GraphBuilder.graph
         (GraphBuilder.build_graph (GraphBuilder.init "json") import_files))
      "checkout:calculatePrice" = Some n /\
    In "/repo/payment.js" (GraphNode.imported_in n).
Proof.
  eexists. split; [vm_compute; reflexivity|].
  eapply (imported_in_iff_imports_edge "json" import_files
            "checkout:calculatePrice" "/repo/payment.js");
    [vm_compute; reflexivity|].
  eexists. split; [vm_compute; do 4 right; left; reflexivity|].
  repeat split.
Defined.

(** X3. After [build_graph] on a fresh builder, the [calls] list of a node holds
    exactly the targets of the Calls edges that leave the node. *)
Theorem calls_iff_calls_edge
  (storage_type : string) (files : list ParsedFile.t)
  (k t : string) (n : GraphNode.t) :
  let g :=
    GraphBuilder.graph
      (GraphBuilder.build_graph (GraphBuilder.init storage_type) files) in
  CodeGraph.get_node g k = Some n ->
  (In t (GraphNode.calls n) <->
   exists e,
     In e (CodeGraph.edges g) /\ GraphEdge.edge_type e = CALLS /\
     GraphEdge.source_id e = k /\ GraphEdge.target_id e = t).
Proof.
  rewrite build_graph_phases.
  pose proof (links_ok_after_phase5 storage_type files) as (_ & _ & L3).
  cbv zeta in L3.
  set (b5 := after_phase5 _ _) in *. clearbody b5.
  unfold GraphBuilder._build_reverse_relationships, CodeGraph.get_node.
  cbn [GraphBuilder.graph GraphBuilder.with_graph CodeGraph.with_nodes
       CodeGraph.nodes CodeGraph.edges].
  set (es := CodeGraph.edges (GraphBuilder.graph b5)) in *.
  set (ns := CodeGraph.nodes (GraphBuilder.graph b5)) in *.
  intros Hn.
  destruct (reverse_phase_calls es ns k) as [Hcalls Hkey].
  unfold calls_of in Hcalls at 1. rewrite Hn in Hcalls.
  unfold Py.has_key in Hkey at 1. rewrite Hn in Hkey.
  unfold calls_of in Hcalls. unfold Py.has_key in Hkey.
  destruct (Py.get ns k) as [n0|] eqn:E; [|discriminate].
  rewrite Hcalls. apply (L3 _ _ t E).
Qed.

Lemma calls_iff_calls_edge_witness :
  exists n,
    CodeGraph.get_node scenario_a_graph "calc:b" = Some n /\
    In "calc:a" (GraphNode.calls n).
Proof.
  eexists. split; [vm_compute; reflexivity|].
  eapply (calls_iff_calls_edge "json" scenario_a_files "calc:b" "calc:a");
    [vm_compute; reflexivity|].
  eexists. split; [vm_compute; right; right; left; reflexivity|].
  repeat split.
Defined.

(** X4. After [build_graph] on a fresh builder no node lists a callee, a caller
    or an importing file twice, however many edges repeat the relation. *)
Theorem relationship_lists_have_no_duplicates
  (storage_type : string) (files : list ParsedFile.t)
  (k : string) (n : GraphNode.t) :
  CodeGraph.get_node
    (GraphBuilder.graph
       (GraphBuilder.build_graph (GraphBuilder.init storage_type) files))
    k = Some n ->
  NoDup (GraphNode.calls n) /\ NoDup (GraphNode.called_by n) /\
  NoDup (GraphNode.imported_in n).
Proof.
  rewrite build_graph_phases.
  pose proof (links_ok_after_phase5 storage_type files) as (L1 & L2 & _).
  destruct (after_phase5_ok storage_type files) as [[Hok _] _].
  cbv zeta in L1, L2, Hok.
  set (b5 := after_phase5 _ _) in *. clearbody b5.
  destruct Hok as (_ & _ & Hcb & _).
  unfold GraphBuilder._build_reverse_relationships, CodeGraph.get_node.
  cbn [GraphBuilder.graph GraphBuilder.with_graph CodeGraph.with_nodes
       CodeGraph.nodes CodeGraph.edges].
  set (es := CodeGraph.edges (GraphBuilder.graph b5)) in *.
  set (ns := CodeGraph.nodes (GraphBuilder.graph b5)) in *.
  intros Hn.
  assert (H0 : forall k0,
            NoDup (called_by_of ns k0) /\ NoDup (imported_in_of ns k0)).
  { intros k0. unfold called_by_of, imported_in_of.
    destruct (Py.get ns k0) as [n0|] eqn:E; [|split; constructor].
    rewrite (Hcb _ _ E), (L1 _ _ E). split; constructor. }
  destruct (reverse_phase_nodup es ns H0 k) as [Hc Hi].
  unfold called_by_of in Hc. unfold imported_in_of in Hi.
  rewrite Hn in Hc, Hi.
  destruct (reverse_phase_calls es ns k) as [Hcalls Hkey].
  unfold calls_of in Hcalls at 1. rewrite Hn in Hcalls.
  unfold Py.has_key in Hkey at 1. rewrite Hn in Hkey.
  unfold calls_of in Hcalls. unfold Py.has_key in Hkey.
  destruct (Py.get ns k) as [n0|] eqn:E; [|discriminate].
  rewrite Hcalls. split; [apply (L2 _ _ E) | split; assumption].
Qed.

Lemma relationship_lists_have_no_duplicates_witness :
  exists n,
    CodeGraph.get_node
      (GraphBuilder.graph
         (GraphBuilder.build_graph (GraphBuilder.init "json") import_files))
      "checkout:calculatePrice" = Some n /\
    GraphNode.called_by n = ["payment:pay"] /\
    NoDup (GraphNode.called_by n).
Proof.
  eexists. split; [vm_compute; reflexivity|]. split; [reflexivity|].
  eapply (relationship_lists_have_no_duplicates "json" import_files
            "checkout:calculatePrice").
  vm_compute. reflexivity.
Defined.

(* ------------------------------------------------------------------ *)
(** ** The edges of the built graph, kind by kind *)
(* ------------------------------------------------------------------ *)

Lemma edges_of_type_app ty es e :
  edges_of_type ty (es ++ [e])
  = edges_of_type ty es
    ++ (if EdgeType_eqb (GraphEdge.edge_type e) ty then [e] else []).
Proof. unfold edges_of_type. rewrite filter_app. reflexivity. Qed.

Lemma edges_of_type_app_list ty es es' :
  edges_of_type ty (es ++ es') = edges_of_type ty es ++ edges_of_type ty es'.
Proof. unfold edges_of_type. apply filter_app. Qed.

Lemma has_key_set_existing {V} (d : Py.dict V) k v k' :
  Py.has_key d k = true ->
  Py.has_key (Py.set d k v) k' = Py.has_key d k'.
Proof.
  intros H. unfold Py.has_key in *. rewrite get_set.
  destruct (String.eqb k k') eqn:E; [|reflexivity].
  apply String.eqb_eq in E. subst k'.
  destruct (Py.get d k); [reflexivity | discriminate].
Qed.

Lemma same_resolution_refl b : same_resolution b b.
Proof. split; reflexivity. Qed.

Lemma same_resolution_trans b1 b2 b3 :
  same_resolution b1 b2 -> same_resolution b2 b3 -> same_resolution b1 b3.
Proof.
  intros [K1 M1] [K2 M2]. split; [|congruence].
  intros k. now rewrite K2, K1.
Qed.

Lemma same_resolution_resolve b b' func_name context_file :
  same_resolution b b' ->
  GraphBuilder._resolve_function_id b' func_name context_file
  = GraphBuilder._resolve_function_id b func_name context_file.
Proof.
  intros [K M]. unfold GraphBuilder._resolve_function_id, CodeGraph.get_node.
  specialize (K (GraphBuilder._make_function_id context_file func_name)).
  unfold Py.has_key in K. rewrite M.
  destruct (Py.get (CodeGraph.nodes (GraphBuilder.graph b')) _),
    (Py.get (CodeGraph.nodes (GraphBuilder.graph b)) _);
    try reflexivity; discriminate.
Qed.

(** A call step appends the edge of the call site, if its callee resolves,
    and leaves the resolution of callees as it was. *)
Lemma create_call_edges_step_edges b call :
  let b' := GraphBuilder._create_call_edges_step b call in
  CodeGraph.edges (GraphBuilder.graph b')
  = CodeGraph.edges (GraphBuilder.graph b) ++ resolved_call_edge b call /\
  same_resolution b b'.
Proof.
  unfold GraphBuilder._create_call_edges_step, resolved_call_edge.
  fold (call_source_id call).
  destruct (GraphBuilder._resolve_function_id _ _ _) as [target|];
    [|split; [now rewrite app_nil_r | apply same_resolution_refl]].
  destruct (Py.truthy (call_source_id call) && Py.truthy target)%bool;
    [|split; [now rewrite app_nil_r | apply same_resolution_refl]].
  unfold CodeGraph.get_node.
  cbn [CodeGraph.add_edge GraphEdge.edge_type CodeGraph.nodes].
  destruct (Py.get (CodeGraph.nodes (GraphBuilder.graph b))
                   (call_source_id call)) as [sn|] eqn:E;
    [destruct (negb _)|];
    (split; [reflexivity|]); (split; [|reflexivity]); intros k; simpl;
    try reflexivity.
  apply has_key_set_existing. unfold Py.has_key. now rewrite E.
Qed.

Lemma call_edges_phase calls : forall b,
  let b' := fold_left GraphBuilder._create_call_edges_step calls b in
  CodeGraph.edges (GraphBuilder.graph b')
  = CodeGraph.edges (GraphBuilder.graph b)
    ++ flat_map (resolved_call_edge b) calls /\
  same_resolution b b'.
Proof.
  induction calls as [|c r IH]; intros b; simpl.
  - split; [now rewrite app_nil_r | apply same_resolution_refl].
  - destruct (create_call_edges_step_edges b c) as [E1 R1].
    cbv zeta in E1, R1.
    destruct (IH (GraphBuilder._create_call_edges_step b c)) as [E2 R2].
    cbv zeta in E2, R2. split; [|eapply same_resolution_trans; eauto].
    rewrite E2, E1, <- app_assoc. f_equal. f_equal.
    apply flat_map_ext. intros c'. unfold resolved_call_edge.
    now rewrite (same_resolution_resolve _ _ _ _ R1).
Qed.

Lemma resolved_call_edge_type b c e :
  In e (resolved_call_edge b c) -> GraphEdge.edge_type e = CALLS.
Proof.
  unfold resolved_call_edge.
  destruct (GraphBuilder._resolve_function_id _ _ _); [|intros []].
  destruct (_ && _)%bool; [|intros []]. now intros [<-|[]].
Qed.

Lemma edges_of_type_all ty es :
  (forall e, In e es -> GraphEdge.edge_type e = ty) ->
  edges_of_type ty es = es.
Proof.
  intros H. unfold edges_of_type. induction es as [|e r IH]; simpl; auto.
  rewrite (H e (or_introl eq_refl)).
  replace (EdgeType_eqb ty ty) with true by (destruct ty; reflexivity).
  f_equal. apply IH. intros e' He'. apply H. now right.
Qed.

Lemma edges_of_type_none ty es :
  (forall e, In e es -> GraphEdge.edge_type e <> ty) ->
  edges_of_type ty es = [].
Proof.
  intros H. unfold edges_of_type. induction es as [|e r IH]; simpl; auto.
  destruct (EdgeType_eqb (GraphEdge.edge_type e) ty) eqn:E.
  - exfalso. apply (H e (or_introl eq_refl)).
    destruct (GraphEdge.edge_type e), ty; try discriminate; reflexivity.
  - apply IH. intros e' He'. apply H. now right.
Qed.

(** What phases 4 to 6 keep: the Defines and the Calls edges. *)
Lemma later_edges_keep (ty : EdgeType) b files :
  ty = DEFINES \/ ty = CALLS ->
  edges_of_type ty
    (CodeGraph.edges
       (GraphBuilder.graph
          (GraphBuilder._build_reverse_relationships
             (fold_left GraphBuilder._create_export_edges files
                (fold_left GraphBuilder._create_import_edges files b)))))
  = edges_of_type ty (CodeGraph.edges (GraphBuilder.graph b)).
Proof.
  intros Hty.
  destruct (reverse_relationships_extends
              (fold_left GraphBuilder._create_export_edges files
                 (fold_left GraphBuilder._create_import_edges files b)))
    as [_ ->].
  apply fold_left_invariant; [apply fold_left_invariant; [reflexivity|]|].
  - intros b0 pf _ H0. unfold GraphBuilder._create_import_edges.
    apply fold_left_invariant; [exact H0|]. intros b1 imp _ H1.
    apply fold_left_invariant; [exact H1|]. intros b2 name _ H2.
    destruct (create_import_edges_step_view pf imp b2 name)
      as [->|(t & _ & -> & _)]; [exact H2|].
    rewrite edges_of_type_app, H2. simpl.
    destruct Hty as [-> | ->]; simpl; apply app_nil_r.
  - intros b0 pf _ H0. unfold GraphBuilder._create_export_edges.
    apply fold_left_invariant; [exact H0|]. intros b1 exp _ H1.
    apply fold_left_invariant; [exact H1|]. intros b2 name _ H2.
    destruct (create_export_edges_step_view pf exp b2 name)
      as [->|(_ & -> & _)]; [exact H2|].
    rewrite edges_of_type_app, H2. simpl.
    destruct Hty as [-> | ->]; simpl; apply app_nil_r.
Qed.

Lemma function_nodes_edges defs : forall b,
  CodeGraph.edges
    (GraphBuilder.graph
       (fold_left GraphBuilder._create_function_nodes_step defs b))
  = CodeGraph.edges (GraphBuilder.graph b) ++ map defines_edge defs.
Proof.
  induction defs as [|d r IH]; intros b; simpl; [now rewrite app_nil_r|].
  rewrite IH.
  destruct (create_function_nodes_step_view b d) as (_ & -> & _).
  now rewrite <- app_assoc.
Qed.

Lemma after_phase2_edges storage_type files :
  CodeGraph.edges
    (GraphBuilder.graph (after_phase2 (GraphBuilder.init storage_type) files))
  = map defines_edge (all_functions files).
Proof.
  unfold after_phase2.
  rewrite create_function_nodes_flat, function_nodes_edges.
  destruct (file_nodes_phase files _ (init_builder_ok storage_type))
    as (_ & _ & _ & -> & _).
  reflexivity.
Qed.

Lemma after_phase3_edges storage_type files :
  let b2 := after_phase2 (GraphBuilder.init storage_type) files in
  CodeGraph.edges
    (GraphBuilder.graph
       (fold_left GraphBuilder._create_call_edges files b2))
  = map defines_edge (all_functions files)
    ++ flat_map (resolved_call_edge b2) (all_calls files).
Proof.
  cbv zeta.
  change (fold_left GraphBuilder._create_call_edges files)
    with (fold_left
            (fun b pf =>
               fold_left GraphBuilder._create_call_edges_step
                         (ParsedFile.calls pf) b) files).
  rewrite fold_left_flat_map.
  destruct (call_edges_phase (flat_map ParsedFile.calls files)
              (after_phase2 (GraphBuilder.init storage_type) files))
    as [-> _].
  now rewrite after_phase2_edges.
Qed.

(** X5. After [build_graph] on a fresh builder the Defines edges are, in order,
    one edge per function definition of the parsed files, from the node of
    the definition's file to the definition's stable ID; a definition that
    is replaced in the node map keeps its edge. *)
Theorem defines_edges_are_the_definitions
  (storage_type : string) (files : list ParsedFile.t) :
  edges_of_type DEFINES
    (CodeGraph.edges
       (GraphBuilder.graph
          (GraphBuilder.build_graph (GraphBuilder.init storage_type) files)))
  = map defines_edge (all_functions files).
Proof.
  unfold GraphBuilder.build_graph.
  rewrite later_edges_keep by now left.
  fold (after_phase2 (GraphBuilder.init storage_type) files).
  rewrite (after_phase3_edges storage_type files), edges_of_type_app_list.
  rewrite edges_of_type_all, edges_of_type_none; [apply app_nil_r| |].
  - intros e He. apply in_flat_map in He. destruct He as (c & _ & He).
    rewrite (resolved_call_edge_type _ _ _ He). discriminate.
  - intros e He. apply in_map_iff in He. now destruct He as (d & <- & _).
Qed.

(** IDs are never empty strings. *)
Lemma truthy_function_id file_path func_name :
  Py.truthy (GraphBuilder._make_function_id file_path func_name) = true.
Proof.
  unfold GraphBuilder._make_function_id.
  destruct (Py.path_stem file_path); reflexivity.
Qed.

Lemma truthy_call_source_id call : Py.truthy (call_source_id call) = true.
Proof.
  unfold call_source_id.
  destruct (FunctionCall.calling_function call) as [cf|];
    [destruct (Py.truthy cf)|]; try apply truthy_function_id; reflexivity.
Qed.

Lemma after_phase2_names_truthy storage_type files name id :
  Py.get (GraphBuilder._function_map
            (after_phase2 (GraphBuilder.init storage_type) files)) name
  = Some id ->
  Py.truthy id = true.
Proof.
  revert name id. unfold after_phase2.
  apply (fold_left_invariant
           (fun b => forall name id,
              Py.get (GraphBuilder._function_map b) name = Some id ->
              Py.truthy id = true)).
  - destruct (file_nodes_phase files _ (init_builder_ok storage_type))
      as (_ & _ & _ & _ & -> & _).
    intros name id H. cbv in H. discriminate H.
  - intros b pf _ Hb. unfold GraphBuilder._create_function_nodes.
    apply fold_left_invariant; [exact Hb|].
    intros b' d _ Hb' name id.
    destruct (create_function_nodes_step_view b' d) as (_ & _ & -> & _).
    rewrite get_set. destruct (String.eqb _ name); [|apply Hb'].
    intros [= <-]. apply truthy_function_id.
Qed.

Lemma resolved_call_edge_after_phase2 storage_type files call :
  resolved_call_edge (after_phase2 (GraphBuilder.init storage_type) files)
                     call
  = call_edge_if_resolved
      (after_phase2 (GraphBuilder.init storage_type) files) call.
Proof.
  unfold resolved_call_edge, call_edge_if_resolved.
  destruct (GraphBuilder._resolve_function_id _ _ _) as [t|] eqn:E;
    [|reflexivity].
  rewrite truthy_call_source_id.
  replace (Py.truthy t) with true; [reflexivity|]. symmetry.
  unfold GraphBuilder._resolve_function_id in E.
  destruct (CodeGraph.get_node _ _).
  - injection E as <-. apply truthy_function_id.
  - eapply after_phase2_names_truthy; eauto.
Qed.

(** X6. After [build_graph] on a fresh builder the Calls edges are, in order,
    one edge per call site whose callee resolves against the node map and
    name table as they stand after all definitions of all files are
    registered: a call to a function that a later file defines resolves,
    and a call to an unknown name leaves no edge. *)
Theorem calls_edges_are_the_resolved_calls
  (storage_type : string) (files : list ParsedFile.t) :
  edges_of_type CALLS
    (CodeGraph.edges
       (GraphBuilder.graph
          (GraphBuilder.build_graph (GraphBuilder.init storage_type) files)))
  = flat_map
      (call_edge_if_resolved
         (after_phase2 (GraphBuilder.init storage_type) files))
      (all_calls files).
Proof.
  unfold GraphBuilder.build_graph.
  rewrite later_edges_keep by now right.
  fold (after_phase2 (GraphBuilder.init storage_type) files).
  rewrite (after_phase3_edges storage_type files), edges_of_type_app_list.
  rewrite edges_of_type_none, edges_of_type_all.
  - apply flat_map_ext. intros c. apply resolved_call_edge_after_phase2.
  - intros e He. apply in_flat_map in He. destruct He as (c & _ & He).
    apply (resolved_call_edge_type _ _ _ He).
  - intros e He. apply in_map_iff in He. destruct He as (d & <- & _).
    discriminate.
Qed.

(** A call in [app.py] to [helper], which the later file [lib.py] defines,
    yields an edge; the call to [print] yields none. *)
Lemma forward_reference_resolves :
  map (fun e => (GraphEdge.source_id e, GraphEdge.target_id e))
      (edges_of_type CALLS
         (CodeGraph.edges
            (GraphBuilder.graph
               (GraphBuilder.build_graph (GraphBuilder.init "json")
                                         forward_files))))
  = [("app:main", "lib:helper")].
Proof. vm_compute. reflexivity. Qed.

(* ------------------------------------------------------------------ *)
(** ** Import and export edges *)
(* ------------------------------------------------------------------ *)

(** A loop whose body appends edges that depend on the item only, as long
    as callees resolve as in the state [b0], appends them item by item. *)
Lemma fold_left_emits {B} (b0 : GraphBuilder.t)
  (f : GraphBuilder.t -> B -> GraphBuilder.t)
  (emit : B -> list GraphEdge.t) (l : list B) :
  (forall b x,
     same_resolution b0 b ->
     same_resolution b0 (f b x) /\
     CodeGraph.edges (GraphBuilder.graph (f b x))
     = CodeGraph.edges (GraphBuilder.graph b) ++ emit x) ->
  forall b,
    same_resolution b0 b ->
    same_resolution b0 (fold_left f l b) /\
    CodeGraph.edges (GraphBuilder.graph (fold_left f l b))
    = CodeGraph.edges (GraphBuilder.graph b) ++ flat_map emit l.
Proof.
  intros Hf. induction l as [|x r IH]; intros b Hb; simpl.
  - split; [exact Hb | now rewrite app_nil_r].
  - destruct (Hf b x Hb) as [H1 E1]. destruct (IH _ H1) as [H2 E2].
    split; [exact H2|]. now rewrite E2, E1, <- app_assoc.
Qed.

Lemma create_import_edges_step_emits b0 pf imp b name :
  same_resolution b0 b ->
  same_resolution b0 (GraphBuilder._create_import_edges_step pf imp b name)
  /\ CodeGraph.edges
       (GraphBuilder.graph
          (GraphBuilder._create_import_edges_step pf imp b name))
     = CodeGraph.edges (GraphBuilder.graph b)
       ++ resolved_import_edge b0 pf imp name.
Proof.
  intros [K M]. unfold GraphBuilder._create_import_edges_step,
    GraphBuilder._resolve_imported_function, resolved_import_edge.
  rewrite M.
  destruct (Py.get (GraphBuilder._function_map b0) name) as [target|];
    [|split; [now split | now rewrite app_nil_r]].
  destruct (Py.truthy target);
    [|split; [now split | now rewrite app_nil_r]].
  split; [split; [exact K | exact M] | reflexivity].
Qed.

Lemma create_export_edges_step_emits b0 pf exp b name :
  same_resolution b0 b ->
  same_resolution b0 (GraphBuilder._create_export_edges_step pf exp b name)
  /\ CodeGraph.edges
       (GraphBuilder.graph
          (GraphBuilder._create_export_edges_step pf exp b name))
     = CodeGraph.edges (GraphBuilder.graph b)
       ++ export_edge_if_defined b0 pf exp name.
Proof.
  intros [K M]. unfold GraphBuilder._create_export_edges_step,
    export_edge_if_defined, CodeGraph.get_node.
  rewrite <- K. unfold Py.has_key.
  destruct (Py.get (CodeGraph.nodes (GraphBuilder.graph b)) _);
    [|split; [now split | now rewrite app_nil_r]].
  split; [split; [exact K | exact M] | reflexivity].
Qed.

Lemma resolved_import_edge_after_phase2 storage_type files pf imp name :
  resolved_import_edge (after_phase2 (GraphBuilder.init storage_type) files)
                       pf imp name
  = import_edge_if_named
      (after_phase2 (GraphBuilder.init storage_type) files) pf imp name.
Proof.
  unfold resolved_import_edge, import_edge_if_named.
  destruct (Py.get _ name) as [t|] eqn:E; [|reflexivity].
  now rewrite (after_phase2_names_truthy _ _ _ _ E).
Qed.

(** The edge list of the built graph, phase by phase. *)
Lemma edge_list_by_phase storage_type files :
  let b2 := after_phase2 (GraphBuilder.init storage_type) files in
  CodeGraph.edges
    (GraphBuilder.graph
       (GraphBuilder.build_graph (GraphBuilder.init storage_type) files))
  = map defines_edge (all_functions files)
    ++ flat_map (call_edge_if_resolved b2) (all_calls files)
    ++ import_edges_of b2 files ++ export_edges_of b2 files.
Proof.
  cbv zeta. rewrite build_graph_phases.
  destruct (reverse_relationships_extends
              (after_phase5 (GraphBuilder.init storage_type) files))
    as [_ ->].
  unfold after_phase5.
  set (b2 := after_phase2 (GraphBuilder.init storage_type) files).
  pose proof (after_phase3_edges storage_type files) as E3.
  cbv zeta in E3. fold b2 in E3.
  assert (R3 : same_resolution b2
                 (fold_left GraphBuilder._create_call_edges files b2)).
  { change (fold_left GraphBuilder._create_call_edges files)
      with (fold_left
              (fun b pf =>
                 fold_left GraphBuilder._create_call_edges_step
                           (ParsedFile.calls pf) b) files).
    rewrite fold_left_flat_map.
    apply (call_edges_phase (flat_map ParsedFile.calls files) b2). }
  set (b3 := fold_left GraphBuilder._create_call_edges files b2) in *.
  destruct (fold_left_emits b2 GraphBuilder._create_import_edges
              (fun pf =>
                 flat_map
                   (fun imp =>
                      flat_map (resolved_import_edge b2 pf imp)
                               (ImportStatement.imported_names imp))
                   (ParsedFile.imports pf))
              files) with (b := b3) as [R4 E4]; [|exact R3|].
  { intros b pf Hb. unfold GraphBuilder._create_import_edges.
    apply (fold_left_emits b2); [|exact Hb].
    intros b' imp Hb'. apply (fold_left_emits b2); [|exact Hb'].
    intros b'' name. apply create_import_edges_step_emits. }
  set (b4 := fold_left GraphBuilder._create_import_edges files b3) in *.
  destruct (fold_left_emits b2 GraphBuilder._create_export_edges
              (fun pf =>
                 flat_map
                   (fun exp =>
                      flat_map (export_edge_if_defined b2 pf exp)
                               (ExportStatement.exported_names exp))
                   (ParsedFile.exports pf))
              files) with (b := b4) as [_ E5]; [|exact R4|].
  { intros b pf Hb. unfold GraphBuilder._create_export_edges.
    apply (fold_left_emits b2); [|exact Hb].
    intros b' exp Hb'. apply (fold_left_emits b2); [|exact Hb'].
    intros b'' name. apply create_export_edges_step_emits. }
  rewrite E5, E4, E3, <- !app_assoc. f_equal. f_equal.
  - apply flat_map_ext. intros c. apply resolved_call_edge_after_phase2.
  - f_equal. unfold import_edges_of.
    apply flat_map_ext. intros pf. apply flat_map_ext. intros imp.
    apply flat_map_ext. intros name.
    apply resolved_import_edge_after_phase2.
Qed.

Lemma call_edge_if_resolved_type b c e :
  In e (call_edge_if_resolved b c) -> GraphEdge.edge_type e = CALLS.
Proof.
  unfold call_edge_if_resolved.
  destruct (GraphBuilder._resolve_function_id _ _ _); [|intros []].
  now intros [<-|[]].
Qed.

Lemma import_edges_of_type b files e :
  In e (import_edges_of b files) -> GraphEdge.edge_type e = IMPORTS.
Proof.
  unfold import_edges_of. rewrite in_flat_map. intros (pf & _ & H).
  apply in_flat_map in H. destruct H as (imp & _ & H).
  apply in_flat_map in H. destruct H as (name & _ & H).
  unfold import_edge_if_named in H.
  destruct (Py.get _ _); [|destruct H]. now destruct H as [<-|[]].
Qed.

Lemma export_edges_of_type b files e :
  In e (export_edges_of b files) -> GraphEdge.edge_type e = EXPORTS.
Proof.
  unfold export_edges_of. rewrite in_flat_map. intros (pf & _ & H).
  apply in_flat_map in H. destruct H as (exp & _ & H).
  apply in_flat_map in H. destruct H as (name & _ & H).
  unfold export_edge_if_defined in H.
  destruct (Py.has_key _ _); [|destruct H]. now destruct H as [<-|[]].
Qed.

Ltac edges_of_other_type :=
  intros ? ?He;
  first
    [ apply in_map_iff in He; destruct He as (? & <- & _); discriminate
    | apply in_flat_map in He; destruct He as (? & _ & He);
      rewrite (call_edge_if_resolved_type _ _ _ He); discriminate
    | rewrite (import_edges_of_type _ _ _ He); discriminate
    | rewrite (export_edges_of_type _ _ _ He); discriminate ].

(** X7. After [build_graph] on a fresh builder the Imports edges are, in order,
    one edge per imported name that the name table holds after all
    definitions are registered, from the node of the importing file to the
    ID the table gives: the name alone decides the target, so an import is
    linked to the last definition of that name in any module, whatever
    module the statement names; an unknown name leaves no edge. *)
Theorem imports_edges_resolve_by_name_alone
  (storage_type : string) (files : list ParsedFile.t) :
  edges_of_type IMPORTS
    (CodeGraph.edges
       (GraphBuilder.graph
          (GraphBuilder.build_graph (GraphBuilder.init storage_type) files)))
  = import_edges_of (after_phase2 (GraphBuilder.init storage_type) files)
                    files.
Proof.
  rewrite edge_list_by_phase. cbv zeta. rewrite !edges_of_type_app_list.
  rewrite (edges_of_type_none IMPORTS (map _ _)) by edges_of_other_type.
  rewrite (edges_of_type_none IMPORTS (flat_map _ _))
    by edges_of_other_type.
  rewrite (edges_of_type_none IMPORTS (export_edges_of _ _))
    by edges_of_other_type.
  rewrite edges_of_type_all by apply import_edges_of_type.
  now rewrite app_nil_r.
Qed.

(** X8. After [build_graph] on a fresh builder the Exports edges are, in order,
    one edge per exported name for which the exporting file itself defines
    a function, from the node of the file to the function's stable ID; a
    re-exported or unknown name leaves no edge. *)
Theorem exports_edges_are_the_local_definitions
  (storage_type : string) (files : list ParsedFile.t) :
  edges_of_type EXPORTS
    (CodeGraph.edges
       (GraphBuilder.graph
          (GraphBuilder.build_graph (GraphBuilder.init storage_type) files)))
  = export_edges_of (after_phase2 (GraphBuilder.init storage_type) files)
                    files.
Proof.
  rewrite edge_list_by_phase. cbv zeta. rewrite !edges_of_type_app_list.
  rewrite (edges_of_type_none EXPORTS (map _ _)) by edges_of_other_type.
  rewrite (edges_of_type_none EXPORTS (flat_map _ _))
    by edges_of_other_type.
  rewrite (edges_of_type_none EXPORTS (import_edges_of _ _))
    by edges_of_other_type.
  rewrite edges_of_type_all by apply export_edges_of_type.
  reflexivity.
Qed.

(** The import of [total] from [./prices] is linked to [stats:total], the
    last definition of the name; the export of [missing] leaves no edge. *)
Lemma homonym_import_links_last_definition :
  map (fun e => (GraphEdge.edge_type e, GraphEdge.source_id e,
                 GraphEdge.target_id e))
      (CodeGraph.edges
         (GraphBuilder.graph
            (GraphBuilder.build_graph (GraphBuilder.init "json")
                                      homonym_files)))
  = [ (DEFINES, "file:prices.js", "prices:total");
      (DEFINES, "file:stats.js", "stats:total");
      (IMPORTS, "file:cart.js", "stats:total");
      (EXPORTS, "file:prices.js", "prices:total") ].
Proof. vm_compute. reflexivity. Qed.

(* ------------------------------------------------------------------ *)
(** ** Node IDs and edge endpoints *)
(* ------------------------------------------------------------------ *)

Lemma has_key_set_eq {V} (d : Py.dict V) k v k' :
  Py.has_key (Py.set d k v) k' = (String.eqb k k' || Py.has_key d k')%bool.
Proof.
  unfold Py.has_key. rewrite get_set. destruct (String.eqb k k'); reflexivity.
Qed.

Lemma file_nodes_keys files k : forall b,
  Py.has_key
    (CodeGraph.nodes
       (GraphBuilder.graph (fold_left GraphBuilder._create_file_node files b)))
    k
  = (existsb
       (fun pf =>
          String.eqb (GraphBuilder._make_file_id (ParsedFile.file_path pf)) k)
       files
     || Py.has_key (CodeGraph.nodes (GraphBuilder.graph b)) k)%bool.
Proof.
  induction files as [|pf r IH]; intros b; [reflexivity|].
  cbn [fold_left existsb]. rewrite IH.
  destruct (create_file_node_nodes b pf) as [-> _].
  rewrite has_key_set_eq.
  destruct (existsb _ r), (String.eqb _ k); reflexivity.
Qed.

Lemma function_nodes_keys defs k : forall b,
  Py.has_key
    (CodeGraph.nodes
       (GraphBuilder.graph
          (fold_left GraphBuilder._create_function_nodes_step defs b)))
    k
  = (existsb (fun d => String.eqb (function_id d) k) defs
     || Py.has_key (CodeGraph.nodes (GraphBuilder.graph b)) k)%bool.
Proof.
  induction defs as [|d r IH]; intros b; [reflexivity|].
  cbn [fold_left existsb]. rewrite IH.
  destruct (create_function_nodes_step_view b d) as (-> & _).
  rewrite has_key_set_eq.
  destruct (existsb _ r), (String.eqb _ k); reflexivity.
Qed.

Lemma after_phase2_keys storage_type files k :
  Py.has_key
    (CodeGraph.nodes
       (GraphBuilder.graph
          (after_phase2 (GraphBuilder.init storage_type) files))) k = true
  <-> is_node_id files k.
Proof.
  unfold after_phase2. rewrite create_function_nodes_flat.
  rewrite function_nodes_keys, file_nodes_keys.
  change (Py.has_key
            (CodeGraph.nodes (GraphBuilder.graph
                                (GraphBuilder.init storage_type))) k)
    with false.
  rewrite orb_false_r, orb_true_iff, !existsb_exists. unfold is_node_id.
  split.
  - intros [(d & Hd & E)|(pf & Hpf & E)]; apply String.eqb_eq in E; eauto.
  - intros [(pf & Hpf & ->)|(d & Hd & ->)].
    + right. exists pf. split; [exact Hpf | apply String.eqb_refl].
    + left. exists d. split; [exact Hd | apply String.eqb_refl].
Qed.

(** Phases 3 to 5 leave the resolution of callees as it is after phase 2. *)
Lemma after_phase5_same_resolution storage_type files :
  same_resolution (after_phase2 (GraphBuilder.init storage_type) files)
                  (after_phase5 (GraphBuilder.init storage_type) files).
Proof.
  unfold after_phase5.
  set (b2 := after_phase2 (GraphBuilder.init storage_type) files).
  assert (R3 : same_resolution b2
                 (fold_left GraphBuilder._create_call_edges files b2)).
  { change (fold_left GraphBuilder._create_call_edges files)
      with (fold_left
              (fun b pf =>
                 fold_left GraphBuilder._create_call_edges_step
                           (ParsedFile.calls pf) b) files).
    rewrite fold_left_flat_map.
    apply (call_edges_phase (flat_map ParsedFile.calls files) b2). }
  set (b3 := fold_left GraphBuilder._create_call_edges files b2) in *.
  destruct (fold_left_emits b2 GraphBuilder._create_import_edges
              (fun pf =>
                 flat_map
                   (fun imp =>
                      flat_map (resolved_import_edge b2 pf imp)
                               (ImportStatement.imported_names imp))
                   (ParsedFile.imports pf))
              files) with (b := b3) as [R4 _]; [|exact R3|].
  { intros b pf Hb. unfold GraphBuilder._create_import_edges.
    apply (fold_left_emits b2); [|exact Hb].
    intros b' imp Hb'. apply (fold_left_emits b2); [|exact Hb'].
    intros b'' name. apply create_import_edges_step_emits. }
  set (b4 := fold_left GraphBuilder._create_import_edges files b3) in *.
  destruct (fold_left_emits b2 GraphBuilder._create_export_edges
              (fun pf =>
                 flat_map
                   (fun exp =>
                      flat_map (export_edge_if_defined b2 pf exp)
                               (ExportStatement.exported_names exp))
                   (ParsedFile.exports pf))
              files) with (b := b4) as [R5 _]; [|exact R4|].
  { intros b pf Hb. unfold GraphBuilder._create_export_edges.
    apply (fold_left_emits b2); [|exact Hb].
    intros b' exp Hb'. apply (fold_left_emits b2); [|exact Hb'].
    intros b'' name. apply create_export_edges_step_emits. }
  exact R5.
Qed.

(** The keys of the node map of the built graph. *)
Lemma built_graph_keys storage_type files k :
  Py.has_key
    (CodeGraph.nodes
       (GraphBuilder.graph
          (GraphBuilder.build_graph (GraphBuilder.init storage_type) files)))
    k = true
  <-> is_node_id files k.
Proof.
  rewrite build_graph_phases.
  unfold GraphBuilder._build_reverse_relationships.
  cbn [GraphBuilder.graph GraphBuilder.with_graph CodeGraph.with_nodes
       CodeGraph.nodes].
  destruct (reverse_phase_calls
              (CodeGraph.edges
                 (GraphBuilder.graph
                    (after_phase5 (GraphBuilder.init storage_type) files)))
              (CodeGraph.nodes
                 (GraphBuilder.graph
                    (after_phase5 (GraphBuilder.init storage_type) files)))
              k) as [_ ->].
  destruct (after_phase5_same_resolution storage_type files) as [-> _].
  apply after_phase2_keys.
Qed.

(** X28. After [build_graph] on a fresh builder the node map holds a node
    exactly under the IDs of the parsed files and the stable IDs of the
    definitions. The target of every edge is among them. When every record
    carries the path of its file, the source of every edge is among them
    too, except for Calls edges whose source, the stable ID built from the
    name of the enclosing function, is the ID of no file and of no
    definition. No call site is held back for its source: every call site
    whose callee resolves has its edge, from the source ID computed for the
    call site; and a call site whose callee does not resolve changes
    nothing. *)
Theorem edge_endpoints_and_node_ids
  (storage_type : string) (files : list ParsedFile.t) :
  let g :=
    GraphBuilder.graph
      (GraphBuilder.build_graph (GraphBuilder.init storage_type) files) in
  let b2 := after_phase2 (GraphBuilder.init storage_type) files in
  (forall k, CodeGraph.get_node g k <> None <-> is_node_id files k) /\
  (forall e,
     In e (CodeGraph.edges g) ->
     CodeGraph.get_node g (GraphEdge.target_id e) <> None) /\
  (records_in_own_file files ->
   forall e,
     In e (CodeGraph.edges g) ->
     CodeGraph.get_node g (GraphEdge.source_id e) <> None \/
     (GraphEdge.edge_type e = CALLS /\
      ~ is_node_id files (GraphEdge.source_id e))) /\
  (forall call target,
     In call (all_calls files) ->
     GraphBuilder._resolve_function_id b2
       (FunctionCall.function_name call) (FunctionCall.file_path call)
     = Some target ->
     In (call_edge call target) (CodeGraph.edges g) /\
     GraphEdge.source_id (call_edge call target) = call_source_id call) /\
  (forall self call,
     GraphBuilder._resolve_function_id self
       (FunctionCall.function_name call) (FunctionCall.file_path call)
     = None ->
     GraphBuilder._create_call_edges_step self call = self).
Proof.
  cbv zeta.
  assert (Hkeys : forall k,
            CodeGraph.get_node
              (GraphBuilder.graph
                 (GraphBuilder.build_graph (GraphBuilder.init storage_type)
                                           files)) k <> None
            <-> is_node_id files k).
  { intros k. rewrite <- (built_graph_keys storage_type files k).
    unfold CodeGraph.get_node, Py.has_key.
    destruct (Py.get _ k) as [n|].
    - split; [reflexivity | discriminate].
    - split; [intros H; now elim H | discriminate]. }
  split; [exact Hkeys|].
  pose proof (edge_list_by_phase storage_type files) as Hedges.
  cbv zeta in Hedges.
  destruct (after_phase5_ok storage_type files) as [[Hok Hfiles] _].
  cbv zeta in Hok, Hfiles.
  destruct (reverse_relationships_extends
              (after_phase5 (GraphBuilder.init storage_type) files))
    as [(Hkept & _) Hsame].
  destruct Hok as (_ & Htgt & _ & Hsrc).
  assert (Hhas : forall k,
            Py.has_key
              (CodeGraph.nodes
                 (GraphBuilder.graph
                    (after_phase5 (GraphBuilder.init storage_type) files)))
              k = true ->
            CodeGraph.get_node
              (GraphBuilder.graph
                 (GraphBuilder.build_graph (GraphBuilder.init storage_type)
                                           files)) k <> None).
  { intros k Hk. rewrite build_graph_phases.
    pose proof (nodes_kept_has_key _ _ k Hkept Hk) as H.
    apply has_key_get in H. destruct H as (n & Hn).
    unfold CodeGraph.get_node. rewrite Hn. discriminate. }
  split; [|split; [|split]].
  - intros e He. apply Hhas, Htgt.
    rewrite build_graph_phases, Hsame in He. exact He.
  - intros WF e He.
    destruct (CodeGraph.get_node _ (GraphEdge.source_id e)) as [n|] eqn:E;
      [left; discriminate|].
    right.
    assert (He5 : In e (CodeGraph.edges
                          (GraphBuilder.graph
                             (after_phase5 (GraphBuilder.init storage_type)
                                           files))))
      by (rewrite build_graph_phases, Hsame in He; exact He).
    assert (Hnone : ~ is_node_id files (GraphEdge.source_id e)).
    { intros Hid. apply Hkeys in Hid. now apply Hid. }
    split; [|exact Hnone].
    destruct (GraphEdge.edge_type e) eqn:Ety; try reflexivity; exfalso;
      (assert (Hne : GraphEdge.edge_type e <> CALLS)
         by (rewrite Ety; discriminate));
      destruct (Hfiles WF) as [_ Hfile];
      apply (Hhas _ (Hfile e He5));
      rewrite <- (Hsrc e He5 Hne); exact E.
  - intros call target Hin Hres. split; [|reflexivity].
    rewrite Hedges, !in_app_iff. right. left.
    apply in_flat_map. exists call. split; [exact Hin|].
    unfold call_edge_if_resolved. rewrite Hres. now left.
  - intros self call Hres.
    unfold GraphBuilder._create_call_edges_step. now rewrite Hres.
Qed.

Lemma edge_endpoints_and_node_ids_witness :
  records_in_own_file dangling_files /\
  In (call_edge (FunctionCall.mk "f" "/repo/a.js" 3 (Some "total") 0) "a:f")
     (CodeGraph.edges dangling_graph) /\
  ~ is_node_id dangling_files "a:total" /\
  CodeGraph.get_node dangling_graph "a:f" <> None.
Proof.
  assert (WF : records_in_own_file dangling_files).
  { intros pf [<-|[]]. split.
    - intros d [<-|[]]; reflexivity.
    - intros c [<-|[]]. reflexivity. }
  split; [exact WF|].
  destruct (edge_endpoints_and_node_ids "json" dangling_files)
    as (Hkeys & Htgt & Hsrc & Hcall & _).
  destruct (Hcall (FunctionCall.mk "f" "/repo/a.js" 3 (Some "total") 0)
              "a:f") as [Hin _];
    [now left | vm_compute; reflexivity|].
  split; [exact Hin|].
  destruct (Hsrc WF _ Hin) as [Hnode|[_ Hno]].
  - exfalso. apply Hnode. vm_compute. reflexivity.
  - split; [exact Hno|]. apply (Htgt _ Hin).
Defined.

(* ------------------------------------------------------------------ *)
(** ** The content of the usage index *)
(* ------------------------------------------------------------------ *)

Section UsageContent.
Variable readlines : string -> option (list string).

Lemma append_edge_usage_adds self ty cf acc edge :
  CodeAnalyzer.graph (fst acc) = CodeAnalyzer.graph self ->
  CodeAnalyzer.indexes (fst acc) = CodeAnalyzer.indexes self ->
  loop_adds self acc
    (CodeAnalyzer._append_edge_usage readlines ty cf acc edge)
    [edge_usage ty cf edge].
Proof.
  intros Hg Hi. destruct acc as [s us]. simpl in Hg, Hi.
  unfold CodeAnalyzer._append_edge_usage.
  pose proof (get_code_context_indexes readlines s (GraphEdge.file_path edge)
                (GraphEdge.line_number edge) 0 0) as [Hi' Hg'].
  destruct (CodeAnalyzer._get_code_context _ _ _ _ _ _) as [s' ctx].
  simpl in *. unfold loop_adds. simpl.
  split; [congruence|]. split; [congruence|].
  now rewrite map_app.
Qed.

(** An edge loop appends, for the edges it selects and in their order, the
    usages at those edges. *)
Lemma edge_loop_adds self
  (p : GraphEdge.t -> bool) (ty : GraphEdge.t -> UsageType)
  (cf : CodeGraph.t -> GraphEdge.t -> option string)
  (es : list GraphEdge.t) : forall acc,
  CodeAnalyzer.graph (fst acc) = CodeAnalyzer.graph self ->
  CodeAnalyzer.indexes (fst acc) = CodeAnalyzer.indexes self ->
  loop_adds self acc
    (fold_left
       (fun acc e =>
          if p e
          then CodeAnalyzer._append_edge_usage readlines (ty e)
                 (cf (CodeAnalyzer.graph (fst acc)) e) acc e
          else acc)
       es acc)
    (map (fun e => edge_usage (ty e) (cf (CodeAnalyzer.graph self) e) e)
         (filter p es)).
Proof.
  induction es as [|e r IH]; intros acc Hg Hi; simpl.
  - unfold loop_adds. rewrite app_nil_r. auto.
  - destruct (p e) eqn:Hp; [|now apply IH].
    destruct (append_edge_usage_adds self (ty e)
                (cf (CodeAnalyzer.graph (fst acc)) e) acc e Hg Hi)
      as (Hg1 & Hi1 & Hu1).
    destruct (IH _ Hg1 Hi1) as (Hg2 & Hi2 & Hu2).
    unfold loop_adds. split; [exact Hg2|]. split; [exact Hi2|].
    rewrite Hu2, Hu1, Hg, <- app_assoc. reflexivity.
Qed.

Lemma export_usages_adds self node_id acc :
  CodeAnalyzer.graph (fst acc) = CodeAnalyzer.graph self ->
  CodeAnalyzer.indexes (fst acc) = CodeAnalyzer.indexes self ->
  loop_adds self acc (CodeAnalyzer._export_usages readlines node_id acc)
    (export_usages (CodeAnalyzer.graph self) node_id).
Proof.
  intros Hg Hi. unfold CodeAnalyzer._export_usages, export_usages.
  rewrite Hg.
  exact (edge_loop_adds self (targets node_id EXPORTS) (fun _ => EXPORT)
           (fun _ _ => None) _ acc Hg Hi).
Qed.

Lemma call_usages_adds self node_id acc :
  CodeAnalyzer.graph (fst acc) = CodeAnalyzer.graph self ->
  CodeAnalyzer.indexes (fst acc) = CodeAnalyzer.indexes self ->
  loop_adds self acc (CodeAnalyzer._call_usages readlines node_id acc)
    (call_usages (CodeAnalyzer.graph self) node_id).
Proof.
  intros Hg Hi. unfold CodeAnalyzer._call_usages, call_usages.
  rewrite Hg.
  exact (edge_loop_adds self (targets node_id CALLS)
           (fun e => if is_test_path (GraphEdge.file_path e)
                     then TEST else CALL)
           containing_function_of _ acc Hg Hi).
Qed.

Lemma import_usages_adds self node_id node acc :
  CodeAnalyzer.graph (fst acc) = CodeAnalyzer.graph self ->
  CodeAnalyzer.indexes (fst acc) = CodeAnalyzer.indexes self ->
  loop_adds self acc
    (CodeAnalyzer._import_usages readlines node_id node acc)
    (import_usages (CodeAnalyzer.graph self) node_id node).
Proof.
  unfold CodeAnalyzer._import_usages, import_usages.
  generalize (GraphNode.imported_in node) as fs.
  intros fs. revert acc.
  induction fs as [|f r IH]; intros acc Hg Hi; simpl.
  - unfold loop_adds. rewrite app_nil_r. auto.
  - match goal with
    | |- loop_adds _ _ (fold_left _ r ?a1) _ => set (acc1 := a1)
    end.
    assert (H1 : loop_adds self acc acc1
                   (map (edge_usage IMPORT None)
                      (filter
                         (fun e =>
                            (targets node_id IMPORTS e
                             && String.eqb (GraphEdge.file_path e) f)%bool)
                         (CodeGraph.edges (CodeAnalyzer.graph self))))).
    { rewrite <- Hg.
      exact (edge_loop_adds self
               (fun e => (targets node_id IMPORTS e
                          && String.eqb (GraphEdge.file_path e) f)%bool)
               (fun _ => IMPORT) (fun _ _ => None)
               (CodeGraph.edges (CodeAnalyzer.graph (fst acc)))
               acc Hg Hi). }
    destruct H1 as (Hg1 & Hi1 & Hu1).
    destruct (IH acc1 Hg1 Hi1) as (Hg2 & Hi2 & Hu2).
    unfold loop_adds. split; [exact Hg2|]. split; [exact Hi2|].
    rewrite Hu2, Hu1, <- app_assoc. reflexivity.
Qed.

Lemma build_usage_index_step_content g self item :
  In item (Py.items (CodeGraph.nodes g)) ->
  usage_index_content g self ->
  usage_index_content g
    (CodeAnalyzer._build_usage_index_step readlines self item).
Proof.
  intros Hin [Hg Hu]. destruct item as [node_id node].
  unfold CodeAnalyzer._build_usage_index_step.
  destruct (GraphNode.type node) eqn:Hty; try (now split).
  pose proof (get_code_context_indexes readlines self
                (GraphNode.file_path node)
                (GraphNode.line_number node) 0 0) as [Hi1 Hg1].
  destruct (CodeAnalyzer._get_code_context _ _ _ _ _ _) as [s1 ctx].
  simpl in Hi1, Hg1.
  set (d := UsageLocation.mk DEFINITION _ _ ctx None).
  destruct (export_usages_adds s1 node_id (s1, [d]) eq_refl eq_refl)
    as (Hg2 & Hi2 & Hu2).
  set (a2 := CodeAnalyzer._export_usages readlines node_id (s1, [d])) in *.
  destruct (import_usages_adds s1 node_id node a2 Hg2 Hi2)
    as (Hg3 & Hi3 & Hu3).
  set (a3 := CodeAnalyzer._import_usages readlines node_id node a2) in *.
  destruct (call_usages_adds s1 node_id a3 Hg3 Hi3) as (Hg4 & Hi4 & Hu4).
  destruct (CodeAnalyzer._call_usages readlines node_id a3)
    as [s4 usages].
  simpl in Hg4, Hi4, Hu4.
  assert (Hus : map erase_context usages = node_usages g node_id node).
  { rewrite Hu4, Hu3, Hu2, Hg1, Hg. unfold node_usages. simpl.
    now rewrite <- !app_assoc. }
  split; [simpl; congruence|].
  intros k l. simpl. rewrite Hi4, Hi1, !get_set.
  destruct (String.eqb node_id k) eqn:E1.
  - intros [= <-]. exists node_id, node. apply String.eqb_eq in E1.
    split; [|exact Hus]. repeat split; auto.
  - destruct (String.eqb (GraphNode.name node) k) eqn:E2; [|apply Hu].
    intros [= <-]. exists node_id, node. apply String.eqb_eq in E2.
    split; [|exact Hus]. repeat split; auto.
Qed.

Lemma build_usage_index_step_keys self item k :
  CodeAnalyzer.graph
    (CodeAnalyzer._build_usage_index_step readlines self item)
  = CodeAnalyzer.graph self /\
  (Py.has_key (GraphIndexes.function_usages (CodeAnalyzer.indexes self)) k
   = true ->
   Py.has_key
     (GraphIndexes.function_usages
        (CodeAnalyzer.indexes
           (CodeAnalyzer._build_usage_index_step readlines self item))) k
   = true) /\
  (GraphNode.type (snd item) = FUNCTION ->
   k = fst item \/ k = GraphNode.name (snd item) ->
   Py.has_key
     (GraphIndexes.function_usages
        (CodeAnalyzer.indexes
           (CodeAnalyzer._build_usage_index_step readlines self item))) k
   = true).
Proof.
  destruct item as [node_id node].
  unfold CodeAnalyzer._build_usage_index_step. simpl fst. simpl snd.
  destruct (GraphNode.type node) eqn:Hty;
    try (split; [reflexivity | split; [auto | discriminate]]).
  pose proof (get_code_context_indexes readlines self
                (GraphNode.file_path node)
                (GraphNode.line_number node) 0 0) as [Hi1 Hg1].
  destruct (CodeAnalyzer._get_code_context _ _ _ _ _ _) as [s1 ctx].
  simpl in Hi1, Hg1.
  set (d := UsageLocation.mk DEFINITION _ _ ctx None).
  destruct (export_usages_adds s1 node_id (s1, [d]) eq_refl eq_refl)
    as (Hg2 & Hi2 & _).
  set (a2 := CodeAnalyzer._export_usages readlines node_id (s1, [d])) in *.
  destruct (import_usages_adds s1 node_id node a2 Hg2 Hi2)
    as (Hg3 & Hi3 & _).
  set (a3 := CodeAnalyzer._import_usages readlines node_id node a2) in *.
  destruct (call_usages_adds s1 node_id a3 Hg3 Hi3) as (Hg4 & Hi4 & _).
  destruct (CodeAnalyzer._call_usages readlines node_id a3)
    as [s4 usages].
  simpl in Hg4, Hi4. simpl. rewrite Hi4, Hi1.
  split; [congruence|]. split.
  - intros H. now do 2 apply has_key_set.
  - intros _ [-> | ->].
    + apply has_key_set_same.
    + apply has_key_set, has_key_set_same.
Qed.

Lemma build_usage_index_keys items : forall self k node_id node,
  In (node_id, node) items -> GraphNode.type node = FUNCTION ->
  k = node_id \/ k = GraphNode.name node ->
  Py.has_key
    (GraphIndexes.function_usages
       (CodeAnalyzer.indexes
          (fold_left (CodeAnalyzer._build_usage_index_step readlines)
                     items self))) k = true.
Proof.
  induction items as [|item r IH]; intros self k node_id node Hin Hty Hk;
    [destruct Hin|].
  simpl. destruct Hin as [->|Hin]; [|eapply IH; eauto].
  destruct (build_usage_index_step_keys self (node_id, node) k)
    as (_ & _ & Hnew).
  specialize (Hnew Hty Hk).
  apply (fold_left_invariant
           (fun s => Py.has_key
                       (GraphIndexes.function_usages
                          (CodeAnalyzer.indexes s)) k = true));
    [exact Hnew|].
  intros a b _ Ha.
  destruct (build_usage_index_step_keys a b k) as (_ & Hkeep & _). auto.
Qed.

(** The usage table after [create_indexes]: every list belongs to a
    function node of the graph and holds that node's usages; the ID and the
    name of every function node are keys. *)
Lemma create_indexes_content graph :
  let a := CodeAnalyzer.create_indexes readlines (CodeAnalyzer.init graph) in
  usage_index_content graph a /\
  forall k node_id node,
    key_of_function graph k node_id node ->
    Py.has_key (GraphIndexes.function_usages (CodeAnalyzer.indexes a)) k
    = true.
Proof.
  unfold CodeAnalyzer.create_indexes.
  set (s0 := CodeAnalyzer.init graph).
  destruct (file_functions_index_keeps s0) as (G1 & U1 & _).
  set (s1 := CodeAnalyzer._build_file_functions_index s0) in *.
  destruct (call_indexes_keeps s1) as (G2 & U2 & _).
  set (s2 := CodeAnalyzer._build_call_indexes s1) in *.
  cbv zeta in *.
  assert (Hg2 : CodeAnalyzer.graph s2 = graph) by (now rewrite G2, G1).
  assert (H3 : usage_index_content graph
                 (CodeAnalyzer._build_usage_index readlines s2)).
  { unfold CodeAnalyzer._build_usage_index. rewrite Hg2.
    apply fold_left_invariant.
    - split; [exact Hg2|]. intros k l. rewrite U2, U1. discriminate.
    - intros a item Hin. now apply build_usage_index_step_content. }
  assert (K3 : forall k node_id node,
            key_of_function graph k node_id node ->
            Py.has_key
              (GraphIndexes.function_usages
                 (CodeAnalyzer.indexes
                    (CodeAnalyzer._build_usage_index readlines s2))) k
            = true).
  { intros k node_id node (Hin & Hty & Hk).
    unfold CodeAnalyzer._build_usage_index. rewrite Hg2.
    eapply build_usage_index_keys; eauto. }
  set (s3 := CodeAnalyzer._build_usage_index readlines s2) in *.
  destruct (export_import_indexes_sound s3) as (U4 & _).
  cbv zeta in U4.
  assert (G4 : CodeAnalyzer.graph
                 (CodeAnalyzer._build_export_import_indexes s3)
               = CodeAnalyzer.graph s3).
  { unfold CodeAnalyzer._build_export_import_indexes.
    apply fold_left_invariant; [reflexivity|].
    intros a [node_id node] _ Ha. destruct (_ && _)%bool; exact Ha. }
  split.
  - destruct H3 as [Hg3 Hu3]. split; [congruence|].
    intros k l. rewrite U4. apply Hu3.
  - intros k node_id node Hk. rewrite U4. eauto.
Qed.

End UsageContent.

(* ------------------------------------------------------------------ *)
(** ** Reports against the index and the graph *)
(* ------------------------------------------------------------------ *)

Lemma categorize_lists l : forall r,
  let r' := fold_left CodeAnalyzer._categorize l r in
  UsageReport.definition r' = last_definition l (UsageReport.definition r) /\
  UsageReport.exports r'
  = UsageReport.exports r ++ filter (UsageType_is EXPORT) l /\
  UsageReport.imports r'
  = UsageReport.imports r ++ filter (UsageType_is IMPORT) l /\
  UsageReport.calls r'
  = UsageReport.calls r ++ filter (UsageType_is CALL) l /\
  UsageReport.tests r'
  = UsageReport.tests r ++ filter (UsageType_is TEST) l /\
  UsageReport.files_affected r'
  = fold_left Py.set_add (map UsageLocation.file_path l)
              (UsageReport.files_affected r).
Proof.
  induction l as [|u l IH]; intros r; simpl.
  - rewrite !app_nil_r. repeat split.
  - destruct (IH (CodeAnalyzer._categorize r u)) as (H1 & H2 & H3 & H4 & H5 & H6).
    cbv zeta in *. rewrite H1, H2, H3, H4, H5, H6. clear.
    unfold CodeAnalyzer._categorize, UsageType_is, last_definition.
    destruct (UsageLocation.usage_type u); simpl;
      rewrite <- ?app_assoc; repeat split.
Qed.

Lemma find_all_usages_lists self function_name report :
  CodeAnalyzer.find_all_usages self function_name = Some report ->
  exists usages,
    Py.get (GraphIndexes.function_usages (CodeAnalyzer.indexes self))
           function_name = Some usages /\
    usages <> [] /\
    UsageReport.function_name report = function_name /\
    UsageReport.total_usages report = Py.len usages /\
    UsageReport.definition report = last_definition usages None /\
    UsageReport.exports report = filter (UsageType_is EXPORT) usages /\
    UsageReport.imports report = filter (UsageType_is IMPORT) usages /\
    UsageReport.calls report = filter (UsageType_is CALL) usages /\
    UsageReport.tests report = filter (UsageType_is TEST) usages /\
    UsageReport.files_affected report
    = fold_left Py.set_add (map UsageLocation.file_path usages) [].
Proof.
  unfold CodeAnalyzer.find_all_usages.
  destruct (Py.get _ _) as [usages|]; [|discriminate].
  set (r0 := UsageReport.mk function_name _ None [] [] [] [] 0 []).
  destruct (categorize_lists usages r0) as (H1 & H2 & H3 & H4 & H5 & H6).
  destruct (categorize_ids usages r0) as [_ Hn].
  cbv zeta in *. intros H. exists usages.
  assert (Hne : usages <> []) by (destruct usages; [discriminate H | discriminate]).
  assert (Hr : report
               = UsageReport.with_total_usages
                   (fold_left CodeAnalyzer._categorize usages r0)
                   (Py.len usages)).
  { destruct usages as [|u us]; [discriminate H|]. now injection H. }
  subst report. unfold UsageReport.with_total_usages.
  cbn [UsageReport.function_name UsageReport.total_usages
       UsageReport.definition UsageReport.exports UsageReport.imports
       UsageReport.calls UsageReport.tests UsageReport.files_affected].
  rewrite H1, H2, H3, H4, H5, H6, Hn.
  repeat split. exact Hne.
Qed.

(** X9. For any analyzer state, the four lists of a report are the usages of the
    four kinds in the list the index holds for the name, each in the order
    of that list, and the definition is the last Definition usage of the
    list. *)
Theorem report_lists_keep_index_order
  (self : CodeAnalyzer.t) (function_name : string) (report : UsageReport.t) :
  CodeAnalyzer.find_all_usages self function_name = Some report ->
  let usages :=
    list_at (GraphIndexes.function_usages (CodeAnalyzer.indexes self))
            function_name in
  UsageReport.function_name report = function_name /\
  UsageReport.definition report = last_definition usages None /\
  UsageReport.exports report = filter (UsageType_is EXPORT) usages /\
  UsageReport.imports report = filter (UsageType_is IMPORT) usages /\
  UsageReport.calls report = filter (UsageType_is CALL) usages /\
  UsageReport.tests report = filter (UsageType_is TEST) usages.
Proof.
  intros H. apply find_all_usages_lists in H.
  destruct H as (us & Hget & _ & H0 & _ & H1 & H2 & H3 & H4 & H5 & _).
  unfold list_at. rewrite Hget. cbv zeta. auto 10.
Qed.

Lemma report_lists_keep_index_order_witness :
  exists report,
    CodeAnalyzer.find_all_usages scenario_a_analyzer "a" = Some report /\
    UsageReport.calls report
    = filter (UsageType_is CALL)
        (list_at (GraphIndexes.function_usages
                    (CodeAnalyzer.indexes scenario_a_analyzer)) "a").
Proof.
  eexists. split; [vm_compute; reflexivity|].
  eapply (report_lists_keep_index_order scenario_a_analyzer "a").
  vm_compute. reflexivity.
Defined.

Lemma set_add_fold paths : forall s,
  NoDup s ->
  NoDup (fold_left Py.set_add paths s) /\
  forall f, In f (fold_left Py.set_add paths s) <-> In f s \/ In f paths.
Proof.
  induction paths as [|p r IH]; intros s Hs; simpl.
  - split; [exact Hs|]. intros f. split; [now left | now intros [H|[]]].
  - assert (Hs' : NoDup (Py.set_add s p)).
    { unfold Py.set_add. destruct (Py.mem p s) eqn:M; [exact Hs|].
      apply NoDup_snoc; [exact Hs|]. intros H. apply mem_In in H. congruence. }
    destruct (IH _ Hs') as [H1 H2]. split; [exact H1|].
    intros f. rewrite H2. unfold Py.set_add.
    destruct (Py.mem p s) eqn:M.
    + apply mem_In in M. split.
      * intros [H|H]; auto.
      * intros [H|[<-|H]]; auto.
    + rewrite in_app_iff. simpl. split.
      * intros [[H|[<-|[]]]|H]; auto.
      * intros [H|[<-|H]]; auto.
Qed.

(** X10. For any analyzer state, [files_affected] of a report lists each file of
    a usage of the index list once, and nothing else. *)
Theorem files_affected_are_the_usage_files
  (self : CodeAnalyzer.t) (function_name : string) (report : UsageReport.t) :
  CodeAnalyzer.find_all_usages self function_name = Some report ->
  NoDup (UsageReport.files_affected report) /\
  forall f,
    In f (UsageReport.files_affected report) <->
    exists u,
      In u (list_at (GraphIndexes.function_usages
                       (CodeAnalyzer.indexes self)) function_name) /\
      UsageLocation.file_path u = f.
Proof.
  intros H. apply find_all_usages_lists in H.
  destruct H as (us & Hget & _ & _ & _ & _ & _ & _ & _ & _ & Hf).
  unfold list_at. rewrite Hget, Hf.
  destruct (set_add_fold (map UsageLocation.file_path us) [] (NoDup_nil _))
    as [H1 H2].
  split; [exact H1|]. intros f. rewrite H2, in_map_iff. split.
  - intros [[]|(u & Hu & Hin)]. eauto.
  - intros (u & Hin & Hu). right. eauto.
Qed.

Lemma files_affected_are_the_usage_files_witness :
  exists report,
    CodeAnalyzer.find_all_usages scenario_a_analyzer "a" = Some report /\
    NoDup (UsageReport.files_affected report).
Proof.
  eexists. split; [vm_compute; reflexivity|].
  eapply (files_affected_are_the_usage_files scenario_a_analyzer "a").
  vm_compute. reflexivity.
Defined.

(** *** Reports of built indexes *)

Lemma erase_context_type u :
  UsageLocation.usage_type (erase_context u) = UsageLocation.usage_type u.
Proof. reflexivity. Qed.

Lemma map_erase_filter ty l :
  map erase_context (filter (UsageType_is ty) l)
  = filter (UsageType_is ty) (map erase_context l).
Proof.
  induction l as [|u l IH]; simpl; [reflexivity|].
  change (UsageType_is ty (erase_context u)) with (UsageType_is ty u).
  destruct (UsageType_is ty u); simpl; now rewrite IH.
Qed.

Lemma filter_type_all ty l :
  Forall (fun u => UsageLocation.usage_type u = ty) l ->
  filter (UsageType_is ty) l = l.
Proof.
  induction 1 as [|u l Hu _ IH]; simpl; [reflexivity|].
  unfold UsageType_is at 1. rewrite Hu, IH. now destruct ty.
Qed.

Lemma filter_type_none ty l :
  Forall (fun u => UsageLocation.usage_type u <> ty) l ->
  filter (UsageType_is ty) l = [].
Proof.
  induction 1 as [|u l Hu _ IH]; simpl; [reflexivity|].
  unfold UsageType_is at 1.
  destruct (UsageType_eqb (UsageLocation.usage_type u) ty) eqn:E; [|exact IH].
  exfalso. apply Hu. destruct (UsageLocation.usage_type u), ty;
    try discriminate; reflexivity.
Qed.

Lemma export_usages_type g node_id :
  Forall (fun u => UsageLocation.usage_type u = EXPORT)
         (export_usages g node_id).
Proof. unfold export_usages. apply Forall_map, Forall_forall. auto. Qed.

Lemma import_usages_type g node_id node :
  Forall (fun u => UsageLocation.usage_type u = IMPORT)
         (import_usages g node_id node).
Proof.
  unfold import_usages. apply Forall_forall. intros u Hu.
  apply in_flat_map in Hu. destruct Hu as (f & _ & Hu).
  apply in_map_iff in Hu. now destruct Hu as (e & <- & _).
Qed.

Lemma call_usages_type g node_id :
  Forall (fun u => UsageLocation.usage_type u = CALL
                   \/ UsageLocation.usage_type u = TEST)
         (call_usages g node_id).
Proof.
  unfold call_usages. apply Forall_map, Forall_forall. intros e _.
  unfold call_usage. simpl. destruct (is_test_path _); auto.
Qed.

Lemma Forall_type_neq ty ty' (l : list UsageLocation.t) :
  ty <> ty' ->
  Forall (fun u => UsageLocation.usage_type u = ty) l ->
  Forall (fun u => UsageLocation.usage_type u <> ty') l.
Proof.
  intros Hne H. eapply Forall_impl; [|exact H]. simpl. congruence.
Qed.

Lemma Forall_call_neq ty' (l : list UsageLocation.t) :
  ty' <> CALL -> ty' <> TEST ->
  Forall (fun u => UsageLocation.usage_type u = CALL
                   \/ UsageLocation.usage_type u = TEST) l ->
  Forall (fun u => UsageLocation.usage_type u <> ty') l.
Proof.
  intros H1 H2 H. eapply Forall_impl; [|exact H]. simpl.
  intros u [E|E]; congruence.
Qed.

Lemma node_usages_filter g node_id node :
  filter (UsageType_is EXPORT) (node_usages g node_id node)
  = export_usages g node_id /\
  filter (UsageType_is IMPORT) (node_usages g node_id node)
  = import_usages g node_id node /\
  filter (UsageType_is CALL) (node_usages g node_id node)
  = filter (UsageType_is CALL) (call_usages g node_id) /\
  filter (UsageType_is TEST) (node_usages g node_id node)
  = filter (UsageType_is TEST) (call_usages g node_id).
Proof.
  pose proof (export_usages_type g node_id) as He.
  pose proof (import_usages_type g node_id node) as Hi.
  pose proof (call_usages_type g node_id) as Hc.
  unfold node_usages. simpl. rewrite !filter_app.
  repeat split.
  - rewrite (filter_type_all _ _ He),
      (filter_type_none EXPORT (import_usages g node_id node)),
      (filter_type_none EXPORT (call_usages g node_id)).
    + now rewrite !app_nil_r.
    + apply Forall_call_neq; [discriminate | discriminate | exact Hc].
    + eapply Forall_type_neq; [|exact Hi]. discriminate.
  - rewrite (filter_type_all _ _ Hi),
      (filter_type_none IMPORT (export_usages g node_id)),
      (filter_type_none IMPORT (call_usages g node_id)).
    + now rewrite !app_nil_r.
    + apply Forall_call_neq; [discriminate | discriminate | exact Hc].
    + eapply Forall_type_neq; [|exact He]. discriminate.
  - rewrite (filter_type_none CALL (export_usages g node_id)),
      (filter_type_none CALL (import_usages g node_id node)).
    + reflexivity.
    + eapply Forall_type_neq; [|exact Hi]. discriminate.
    + eapply Forall_type_neq; [|exact He]. discriminate.
  - rewrite (filter_type_none TEST (export_usages g node_id)),
      (filter_type_none TEST (import_usages g node_id node)).
    + reflexivity.
    + eapply Forall_type_neq; [|exact Hi]. discriminate.
    + eapply Forall_type_neq; [|exact He]. discriminate.
Qed.

Lemma last_definition_keeps l : forall d,
  Forall (fun u => UsageLocation.usage_type u <> DEFINITION) l ->
  last_definition l d = d.
Proof.
  unfold last_definition.
  induction l as [|u l IH]; intros d H; simpl; [reflexivity|].
  inversion H as [|? ? Hu Hl]; subst. rewrite IH by exact Hl.
  destruct (UsageLocation.usage_type u); congruence.
Qed.

Lemma node_usages_definition g node_id node l :
  map erase_context l = node_usages g node_id node ->
  option_map erase_context (last_definition l None)
  = Some (definition_usage node).
Proof.
  unfold node_usages. destruct l as [|d rest]; [discriminate|].
  intros H.
  change (erase_context d :: map erase_context rest
          = definition_usage node
            :: export_usages g node_id ++ import_usages g node_id node
               ++ call_usages g node_id) in H.
  assert (Hd : erase_context d = definition_usage node) by congruence.
  assert (Hrest : map erase_context rest
                  = export_usages g node_id ++ import_usages g node_id node
                    ++ call_usages g node_id) by congruence.
  clear H.
  assert (Hty : UsageLocation.usage_type d = DEFINITION).
  { rewrite <- erase_context_type, Hd. reflexivity. }
  unfold last_definition. simpl fold_left. rewrite Hty.
  fold (last_definition rest (Some d)).
  rewrite last_definition_keeps; [simpl option_map; now rewrite Hd|].
  assert (H : Forall (fun u => UsageLocation.usage_type u <> DEFINITION)
                     (map erase_context rest)).
  { rewrite Hrest. rewrite !Forall_app. repeat split.
    - eapply Forall_type_neq; [|apply export_usages_type]. discriminate.
    - eapply Forall_type_neq; [|apply import_usages_type]. discriminate.
    - apply Forall_call_neq; [discriminate | discriminate |].
      apply call_usages_type. }
  rewrite Forall_map in H. exact H.
Qed.

(** X11. On indexes built by [create_indexes], a report is the picture of the
    graph for one function node whose ID or name is the queried key: up to
    the source snippets, its definition is the node's file and line, its
    exports are the Exports edges that target the node, its imports the
    Imports edges that target it (per importing file), and its calls and
    tests the Calls edges that target it, a usage being a test exactly when
    the lower-cased path of the edge contains [test]; all in edge order. *)
Theorem report_pictures_the_graph
  (readlines : string -> option (list string)) (graph : CodeGraph.t)
  (key : string) (report : UsageReport.t) :
  CodeAnalyzer.find_all_usages
    (CodeAnalyzer.create_indexes readlines (CodeAnalyzer.init graph)) key
  = Some report ->
  exists node_id node,
    key_of_function graph key node_id node /\
    option_map erase_context (UsageReport.definition report)
    = Some (definition_usage node) /\
    map erase_context (UsageReport.exports report)
    = export_usages graph node_id /\
    map erase_context (UsageReport.imports report)
    = import_usages graph node_id node /\
    map erase_context (UsageReport.calls report)
    = map (call_usage graph)
          (filter (fun e => (targets node_id CALLS e
                             && negb (is_test_path (GraphEdge.file_path e)))%bool)
                  (CodeGraph.edges graph)) /\
    map erase_context (UsageReport.tests report)
    = map (call_usage graph)
          (filter (fun e => (targets node_id CALLS e
                             && is_test_path (GraphEdge.file_path e))%bool)
                  (CodeGraph.edges graph)).
Proof.
  intros H. apply find_all_usages_lists in H.
  destruct H as (us & Hget & _ & _ & _ & Hd & He & Hi & Hc & Ht & _).
  destruct (create_indexes_content readlines graph) as [[_ Hcontent] _].
  destruct (Hcontent _ _ Hget) as (node_id & node & Hkey & Hus).
  exists node_id, node. split; [exact Hkey|].
  destruct (node_usages_filter graph node_id node) as (F1 & F2 & F3 & F4).
  rewrite Hd, He, Hi, Hc, Ht, !map_erase_filter, Hus, F1, F2, F3, F4.
  split; [eapply node_usages_definition; eauto|].
  do 2 (split; [reflexivity|]).
  unfold call_usages. split.
  - induction (CodeGraph.edges graph) as [|e r IH]; simpl; [reflexivity|].
    destruct (targets node_id CALLS e); simpl; [|exact IH].
    unfold UsageType_is at 1, call_usage at 1. simpl.
    destruct (is_test_path (GraphEdge.file_path e)); simpl; now rewrite IH.
  - induction (CodeGraph.edges graph) as [|e r IH]; simpl; [reflexivity|].
    destruct (targets node_id CALLS e); simpl; [|exact IH].
    unfold UsageType_is at 1, call_usage at 1. simpl.
    destruct (is_test_path (GraphEdge.file_path e)); simpl; now rewrite IH.
Qed.

Lemma report_pictures_the_graph_witness :
  exists report node_id node,
    CodeAnalyzer.find_all_usages scenario_a_analyzer "a" = Some report /\
    key_of_function scenario_a_graph "a" node_id node /\
    map erase_context (UsageReport.exports report)
    = export_usages scenario_a_graph node_id.
Proof.
  destruct (report_pictures_the_graph no_sources scenario_a_graph "a"
              (match CodeAnalyzer.find_all_usages scenario_a_analyzer "a" with
               | Some r => r
               | None => UsageReport.mk "" "" None [] [] [] [] 0 []
               end))
    as (node_id & node & Hk & _ & He & _).
  - vm_compute. reflexivity.
  - eexists. exists node_id, node. split; [vm_compute; reflexivity|].
    split; [exact Hk | exact He].
Defined.

(** X12. On indexes built by [create_indexes], [find_all_usages] answers for a
    key exactly when the key is the ID or the name of a function node of
    the graph. *)
Theorem function_is_found_iff_in_graph
  (readlines : string -> option (list string)) (graph : CodeGraph.t)
  (key : string) :
  CodeAnalyzer.find_all_usages
    (CodeAnalyzer.create_indexes readlines (CodeAnalyzer.init graph)) key
  <> None
  <->
  exists node_id node, key_of_function graph key node_id node.
Proof.
  destruct (create_indexes_content readlines graph) as [[_ Hcontent] Hkeys].
  cbv zeta in *. split.
  - intros H.
    destruct (CodeAnalyzer.find_all_usages _ key) as [r|] eqn:E;
      [|now elim H].
    apply find_all_usages_lists in E. destruct E as (us & Hget & _).
    destruct (Hcontent _ _ Hget) as (node_id & node & Hk & _). eauto.
  - intros (node_id & node & Hk). specialize (Hkeys _ _ _ Hk).
    apply has_key_get in Hkeys. destruct Hkeys as (l & Hl).
    destruct (Hcontent _ _ Hl) as (i & n & _ & Hus).
    unfold CodeAnalyzer.find_all_usages. rewrite Hl.
    destruct l as [|u l]; [discriminate Hus | discriminate].
Qed.

(* ------------------------------------------------------------------ *)
(** ** The side indexes *)
(* ------------------------------------------------------------------ *)

Lemma list_at_append_at {V} (d : Py.dict (list V)) k x k' :
  list_at (Py.append_at d k x) k'
  = if String.eqb k k' then list_at d k' ++ [x] else list_at d k'.
Proof.
  unfold list_at, Py.append_at.
  destruct (Py.get d k) as [l|] eqn:E; rewrite get_set;
    destruct (String.eqb k k') eqn:Ek; try reflexivity;
    apply String.eqb_eq in Ek; subst k'; now rewrite E.
Qed.

Lemma call_indexes_content es : forall self k,
  let self' :=
    fold_left
      (fun self edge =>
         match GraphEdge.edge_type edge with
         | CALLS =>
             let ix := CodeAnalyzer.indexes self in
             CodeAnalyzer.with_indexes self
               (GraphIndexes.mk
                  (GraphIndexes.function_usages ix)
                  (GraphIndexes.file_functions ix)
                  (Py.append_at (GraphIndexes.function_calls ix)
                     (GraphEdge.source_id edge) (GraphEdge.target_id edge))
                  (Py.append_at (GraphIndexes.function_called_by ix)
                     (GraphEdge.target_id edge) (GraphEdge.source_id edge))
                  (GraphIndexes.exported_functions ix)
                  (GraphIndexes.imported_functions ix))
         | _ => self
         end)
      es self in
  list_at (GraphIndexes.function_calls (CodeAnalyzer.indexes self')) k
  = list_at (GraphIndexes.function_calls (CodeAnalyzer.indexes self)) k
    ++ map GraphEdge.target_id (filter (leaves k CALLS) es) /\
  list_at (GraphIndexes.function_called_by (CodeAnalyzer.indexes self')) k
  = list_at (GraphIndexes.function_called_by (CodeAnalyzer.indexes self)) k
    ++ map GraphEdge.source_id (filter (targets k CALLS) es) /\
  GraphIndexes.file_functions (CodeAnalyzer.indexes self')
  = GraphIndexes.file_functions (CodeAnalyzer.indexes self).
Proof.
  induction es as [|e r IH]; intros self k; simpl.
  - rewrite !app_nil_r. auto.
  - match goal with
    | |- context [fold_left _ r ?s1] =>
        destruct (IH s1 k) as (H1 & H2 & H3)
    end.
    cbv zeta in *. rewrite H1, H2, H3. clear H1 H2 H3 IH.
    unfold leaves, targets.
    destruct (GraphEdge.edge_type e) eqn:Ety; simpl;
      rewrite ?andb_false_r; auto.
    rewrite !list_at_append_at, !andb_true_r.
    destruct (String.eqb (GraphEdge.source_id e) k),
      (String.eqb (GraphEdge.target_id e) k); simpl;
      rewrite <- ?app_assoc; auto.
Qed.

Lemma file_functions_index_content items : forall self f,
  let self' :=
    fold_left
      (fun self (item : string * GraphNode.t) =>
         let '(node_id, node) := item in
         match GraphNode.type node with
         | FUNCTION =>
             let ix := CodeAnalyzer.indexes self in
             CodeAnalyzer.with_indexes self
               (GraphIndexes.mk
                  (GraphIndexes.function_usages ix)
                  (Py.append_at (GraphIndexes.file_functions ix)
                                (GraphNode.file_path node) node_id)
                  (GraphIndexes.function_calls ix)
                  (GraphIndexes.function_called_by ix)
                  (GraphIndexes.exported_functions ix)
                  (GraphIndexes.imported_functions ix))
         | _ => self
         end)
      items self in
  list_at (GraphIndexes.file_functions (CodeAnalyzer.indexes self')) f
  = list_at (GraphIndexes.file_functions (CodeAnalyzer.indexes self)) f
    ++ map fst (filter (function_in_file f) items).
Proof.
  induction items as [|[node_id node] r IH]; intros self f; simpl.
  - now rewrite app_nil_r.
  - match goal with
    | |- context [fold_left _ r ?s1] => pose proof (IH s1 f) as H1
    end.
    cbv zeta in *. rewrite H1. clear H1 IH.
    unfold function_in_file at 2. simpl.
    destruct (GraphNode.type node); simpl; auto.
    rewrite list_at_append_at.
    destruct (String.eqb (GraphNode.file_path node) f); simpl;
      rewrite <- ?app_assoc; auto.
Qed.

Lemma build_call_indexes_content self k :
  let self' := CodeAnalyzer._build_call_indexes self in
  list_at (GraphIndexes.function_calls (CodeAnalyzer.indexes self')) k
  = list_at (GraphIndexes.function_calls (CodeAnalyzer.indexes self)) k
    ++ map GraphEdge.target_id
         (filter (leaves k CALLS) (CodeGraph.edges (CodeAnalyzer.graph self)))
  /\
  list_at (GraphIndexes.function_called_by (CodeAnalyzer.indexes self')) k
  = list_at (GraphIndexes.function_called_by (CodeAnalyzer.indexes self)) k
    ++ map GraphEdge.source_id
         (filter (targets k CALLS)
                 (CodeGraph.edges (CodeAnalyzer.graph self))) /\
  GraphIndexes.file_functions (CodeAnalyzer.indexes self')
  = GraphIndexes.file_functions (CodeAnalyzer.indexes self).
Proof.
  exact (call_indexes_content (CodeGraph.edges (CodeAnalyzer.graph self))
           self k).
Qed.

Lemma build_file_functions_index_content self f :
  let self' := CodeAnalyzer._build_file_functions_index self in
  list_at (GraphIndexes.file_functions (CodeAnalyzer.indexes self')) f
  = list_at (GraphIndexes.file_functions (CodeAnalyzer.indexes self)) f
    ++ map fst (filter (function_in_file f)
                       (Py.items (CodeGraph.nodes (CodeAnalyzer.graph self)))).
Proof.
  exact (file_functions_index_content
           (Py.items (CodeGraph.nodes (CodeAnalyzer.graph self))) self f).
Qed.

Section SideIndexes.
Variable readlines : string -> option (list string).

Lemma build_usage_index_side self :
  side_indexes_kept self (CodeAnalyzer._build_usage_index readlines self).
Proof.
  unfold CodeAnalyzer._build_usage_index.
  apply (fold_left_invariant (side_indexes_kept self));
    [repeat split|].
  intros a [node_id node] _ (H1 & H2 & H3).
  unfold CodeAnalyzer._build_usage_index_step.
  destruct (GraphNode.type node); try (now repeat split).
  pose proof (get_code_context_indexes readlines a
                (GraphNode.file_path node)
                (GraphNode.line_number node) 0 0) as [Hi1 _].
  destruct (CodeAnalyzer._get_code_context _ _ _ _ _ _) as [s1 ctx].
  simpl in Hi1.
  set (d := UsageLocation.mk DEFINITION _ _ ctx None).
  destruct (export_usages_adds readlines s1 node_id (s1, [d])
              eq_refl eq_refl) as (Hg2 & Hi2 & _).
  set (a2 := CodeAnalyzer._export_usages readlines node_id (s1, [d])) in *.
  destruct (import_usages_adds readlines s1 node_id node a2 Hg2 Hi2)
    as (Hg3 & Hi3 & _).
  set (a3 := CodeAnalyzer._import_usages readlines node_id node a2) in *.
  destruct (call_usages_adds readlines s1 node_id a3 Hg3 Hi3)
    as (_ & Hi4 & _).
  destruct (CodeAnalyzer._call_usages readlines node_id a3)
    as [s4 usages].
  simpl in Hi4. unfold side_indexes_kept. simpl.
  rewrite Hi4, Hi1. auto.
Qed.

Lemma export_import_indexes_side self :
  side_indexes_kept self (CodeAnalyzer._build_export_import_indexes self).
Proof.
  unfold CodeAnalyzer._build_export_import_indexes.
  apply (fold_left_invariant (side_indexes_kept self));
    [repeat split|].
  intros a [node_id node] _ H. destruct (_ && _)%bool; exact H.
Qed.

Lemma create_indexes_side graph :
  let a := CodeAnalyzer.create_indexes readlines (CodeAnalyzer.init graph) in
  forall k,
    list_at (GraphIndexes.function_calls (CodeAnalyzer.indexes a)) k
    = map GraphEdge.target_id
          (filter (leaves k CALLS) (CodeGraph.edges graph)) /\
    list_at (GraphIndexes.function_called_by (CodeAnalyzer.indexes a)) k
    = map GraphEdge.source_id
          (filter (targets k CALLS) (CodeGraph.edges graph)) /\
    list_at (GraphIndexes.file_functions (CodeAnalyzer.indexes a)) k
    = map fst (filter (function_in_file k)
                      (Py.items (CodeGraph.nodes graph))).
Proof.
  intros a k. subst a. unfold CodeAnalyzer.create_indexes.
  set (s0 := CodeAnalyzer.init graph).
  pose proof (build_file_functions_index_content s0 k) as F1.
  destruct (file_functions_index_keeps s0) as (G1 & _).
  cbv zeta in F1, G1.
  assert (C1 : GraphIndexes.function_calls
                 (CodeAnalyzer.indexes
                    (CodeAnalyzer._build_file_functions_index s0))
               = Py.empty /\
               GraphIndexes.function_called_by
                 (CodeAnalyzer.indexes
                    (CodeAnalyzer._build_file_functions_index s0))
               = Py.empty).
  { unfold CodeAnalyzer._build_file_functions_index.
    apply fold_left_invariant; [split; reflexivity|].
    intros a [node_id node] _ Ha.
    destruct (GraphNode.type node); exact Ha. }
  destruct C1 as [C1 C2].
  set (s1 := CodeAnalyzer._build_file_functions_index s0) in *.
  destruct (build_call_indexes_content s1 k) as (H1 & H2 & H3).
  set (s2 := CodeAnalyzer._build_call_indexes s1) in *.
  destruct (build_usage_index_side s2) as (S1 & S2 & S3).
  set (s3 := CodeAnalyzer._build_usage_index readlines s2) in *.
  destruct (export_import_indexes_side s3) as (T1 & T2 & T3).
  rewrite T1, T2, T3, S1, S2, S3, H1, H2, H3, F1, G1, C1, C2.
  simpl. auto.
Qed.

End SideIndexes.

(** X13. On indexes built by [create_indexes], for a name that the export index
    resolves to a non-empty node ID, [get_callers] lists the sources of the
    Calls edges that target the node and [get_calls] the targets of the
    Calls edges that leave it, one entry per edge and in edge order: a
    caller with two call sites is listed twice. *)
Theorem callers_and_calls_are_the_call_edges
  (readlines : string -> option (list string)) (graph : CodeGraph.t)
  (function_name node_id : string) :
  let a := CodeAnalyzer.create_indexes readlines (CodeAnalyzer.init graph) in
  CodeAnalyzer._get_node_id_by_name a function_name = Some node_id ->
  Py.truthy node_id = true ->
  CodeAnalyzer.get_callers a function_name
  = map GraphEdge.source_id
        (filter (targets node_id CALLS) (CodeGraph.edges graph)) /\
  CodeAnalyzer.get_calls a function_name
  = map GraphEdge.target_id
        (filter (leaves node_id CALLS) (CodeGraph.edges graph)).
Proof.
  intros a Hid Ht.
  destruct (create_indexes_side readlines graph node_id) as (H1 & H2 & _).
  fold a in H1, H2.
  unfold CodeAnalyzer.get_callers, CodeAnalyzer.get_calls.
  rewrite Hid, Ht. unfold list_at in H1, H2. split; assumption.
Qed.

Lemma callers_and_calls_are_the_call_edges_witness :
  CodeAnalyzer.get_callers
    (CodeAnalyzer.create_indexes no_sources
       (CodeAnalyzer.init
          (GraphBuilder.graph
             (GraphBuilder.build_graph (GraphBuilder.init "json")
                                       import_files))))
    "calculatePrice"
  = ["payment:pay"; "payment:pay"].
Proof.
  destruct (callers_and_calls_are_the_call_edges no_sources
              (GraphBuilder.graph
                 (GraphBuilder.build_graph (GraphBuilder.init "json")
                                           import_files))
              "calculatePrice" "checkout:calculatePrice")
    as [H _]; [vm_compute; reflexivity | reflexivity |].
  rewrite H. vm_compute. reflexivity.
Defined.

(** X14. On indexes built by [create_indexes], [get_functions_in_file] returns
    the IDs of the function nodes whose file path is the given path, in the
    order of the node map, and the empty list for any other path. *)
Theorem functions_in_file_are_the_function_nodes
  (readlines : string -> option (list string)) (graph : CodeGraph.t)
  (file_path : string) :
  CodeAnalyzer.get_functions_in_file
    (CodeAnalyzer.create_indexes readlines (CodeAnalyzer.init graph))
    file_path
  = map fst (filter (function_in_file file_path)
                    (Py.items (CodeGraph.nodes graph))).
Proof.
  destruct (create_indexes_side readlines graph file_path) as (_ & _ & H).
  exact H.
Qed.

(* ------------------------------------------------------------------ *)
(** ** Function details *)
(* ------------------------------------------------------------------ *)

Lemma get_of_In {V} (d : Py.dict V) k v :
  NoDup (map fst d) -> In (k, v) d -> Py.get d k = Some v.
Proof.
  induction d as [|[k' v'] r IH]; simpl; intros Hnd Hin; [contradiction|].
  inversion Hnd as [|? ? Hnotin Hnd']; subst.
  destruct Hin as [[= -> ->]|Hin].
  - now rewrite String.eqb_refl.
  - destruct (String.eqb k k') eqn:E; [|now apply IH].
    apply String.eqb_eq in E. subst k'. elim Hnotin.
    apply in_map_iff. exists (k, v). auto.
Qed.

Lemma export_index_complete items : forall self k,
  Py.has_key (GraphIndexes.exported_functions (CodeAnalyzer.indexes self)) k
  = true \/
  (exists node_id node,
     In (node_id, node) items /\ GraphNode.type node = FUNCTION /\
     GraphNode.is_exported node = true /\ GraphNode.name node = k) ->
  Py.has_key
    (GraphIndexes.exported_functions
       (CodeAnalyzer.indexes
          (fold_left
             (fun self (item : string * GraphNode.t) =>
                let '(node_id, node) := item in
                if (NodeType_eqb (GraphNode.type node) FUNCTION
                    && GraphNode.is_exported node)%bool then
                  let ix := CodeAnalyzer.indexes self in
                  CodeAnalyzer.with_indexes self
                    (GraphIndexes.mk
                       (GraphIndexes.function_usages ix)
                       (GraphIndexes.file_functions ix)
                       (GraphIndexes.function_calls ix)
                       (GraphIndexes.function_called_by ix)
                       (Py.set (GraphIndexes.exported_functions ix)
                               (GraphNode.name node) node_id)
                       (GraphIndexes.imported_functions ix))
                else self)
             items self))) k = true.
Proof.
  induction items as [|[node_id node] r IH]; intros self k H.
  - destruct H as [H|(i & n & [] & _)]. exact H.
  - cbn [fold_left]. apply IH.
    destruct H as [H|(i & n & [[= -> ->]|Hin] & Hty & Hx & Hn)].
    + left. destruct (_ && _)%bool; [|exact H]. simpl.
      now apply has_key_set.
    + left. rewrite Hty, Hx. simpl. rewrite Hn. apply has_key_set_same.
    + right. eauto 10.
Qed.

Lemma create_indexes_graph readlines graph :
  CodeAnalyzer.graph
    (CodeAnalyzer.create_indexes readlines (CodeAnalyzer.init graph))
  = graph.
Proof.
  unfold CodeAnalyzer.create_indexes.
  set (s0 := CodeAnalyzer.init graph).
  destruct (file_functions_index_keeps s0) as (G1 & _).
  set (s1 := CodeAnalyzer._build_file_functions_index s0) in *.
  destruct (call_indexes_keeps s1) as (G2 & _).
  set (s2 := CodeAnalyzer._build_call_indexes s1) in *.
  destruct (build_usage_index_ok readlines s2) as (G3 & _).
  { intros k l. destruct (file_functions_index_keeps s0) as (_ & U1 & _).
    destruct (call_indexes_keeps s1) as (_ & U2 & _).
    cbv zeta in *. fold s1 in U1. fold s2 in U2. rewrite U2, U1.
    discriminate. }
  set (s3 := CodeAnalyzer._build_usage_index readlines s2) in *.
  cbv zeta in *.
  transitivity (CodeAnalyzer.graph s3); [|now rewrite G3, G2, G1].
  unfold CodeAnalyzer._build_export_import_indexes.
  apply (fold_left_invariant
           (fun s => CodeAnalyzer.graph s = CodeAnalyzer.graph s3));
    [reflexivity|].
  intros a [node_id node] _ Ha. destruct (_ && _)%bool; exact Ha.
Qed.

Lemma create_indexes_exports_complete readlines graph node_id node :
  In (node_id, node) (Py.items (CodeGraph.nodes graph)) ->
  GraphNode.type node = FUNCTION ->
  GraphNode.is_exported node = true ->
  Py.has_key
    (GraphIndexes.exported_functions
       (CodeAnalyzer.indexes
          (CodeAnalyzer.create_indexes readlines (CodeAnalyzer.init graph))))
    (GraphNode.name node) = true.
Proof.
  intros Hin Hty Hx. unfold CodeAnalyzer.create_indexes.
  set (s0 := CodeAnalyzer.init graph).
  destruct (file_functions_index_keeps s0) as (G1 & U1 & _).
  set (s1 := CodeAnalyzer._build_file_functions_index s0) in *.
  destruct (call_indexes_keeps s1) as (G2 & U2 & _).
  set (s2 := CodeAnalyzer._build_call_indexes s1) in *.
  destruct (build_usage_index_ok readlines s2) as (G3 & _).
  { intros k l. cbv zeta in *. rewrite U2, U1. discriminate. }
  set (s3 := CodeAnalyzer._build_usage_index readlines s2) in *.
  cbv zeta in *.
  apply (export_index_complete
           (Py.items (CodeGraph.nodes (CodeAnalyzer.graph s3))) s3).
  right. exists node_id, node. rewrite G3, G2, G1. auto.
Qed.

(** X15. On indexes built by [create_indexes] over a node map whose keys are
    distinct and non-empty, [get_function_details] answers for a name
    exactly when the graph has an exported function node of that name, and
    the node it returns is such a node. *)
Theorem function_details_are_an_exported_function
  (readlines : string -> option (list string)) (graph : CodeGraph.t)
  (function_name : string) :
  node_ids_ok graph ->
  let a := CodeAnalyzer.create_indexes readlines (CodeAnalyzer.init graph) in
  (forall node,
     CodeAnalyzer.get_function_details a function_name = Some node ->
     exported_function graph function_name node) /\
  (CodeAnalyzer.get_function_details a function_name <> None <->
   exists node, exported_function graph function_name node).
Proof.
  intros [Hnd Hkeys] a.
  assert (Hsound : forall node,
            CodeAnalyzer.get_function_details a function_name = Some node ->
            exported_function graph function_name node).
  { intros node. unfold CodeAnalyzer.get_function_details,
      CodeAnalyzer._get_node_id_by_name.
    destruct (Py.get _ function_name) as [node_id|] eqn:E; [|discriminate].
    destruct (Py.truthy node_id); [|discriminate].
    subst a. rewrite create_indexes_graph. unfold CodeGraph.get_node.
    intros Hget.
    destruct (create_indexes_facts readlines graph) as [_ Hexp].
    destruct (Hexp _ _ E) as (n & Hin & Hty & Hx & Hname).
    rewrite (get_of_In (CodeGraph.nodes graph) _ _ Hnd Hin) in Hget.
    injection Hget as <-.
    split; [eauto | auto]. }
  split; [exact Hsound|]. split.
  - destruct (CodeAnalyzer.get_function_details a function_name)
      as [node|]; [eauto | intros H; now elim H].
  - intros (node & (node_id & Hin) & Hty & Hx & Hname).
    pose proof (create_indexes_exports_complete readlines graph _ _
                  Hin Hty Hx) as Hk.
    rewrite Hname in Hk. apply has_key_get in Hk. destruct Hk as (v & Hv).
    unfold CodeAnalyzer.get_function_details,
      CodeAnalyzer._get_node_id_by_name.
    fold a in Hv. rewrite Hv.
    destruct (create_indexes_facts readlines graph) as [_ Hexp].
    destruct (Hexp _ _ Hv) as (n & Hin' & _).
    rewrite (Hkeys _ _ Hin'). subst a. rewrite create_indexes_graph.
    unfold CodeGraph.get_node.
    rewrite (get_of_In (CodeGraph.nodes graph) _ _ Hnd Hin').
    discriminate.
Qed.

Lemma function_details_are_an_exported_function_witness :
  exists node,
    CodeAnalyzer.get_function_details shadow_analyzer "f" = Some node /\
    exported_function shadow_graph "f" node.
Proof.
  assert (Hok : node_ids_ok shadow_graph).
  { split.
    - vm_compute. repeat constructor; simpl; intuition discriminate.
    - vm_compute. intros node_id node H.
      repeat (destruct H as [H|H]; [inversion H; reflexivity|]).
      contradiction. }
  eexists. split; [vm_compute; reflexivity|].
  apply (function_details_are_an_exported_function no_sources shadow_graph
           "f" Hok).
  vm_compute. reflexivity.
Defined.

(* ------------------------------------------------------------------ *)
(** ** Source snippets *)
(* ------------------------------------------------------------------ *)

Lemma firstn_one_skipn {A} (l : list A) (k : nat) (d : A) :
  (k < Datatypes.length l)%nat ->
  firstn 1 (skipn k l) = [nth k l d].
Proof.
  revert k. induction l as [|x r IH]; intros k Hk; simpl in Hk; [lia|].
  destruct k as [|k]; [reflexivity|]. simpl. apply IH. lia.
Qed.

Lemma get_code_context_source readlines self file_path line b a :
  snd (CodeAnalyzer._get_code_context readlines self file_path line b a)
  = match source_lines readlines self file_path with
    | Some lines =>
        Py.strip
          (Py.join (Py.slice lines (Z.max 0 (line - 1 - b))
                             (Z.min (Py.len lines) (line + a))))
    | None => ""
    end.
Proof.
  unfold CodeAnalyzer._get_code_context, source_lines.
  destruct (Py.get _ _); [reflexivity|].
  destruct (readlines file_path); reflexivity.
Qed.

(** X16. With the default margins, the snippet of a line is that line, stripped
    of surrounding white space, when the file has such a line; it is the
    empty string for a line number beyond the end of the file and for a
    file that cannot be read. *)
Theorem snippet_is_the_stripped_line
  (readlines : string -> option (list string)) (self : CodeAnalyzer.t)
  (file_path : string) (line_number : Z) :
  let snippet :=
    snd (CodeAnalyzer._get_code_context readlines self file_path
                                        line_number 0 0) in
  (source_lines readlines self file_path = None -> snippet = "") /\
  (forall lines,
     source_lines readlines self file_path = Some lines ->
     (1 <= line_number <= Py.len lines ->
      snippet
      = Py.strip (nth (Z.to_nat (line_number - 1)) lines "")) /\
     (Py.len lines < line_number -> snippet = "")).
Proof.
  cbv zeta. rewrite get_code_context_source. split.
  - intros ->. reflexivity.
  - intros lines ->. unfold Py.slice, Py.slice_bound, Py.len. split.
    + intros [H1 H2].
      replace (Z.max 0 (line_number - 1 - 0)) with (line_number - 1) by lia.
      replace (Z.min (Z.of_nat (Datatypes.length lines)) (line_number + 0))
        with line_number by lia.
      destruct (line_number - 1 <? 0) eqn:E1; [lia|].
      destruct (line_number <? 0) eqn:E2; [lia|].
      replace (Z.max 0 (Z.min (Z.of_nat (Datatypes.length lines))
                              line_number)) with line_number by lia.
      replace (Z.max 0 (Z.min (Z.of_nat (Datatypes.length lines))
                              (line_number - 1)))
        with (line_number - 1) by lia.
      replace (Z.to_nat (line_number - (line_number - 1))) with 1%nat
        by lia.
      rewrite (firstn_one_skipn _ _ "") by lia.
      unfold Py.join. simpl fold_right.
      f_equal. clear. induction (nth _ lines "") as [|c s IH];
        [reflexivity | simpl; now rewrite IH].
    + intros H.
      replace (Z.max 0 (line_number - 1 - 0)) with (line_number - 1) by lia.
      replace (Z.min (Z.of_nat (Datatypes.length lines)) (line_number + 0))
        with (Z.of_nat (Datatypes.length lines)) by lia.
      destruct (line_number - 1 <? 0) eqn:E1; [lia|].
      destruct (Z.of_nat (Datatypes.length lines) <? 0) eqn:E2; [lia|].
      replace (Z.max 0 (Z.min (Z.of_nat (Datatypes.length lines))
                              (Z.of_nat (Datatypes.length lines))))
        with (Z.of_nat (Datatypes.length lines)) by lia.
      replace (Z.max 0 (Z.min (Z.of_nat (Datatypes.length lines))
                              (line_number - 1)))
        with (Z.of_nat (Datatypes.length lines)) by lia.
      rewrite Z.sub_diag. reflexivity.
Qed.

Lemma snippet_is_the_stripped_line_witness :
  snd (CodeAnalyzer._get_code_context three_lines
         (CodeAnalyzer.init CodeGraph.init) "/repo/a.py" 2 0 0)
  = "return b()".
Proof.
  destruct (snippet_is_the_stripped_line three_lines
              (CodeAnalyzer.init CodeGraph.init) "/repo/a.py" 2)
    as [_ H].
  destruct (H _ eq_refl) as [H1 _].
  rewrite H1; [reflexivity | vm_compute; split; discriminate].
Defined.

(** X17. A file is read at most once: after a call of [_get_code_context] that
    could read the file, its lines are in the cache, and every later call
    for that file answers from the cache, whatever the file holds by
    then, and leaves the analyzer as it is. A file that cannot be read is
    not cached. *)
Theorem source_file_is_read_once
  (readlines readlines' : string -> option (list string))
  (self : CodeAnalyzer.t) (file_path : string)
  (line_number lines_before lines_after : Z) :
  let self' :=
    fst (CodeAnalyzer._get_code_context readlines self file_path
           line_number lines_before lines_after) in
  Py.get (CodeAnalyzer._source_code_cache self') file_path
  = source_lines readlines self file_path /\
  (source_lines readlines self file_path <> None ->
   forall line_number' lines_before' lines_after',
     CodeAnalyzer._get_code_context readlines' self' file_path
       line_number' lines_before' lines_after'
     = (self',
        snd (CodeAnalyzer._get_code_context readlines self file_path
               line_number' lines_before' lines_after'))).
Proof.
  cbv zeta. unfold CodeAnalyzer._get_code_context, source_lines.
  destruct (Py.get (CodeAnalyzer._source_code_cache self) file_path)
    as [lines|] eqn:Hc.
  - cbn [fst snd]. rewrite Hc. split; [reflexivity|]. reflexivity.
  - destruct (readlines file_path) as [lines|] eqn:Hr.
    + cbn [fst snd CodeAnalyzer.with_cache
           CodeAnalyzer._source_code_cache].
      rewrite get_set_same. split; [reflexivity|]. reflexivity.
    + cbn [fst snd]. rewrite Hc. split; [reflexivity|].
      intros H. now elim H.
Qed.

Lemma source_file_is_read_once_witness :
  CodeAnalyzer._get_code_context no_sources
    (fst (CodeAnalyzer._get_code_context three_lines
            (CodeAnalyzer.init CodeGraph.init) "/repo/a.py" 1 0 0))
    "/repo/a.py" 3 0 0
  = (fst (CodeAnalyzer._get_code_context three_lines
            (CodeAnalyzer.init CodeGraph.init) "/repo/a.py" 1 0 0),
     "# end").
Proof.
  destruct (source_file_is_read_once three_lines no_sources
              (CodeAnalyzer.init CodeGraph.init) "/repo/a.py" 1 0 0)
    as [_ H].
  rewrite H; [reflexivity | vm_compute; discriminate].
Defined.

(* ------------------------------------------------------------------ *)
(** ** Modules of an impact report *)
(* ------------------------------------------------------------------ *)

Lemma keys_set {V} (d : Py.dict V) k v :
  map fst (Py.set d k v) = Py.set_add (map fst d) k.
Proof.
  unfold Py.set_add, Py.mem.
  induction d as [|[k' v'] r IH]; simpl; [reflexivity|].
  destruct (String.eqb k k'); simpl; [reflexivity|].
  rewrite IH. destruct (existsb _ _); reflexivity.
Qed.

Lemma keys_append_at {V} (d : Py.dict (list V)) k x :
  map fst (Py.append_at d k x) = Py.set_add (map fst d) k.
Proof.
  unfold Py.append_at. destruct (Py.get d k); apply keys_set.
Qed.

Lemma group_by_file_keys l : forall d,
  map fst (group_by_file l d)
  = fold_left Py.set_add (map UsageLocation.file_path l) (map fst d).
Proof.
  induction l as [|u l IH]; intros d; simpl; [reflexivity|].
  unfold group_by_file in *. simpl. rewrite IH, keys_append_at. reflexivity.
Qed.

Lemma group_by_file_content l f : forall d,
  list_at (group_by_file l d) f = list_at d f ++ filter (in_file f) l.
Proof.
  induction l as [|u l IH]; intros d; simpl.
  - now rewrite app_nil_r.
  - unfold group_by_file in *. simpl. rewrite IH, list_at_append_at.
    unfold in_file at 2.
    destruct (String.eqb (UsageLocation.file_path u) f);
      now rewrite <- ?app_assoc.
Qed.

Lemma group_by_file_app l1 l2 d :
  group_by_file (l1 ++ l2) d = group_by_file l2 (group_by_file l1 d).
Proof. unfold group_by_file. apply fold_left_app. Qed.

Lemma insert_by_perm {A} (key : A -> Z) x l :
  Permutation (Py.insert_by key x l) (x :: l).
Proof.
  induction l as [|y r IH]; simpl; [reflexivity|].
  destruct (key x <=? key y); [reflexivity|].
  rewrite IH. apply perm_swap.
Qed.

Lemma sorted_by_perm {A} (key : A -> Z) l :
  Permutation (Py.sorted_by key l) l.
Proof.
  induction l as [|x r IH]; simpl; [reflexivity|].
  unfold Py.sorted_by in *. simpl. rewrite insert_by_perm. now constructor.
Qed.

Lemma insert_by_sorted {A} (key : A -> Z) x l :
  StronglySorted (fun a b => key a <= key b) l ->
  StronglySorted (fun a b => key a <= key b) (Py.insert_by key x l).
Proof.
  induction l as [|y r IH]; simpl; intros Hs.
  - constructor; constructor.
  - inversion Hs as [|? ? Hr Hy]; subst.
    destruct (key x <=? key y) eqn:E.
    + apply Z.leb_le in E. constructor; [exact Hs|].
      constructor; [exact E|].
      eapply Forall_impl; [|exact Hy]. simpl. intros a Ha. lia.
    + apply Z.leb_gt in E. constructor; [now apply IH|].
      eapply Permutation_Forall;
        [symmetry; apply insert_by_perm|].
      constructor; [lia | exact Hy].
Qed.

Lemma sorted_by_sorted {A} (key : A -> Z) l :
  StronglySorted (fun a b => key a <= key b) (Py.sorted_by key l).
Proof.
  induction l as [|x r IH]; simpl; [constructor|].
  now apply insert_by_sorted.
Qed.

(** The sort is stable: the items of one key keep their order. *)
Lemma insert_by_stable {A} (key : A -> Z) (p : A -> bool) x l :
  (forall a b, p a = true -> p b = true -> key a = key b) ->
  filter p (Py.insert_by key x l) = filter p (x :: l).
Proof.
  intros Hp. induction l as [|y r IH]; [reflexivity|].
  cbn [Py.insert_by].
  destruct (key x <=? key y) eqn:E; [reflexivity|].
  cbn [filter] in *. rewrite IH.
  destruct (p x) eqn:Px, (p y) eqn:Py; try reflexivity.
  apply Z.leb_gt in E. specialize (Hp _ _ Px Py). lia.
Qed.

Lemma sorted_by_stable {A} (key : A -> Z) (p : A -> bool) l :
  (forall a b, p a = true -> p b = true -> key a = key b) ->
  filter p (Py.sorted_by key l) = filter p l.
Proof.
  intros Hp. induction l as [|x r IH]; [reflexivity|].
  unfold Py.sorted_by in *. cbn [fold_right].
  rewrite insert_by_stable by exact Hp.
  cbn [filter]. now rewrite IH.
Qed.

Lemma categorize_by_module_groups r :
  ImpactAnalyzer._categorize_by_module r
  = Py.sorted_by
      (fun m => ImpactAnalyzer.criticality_order (ModuleUsage.criticality m))
      (modules_in_file_order r).
Proof.
  unfold ImpactAnalyzer._categorize_by_module, modules_in_file_order,
    report_usages.
  do 2 f_equal. rewrite !group_by_file_app.
  destruct (UsageReport.definition r); reflexivity.
Qed.

Lemma grouped_usages_set d k l :
  grouped_usages (Py.set d k l)
  = grouped_usages d + Py.len l - Py.len (list_at d k).
Proof.
  unfold grouped_usages, list_at, Py.items, Py.len.
  induction d as [|[k' v'] r IH]; simpl; [lia|].
  destruct (String.eqb k k'); simpl; [lia|].
  rewrite IH. lia.
Qed.

Lemma grouped_usages_append_at d k x :
  grouped_usages (Py.append_at d k x) = grouped_usages d + 1.
Proof.
  unfold Py.append_at, list_at.
  destruct (Py.get d k) as [l|] eqn:E; rewrite grouped_usages_set;
    unfold list_at, Py.len; rewrite E; rewrite ?length_app; simpl; lia.
Qed.

Lemma grouped_usages_group l : forall d,
  grouped_usages (group_by_file l d) = grouped_usages d + Py.len l.
Proof.
  unfold Py.len.
  induction l as [|u l IH]; intros d; simpl Datatypes.length; [simpl; lia|].
  unfold group_by_file in *. cbn [fold_left].
  rewrite IH, grouped_usages_append_at. lia.
Qed.

Lemma sum_usages_perm ms ms' :
  Permutation ms ms' -> sum_usages ms = sum_usages ms'.
Proof.
  unfold sum_usages. induction 1; simpl; lia.
Qed.

Lemma sum_usages_in_file_order r :
  sum_usages (modules_in_file_order r) = Py.len (report_usages r).
Proof.
  unfold modules_in_file_order.
  pose proof (grouped_usages_group (report_usages r) Py.empty) as H.
  change (grouped_usages Py.empty) with 0 in H. rewrite Z.add_0_l in H.
  rewrite <- H. unfold grouped_usages, sum_usages.
  induction (Py.items (group_by_file (report_usages r) Py.empty))
    as [|[k l] d IH]; simpl; [reflexivity|].
  rewrite IH. reflexivity.
Qed.

Lemma files_of_nodup l :
  NoDup (files_of l) /\
  forall f, In f (files_of l) <-> exists u, In u l /\
                                            UsageLocation.file_path u = f.
Proof.
  unfold files_of.
  destruct (set_add_fold (map UsageLocation.file_path l) [] (NoDup_nil _))
    as [H1 H2].
  split; [exact H1|]. intros f. rewrite H2, in_map_iff. split.
  - intros [[]|(u & Hu & Hin)]. eauto.
  - intros (u & Hin & Hu). right. eauto.
Qed.

Lemma file_order_paths r :
  map ModuleUsage.file_path (modules_in_file_order r)
  = files_of (report_usages r).
Proof.
  unfold modules_in_file_order, files_of.
  rewrite map_map. simpl.
  exact (group_by_file_keys (report_usages r) Py.empty).
Qed.

Lemma file_order_module r m :
  In m (modules_in_file_order r) ->
  ModuleUsage.usages m
  = filter (in_file (ModuleUsage.file_path m)) (report_usages r) /\
  ModuleUsage.criticality m = criticality_of_file (ModuleUsage.file_path m).
Proof.
  unfold modules_in_file_order. rewrite in_map_iff.
  intros ([k l] & <- & Hin). simpl. split; [|reflexivity].
  pose proof (group_by_file_content (report_usages r) k Py.empty) as Hc.
  assert (Hnd : NoDup (map fst (group_by_file (report_usages r) Py.empty))).
  { rewrite group_by_file_keys. apply (files_of_nodup (report_usages r)). }
  unfold list_at in Hc at 1.
  rewrite (get_of_In _ _ _ Hnd Hin) in Hc. exact Hc.
Qed.

Lemma modules_partition_the_usages_facts usage_report :
  Permutation
    (map ModuleUsage.file_path
         (ImpactAnalyzer._categorize_by_module usage_report))
    (files_of (report_usages usage_report)) /\
  sum_usages (ImpactAnalyzer._categorize_by_module usage_report)
  = Py.len (report_usages usage_report).
Proof.
  rewrite categorize_by_module_groups.
  set (key := fun m => ImpactAnalyzer.criticality_order
                         (ModuleUsage.criticality m)).
  pose proof (sorted_by_perm key (modules_in_file_order usage_report)) as Hp.
  split.
  - rewrite <- file_order_paths. now apply Permutation_map.
  - rewrite (sum_usages_perm _ _ Hp). apply sum_usages_in_file_order.
Qed.

(** X18. The modules [_categorize_by_module] returns partition the usages of the
    report by file: there is one module per file with a usage, a module
    holds the usages of its file in the order of the report (definition,
    exports, imports, calls, tests), its tier is the one its path and file
    stem determine, and the usage counts of the modules add up to the
    number of usages. *)
Theorem modules_partition_the_usages (usage_report : UsageReport.t) :
  let modules := ImpactAnalyzer._categorize_by_module usage_report in
  let usages := report_usages usage_report in
  NoDup (map ModuleUsage.file_path modules) /\
  (forall f, In f (map ModuleUsage.file_path modules) <->
             exists u, In u usages /\ UsageLocation.file_path u = f) /\
  (forall m, In m modules ->
     ModuleUsage.usages m = filter (in_file (ModuleUsage.file_path m)) usages
     /\ ModuleUsage.usages m <> []
     /\ ModuleUsage.criticality m
        = criticality_of_file (ModuleUsage.file_path m)) /\
  sum_usages modules = Py.len usages.
Proof.
  cbv zeta. rewrite categorize_by_module_groups.
  set (key := fun m => ImpactAnalyzer.criticality_order
                         (ModuleUsage.criticality m)).
  pose proof (sorted_by_perm key (modules_in_file_order usage_report)) as Hp.
  pose proof (Permutation_map ModuleUsage.file_path Hp) as Hpf.
  rewrite file_order_paths in Hpf.
  destruct (files_of_nodup (report_usages usage_report)) as [Hnd Hin].
  assert (Hfiles : forall f,
            In f (map ModuleUsage.file_path
                      (Py.sorted_by key (modules_in_file_order usage_report)))
            <-> exists u, In u (report_usages usage_report) /\
                          UsageLocation.file_path u = f).
  { intros f. rewrite <- Hin. split; apply Permutation_in;
      [exact Hpf | symmetry; exact Hpf]. }
  split; [|split; [|split]].
  - eapply Permutation_NoDup; [symmetry; exact Hpf | exact Hnd].
  - exact Hfiles.
  - intros m Hm.
    destruct (file_order_module usage_report m
                (Permutation_in _ Hp Hm)) as [Hu Hc].
    split; [exact Hu|]. split; [|exact Hc].
    destruct (proj1 (Hfiles (ModuleUsage.file_path m))
                (in_map _ _ _ Hm)) as (u & Hu_in & Hu_f).
    rewrite Hu. intros Hnil.
    assert (Hin_f : In u (filter (in_file (ModuleUsage.file_path m))
                                 (report_usages usage_report))).
    { apply filter_In. split; [exact Hu_in|].
      unfold in_file. now apply String.eqb_eq. }
    rewrite Hnil in Hin_f. exact Hin_f.
  - rewrite (sum_usages_perm _ _ Hp). apply sum_usages_in_file_order.
Qed.

Lemma in_tier_same_key c a b :
  in_tier c a = true -> in_tier c b = true ->
  ImpactAnalyzer.criticality_order (ModuleUsage.criticality a)
  = ImpactAnalyzer.criticality_order (ModuleUsage.criticality b).
Proof.
  unfold in_tier.
  destruct (ModuleUsage.criticality a), (ModuleUsage.criticality b), c;
    simpl; congruence.
Qed.

(** X19. The modules [_categorize_by_module] returns are in the order Critical
    path, Secondary, Tertiary, Non-critical, and the sort does not reorder
    a tier: the modules of one tier are in the order in which their files
    first occur among the usages of the report. *)
Theorem modules_are_sorted_by_criticality (usage_report : UsageReport.t) :
  let modules := ImpactAnalyzer._categorize_by_module usage_report in
  StronglySorted by_criticality modules /\
  forall c,
    map ModuleUsage.file_path (filter (in_tier c) modules)
    = filter (fun f => CriticalityLevel_eqb (criticality_of_file f) c)
             (files_of (report_usages usage_report)).
Proof.
  cbv zeta. rewrite categorize_by_module_groups. split.
  - apply (sorted_by_sorted
             (fun m => ImpactAnalyzer.criticality_order
                         (ModuleUsage.criticality m))).
  - intros c. rewrite sorted_by_stable by apply in_tier_same_key.
    rewrite <- file_order_paths. unfold modules_in_file_order.
    induction (Py.items (group_by_file (report_usages usage_report)
                                       Py.empty))
      as [|[k l] d IH]; [reflexivity|].
    cbn [map filter]. unfold in_tier at 1.
    change (ModuleUsage.criticality
              (ImpactAnalyzer._create_module_usage (fst (k, l)) (snd (k, l))))
      with (criticality_of_file k).
    change (ModuleUsage.file_path
              (ImpactAnalyzer._create_module_usage (fst (k, l)) (snd (k, l))))
      with k.
    destruct (CriticalityLevel_eqb (criticality_of_file k) c);
      cbn [map]; now rewrite IH.
Qed.

(* ------------------------------------------------------------------ *)
(** ** Impact reports over built indexes *)
(* ------------------------------------------------------------------ *)

Lemma built_usage_list readlines graph key usages :
  Py.get (GraphIndexes.function_usages
            (CodeAnalyzer.indexes
               (CodeAnalyzer.create_indexes readlines
                  (CodeAnalyzer.init graph)))) key = Some usages ->
  exists d rest,
    usages = d :: rest /\ UsageLocation.usage_type d = DEFINITION /\
    Forall (fun u => UsageLocation.usage_type u <> DEFINITION) rest.
Proof.
  intros Hget.
  destruct (create_indexes_content readlines graph) as [[_ Hcontent] _].
  destruct (Hcontent _ _ Hget) as (node_id & node & _ & Hus).
  destruct usages as [|d rest]; [discriminate Hus|].
  exists d, rest. split; [reflexivity|].
  unfold node_usages in Hus. cbn [map] in Hus.
  assert (Hd : erase_context d = definition_usage node) by congruence.
  assert (Hr : map erase_context rest
               = export_usages graph node_id
                 ++ import_usages graph node_id node
                 ++ call_usages graph node_id) by congruence.
  split.
  - rewrite <- erase_context_type, Hd. reflexivity.
  - assert (H : Forall (fun u => UsageLocation.usage_type u <> DEFINITION)
                       (map erase_context rest)).
    { rewrite Hr. rewrite !Forall_app. split; [|split].
      - eapply Forall_type_neq; [|apply export_usages_type]. discriminate.
      - eapply Forall_type_neq; [|apply import_usages_type]. discriminate.
      - eapply Forall_call_neq; [| |apply call_usages_type]; discriminate. }
    rewrite Forall_map in H. exact H.
Qed.

Lemma split_by_type l :
  Forall (fun u => UsageLocation.usage_type u <> DEFINITION) l ->
  Permutation
    (filter (UsageType_is EXPORT) l ++ filter (UsageType_is IMPORT) l
     ++ filter (UsageType_is CALL) l ++ filter (UsageType_is TEST) l) l.
Proof.
  induction 1 as [|u l Hu _ IH]; [reflexivity|].
  cbn [filter].
  set (E := filter (UsageType_is EXPORT) l) in *.
  set (I := filter (UsageType_is IMPORT) l) in *.
  set (C := filter (UsageType_is CALL) l) in *.
  set (T := filter (UsageType_is TEST) l) in *.
  unfold UsageType_is.
  destruct (UsageLocation.usage_type u); try congruence; simpl.
  - now constructor.
  - symmetry. apply Permutation_cons_app. now symmetry.
  - symmetry. rewrite (app_assoc E I). apply Permutation_cons_app.
    rewrite <- app_assoc. now symmetry.
  - symmetry. rewrite (app_assoc I C), (app_assoc E (I ++ C)).
    apply Permutation_cons_app. rewrite <- !app_assoc. now symmetry.
Qed.

Lemma built_report_usages readlines graph key report :
  CodeAnalyzer.find_all_usages
    (CodeAnalyzer.create_indexes readlines (CodeAnalyzer.init graph)) key
  = Some report ->
  exists usages,
    Permutation (report_usages report) usages /\
    UsageReport.total_usages report = Py.len usages /\
    UsageReport.files_affected report = files_of usages.
Proof.
  intros H. apply find_all_usages_lists in H.
  destruct H as (us & Hget & _ & _ & Ht & Hd & He & Hi & Hc & Hts & Hf).
  exists us. split; [|split; [exact Ht | exact Hf]].
  destruct (built_usage_list _ _ _ _ Hget) as (d & rest & -> & Hty & Hrest).
  unfold report_usages. rewrite Hd, He, Hi, Hc, Hts.
  assert (Hl : last_definition (d :: rest) None = Some d).
  { unfold last_definition. cbn [fold_left]. rewrite Hty.
    exact (last_definition_keeps _ _ Hrest). }
  rewrite Hl. cbn [filter].
  replace (UsageType_is EXPORT d) with false
    by (unfold UsageType_is; now rewrite Hty).
  replace (UsageType_is IMPORT d) with false
    by (unfold UsageType_is; now rewrite Hty).
  replace (UsageType_is CALL d) with false
    by (unfold UsageType_is; now rewrite Hty).
  replace (UsageType_is TEST d) with false
    by (unfold UsageType_is; now rewrite Hty).
  simpl. constructor. now apply split_by_type.
Qed.

Lemma files_of_perm l l' :
  Permutation l l' -> Py.len (files_of l) = Py.len (files_of l').
Proof.
  intros Hp. unfold Py.len. f_equal. apply Permutation_length.
  destruct (files_of_nodup l) as [N1 I1].
  destruct (files_of_nodup l') as [N2 I2].
  apply NoDup_Permutation; [exact N1 | exact N2|].
  intros f. rewrite I1, I2. split; intros (u & Hu & Hf); exists u;
    (split; [|exact Hf]).
  - now apply (Permutation_in _ Hp).
  - now apply (Permutation_in _ (Permutation_sym Hp)).
Qed.

Lemma sum_usages_tiers ms :
  sum_usages ms
  = tier_usages CRITICAL_PATH ms + tier_usages SECONDARY ms
    + tier_usages TERTIARY ms + tier_usages NON_CRITICAL ms.
Proof.
  induction ms as [|m r IH]; [reflexivity|].
  unfold sum_usages in *. cbn [fold_right tier_usages]. rewrite IH.
  destruct (ModuleUsage.criticality m); simpl; lia.
Qed.

(** X20. On indexes built by [create_indexes], the totals of an impact report
    agree: the usage counts of its modules add up to [total_usages], it has
    one module per affected file, and its score lies between the number of
    usages and ten times that number. *)
Theorem impact_totals_agree
  (readlines : string -> option (list string)) (graph : CodeGraph.t)
  (function_name change_description : string) (report : ImpactReport.t) :
  ImpactAnalyzer.assess_change_impact
    (ImpactAnalyzer.mk
       (CodeAnalyzer.create_indexes readlines (CodeAnalyzer.init graph)))
    function_name change_description = Some report ->
  sum_usages (ImpactReport.modules report) = ImpactReport.total_usages report
  /\ Py.len (ImpactReport.modules report) = ImpactReport.total_files report
  /\ ImpactReport.total_usages report
     <= RiskScore.total_score (ImpactReport.risk_score report)
     <= 10 * ImpactReport.total_usages report.
Proof.
  unfold ImpactAnalyzer.assess_change_impact. simpl ImpactAnalyzer.analyzer.
  destruct (CodeAnalyzer.find_all_usages _ _) as [u|] eqn:E; [|discriminate].
  intros [= <-].
  match goal with
  | |- context [ImpactAnalyzer._assess_business_impact ?r ?m ?k] =>
      destruct (assess_business_impact_keeps r m k) as [Hm Hs];
      assert (Htu : ImpactReport.total_usages
                      (ImpactAnalyzer._assess_business_impact r m k)
                    = UsageReport.total_usages u)
        by (unfold ImpactAnalyzer._assess_business_impact;
            destruct (filter _ _); [destruct (RiskScore.risk_level _)|];
            reflexivity);
      assert (Htf : ImpactReport.total_files
                      (ImpactAnalyzer._assess_business_impact r m k)
                    = Py.len (UsageReport.files_affected u))
        by (unfold ImpactAnalyzer._assess_business_impact;
            destruct (filter _ _); [destruct (RiskScore.risk_level _)|];
            reflexivity)
  end.
  cbv zeta in Hm, Hs. rewrite Hm, Hs, Htu, Htf.
  simpl ImpactReport.modules. simpl ImpactReport.risk_score.
  destruct (built_report_usages _ _ _ _ E) as (us & Hp & Ht & Hf).
  destruct (modules_partition_the_usages_facts u) as (Hfiles & Hsum).
  assert (Hs1 : sum_usages (ImpactAnalyzer._categorize_by_module u)
                = UsageReport.total_usages u).
  { rewrite Hsum, Ht. unfold Py.len. f_equal.
    now apply Permutation_length. }
  split; [exact Hs1|]. split.
  - rewrite Hf, <- (files_of_perm _ _ Hp).
    unfold Py.len in *. f_equal.
    rewrite <- (length_map ModuleUsage.file_path).
    now apply Permutation_length.
  - destruct (calculate_risk_score_spec
                (ImpactAnalyzer._categorize_by_module u))
      as (H1 & H2 & H3 & H4 & H5 & _).
    cbv zeta in *. rewrite H5, H1, H2, H3, H4, <- Hs1, sum_usages_tiers.
    set (ms := ImpactAnalyzer._categorize_by_module u).
    pose proof (tier_usages_nonneg CRITICAL_PATH ms).
    pose proof (tier_usages_nonneg SECONDARY ms).
    pose proof (tier_usages_nonneg TERTIARY ms).
    pose proof (tier_usages_nonneg NON_CRITICAL ms). lia.
Qed.

Lemma impact_totals_agree_witness :
  exists report,
    ImpactAnalyzer.assess_change_impact
      (ImpactAnalyzer.mk busy_analyzer) "f" "Rename" = Some report /\
    ImpactReport.total_usages report = 21 /\
    sum_usages (ImpactReport.modules report) = 21.
Proof.
  eexists. split; [vm_compute; reflexivity|].
  split; [reflexivity|].
  match goal with
  | |- sum_usages (ImpactReport.modules ?r) = _ =>
      destruct (impact_totals_agree no_sources
                  (GraphBuilder.graph
                     (GraphBuilder.build_graph (GraphBuilder.init "json")
                                               busy_files))
                  "f" "Rename" r) as [H _];
        [vm_compute; reflexivity | rewrite H; reflexivity]
  end.
Defined.

(** X21. The four sentences on business impact of a report follow the modules
    first and the score second: with a Critical-path module they are the
    highest tier whatever the score; without one they follow the score, up
    to 20, up to 50 and up to 100, and a score above 100 reads as the
    lowest tier again. *)
Theorem business_impact_follows_critical_modules
  (self : ImpactAnalyzer.t) (function_name change_description : string)
  (report : ImpactReport.t) :
  ImpactAnalyzer.assess_change_impact self function_name change_description
  = Some report ->
  let score := RiskScore.total_score (ImpactReport.risk_score report) in
  ((exists m, In m (ImpactReport.modules report) /\
              ModuleUsage.criticality m = CRITICAL_PATH) ->
   business_impact report
   = ("$50K/hour", "$500K/hour", "ALL users (100% of transactions)",
      "3-6 hours")) /\
  ((forall m, In m (ImpactReport.modules report) ->
              ModuleUsage.criticality m <> CRITICAL_PATH) ->
   business_impact report
   = if score <=? 20 then
       ("$0/hour", "$5K/hour", "Few users or developers only", "0.5-1 hour")
     else if score <=? 50 then
       ("$1K/hour", "$20K/hour", "Some users (10-30% of transactions)",
        "0.5-2 hours")
     else if score <=? 100 then
       ("$10K/hour", "$100K/hour", "Many users (30-70% of transactions)",
        "1-3 hours")
     else
       ("$0/hour", "$5K/hour", "Few users or developers only",
        "0.5-1 hour")).
Proof.
  unfold ImpactAnalyzer.assess_change_impact.
  destruct (CodeAnalyzer.find_all_usages _ _) as [u|]; [|discriminate].
  intros [= <-].
  set (ms := ImpactAnalyzer._categorize_by_module u).
  match goal with
  | |- context [ImpactAnalyzer._assess_business_impact ?r ?m ?k] =>
      destruct (assess_business_impact_keeps r m k) as [Hm Hs]
  end.
  cbv zeta in *. rewrite Hm, Hs. simpl ImpactReport.modules.
  simpl ImpactReport.risk_score.
  destruct (calculate_risk_score_spec ms) as (_ & _ & _ & _ & _ & Hl).
  cbv zeta in Hl. unfold level_of_score in Hl.
  unfold ImpactAnalyzer._assess_business_impact, business_impact.
  destruct (filter ImpactAnalyzer._is_critical ms) as [|m0 r0] eqn:Hf.
  - split.
    + intros (m & Hin & Hc). exfalso.
      assert (Hin' : In m (filter ImpactAnalyzer._is_critical ms)).
      { apply filter_In. split; [exact Hin|].
        unfold ImpactAnalyzer._is_critical. now rewrite Hc. }
      rewrite Hf in Hin'. exact Hin'.
    + intros _. rewrite Hl.
      destruct (_ <=? 20); [reflexivity|].
      destruct (_ <=? 50); [reflexivity|].
      destruct (_ <=? 100); reflexivity.
  - split; [reflexivity|].
    intros Hnone. exfalso.
    assert (Hin : In m0 (filter ImpactAnalyzer._is_critical ms))
      by (rewrite Hf; now left).
    apply filter_In in Hin. destruct Hin as [Hin Hc].
    apply (Hnone _ Hin). unfold ImpactAnalyzer._is_critical in Hc.
    destruct (ModuleUsage.criticality m0); try discriminate. reflexivity.
Qed.

Lemma business_impact_follows_critical_modules_witness :
  exists report,
    ImpactAnalyzer.assess_change_impact
      (ImpactAnalyzer.mk busy_analyzer) "f" "Rename" = Some report /\
    RiskScore.total_score (ImpactReport.risk_score report) = 105 /\
    RiskScore.risk_level (ImpactReport.risk_score report) = CRITICAL /\
    business_impact report
    = ("$0/hour", "$5K/hour", "Few users or developers only", "0.5-1 hour").
Proof.
  eexists. split; [vm_compute; reflexivity|].
  split; [reflexivity|]. split; [reflexivity|].
  match goal with
  | |- business_impact ?r = _ =>
      destruct (business_impact_follows_critical_modules
                  (ImpactAnalyzer.mk busy_analyzer) "f" "Rename" r)
        as [_ H]; [vm_compute; reflexivity|]
  end.
  rewrite H; [reflexivity|].
  intros m [<-|[]]. discriminate.
Defined.

(* ------------------------------------------------------------------ *)
(** ** Tiers and counters of a module *)
(* ------------------------------------------------------------------ *)

(** X22. The tier of a file is the most critical tier of which a pattern occurs
    in its lower-cased path or stem, and Secondary when no pattern occurs:
    the table lists its patterns tier by tier, most critical first, so a
    file is Non-critical only if no pattern of another tier occurs. *)
Theorem most_critical_pattern_decides (file_path file_name : string) :
  ImpactAnalyzer._determine_criticality file_path file_name
  = if matches_tier file_path file_name CRITICAL_PATH then CRITICAL_PATH
    else if matches_tier file_path file_name SECONDARY then SECONDARY
    else if matches_tier file_path file_name TERTIARY then TERTIARY
    else if matches_tier file_path file_name NON_CRITICAL then NON_CRITICAL
    else SECONDARY.
Proof.
  unfold ImpactAnalyzer._determine_criticality, matches_tier,
    ImpactAnalyzer.MODULE_PATTERNS, Py.items.
  cbn [find existsb fst snd CriticalityLevel_eqb andb].
  repeat match goal with
  | |- context [(Py.contains ?p (Py.lower file_path)
                 || Py.contains ?p (Py.lower file_name))%bool] =>
      destruct (Py.contains p (Py.lower file_path)
                || Py.contains p (Py.lower file_name))%bool;
      cbn [orb andb]; try reflexivity
  end.
Qed.

(** X23. The four counters of a module count its usages by kind and leave the
    tests out: together with the number of Test usages they add up to the
    usage count of the module. *)
Theorem module_counters_leave_tests_out
  (file_path : string) (usages : list UsageLocation.t) :
  let m := ImpactAnalyzer._create_module_usage file_path usages in
  ModuleUsage.definition_count m + ModuleUsage.export_count m
  + ModuleUsage.import_count m + ModuleUsage.call_count m
  + ImpactAnalyzer._count_type TEST usages
  = ModuleUsage.total_usages m.
Proof.
  cbv zeta. unfold ModuleUsage.total_usages.
  cbn [ImpactAnalyzer._create_module_usage ModuleUsage.definition_count
       ModuleUsage.export_count ModuleUsage.import_count
       ModuleUsage.call_count ModuleUsage.usages].
  unfold ImpactAnalyzer._count_type, Py.len.
  induction usages as [|u r IH]; [reflexivity|].
  cbn [filter Datatypes.length].
  destruct (UsageLocation.usage_type u); cbn [UsageType_eqb Datatypes.length];
    lia.
Qed.

(* ------------------------------------------------------------------ *)
(** ** The orchestrator after a build *)
(* ------------------------------------------------------------------ *)

Lemma total_functions_after_build storage_type files :
  CodeGraph.total_functions
    (GraphBuilder.graph
       (GraphBuilder.build_graph (GraphBuilder.init storage_type) files))
  = Py.len (all_functions files).
Proof.
  rewrite build_graph_phases.
  destruct (after_phase5_ok storage_type files) as [_ E25].
  cbv zeta in E25.
  destruct (reverse_relationships_extends
              (after_phase5 (GraphBuilder.init storage_type) files))
    as [E56 _].
  pose proof (extends_trans _ _ _ E25 E56) as (_ & _ & Htot).
  rewrite Htot. unfold after_phase2. rewrite create_function_nodes_flat.
  destruct (file_nodes_phase files _ (init_builder_ok storage_type))
    as (_ & _ & _ & _ & _ & Ht1).
  cbv zeta in Ht1. rewrite function_nodes_count, Ht1. reflexivity.
Qed.

Lemma total_files_after_build storage_type files :
  CodeGraph.total_files
    (GraphBuilder.graph
       (GraphBuilder.build_graph (GraphBuilder.init storage_type) files))
  = Py.len files.
Proof.
  rewrite build_graph_phases. unfold after_phase5, after_phase2.
  destruct (file_nodes_counted files (GraphBuilder.init storage_type))
    as [C1 F1]; [split; reflexivity|].
  set (b1 := fold_left GraphBuilder._create_file_node files _) in *.
  destruct (fold_left_counted GraphBuilder._create_function_nodes files)
    with (b := b1) as [C2 F2]; [|exact C1|].
  { intros b pf. unfold GraphBuilder._create_function_nodes.
    apply fold_left_counted. intros b' d.
    apply create_function_nodes_step_counted. }
  set (b2 := fold_left GraphBuilder._create_function_nodes files b1) in *.
  destruct (fold_left_counted GraphBuilder._create_call_edges files)
    with (b := b2) as [C3 F3]; [|exact C2|].
  { intros b pf. unfold GraphBuilder._create_call_edges.
    apply fold_left_counted. intros b' c.
    apply create_call_edges_step_counted. }
  set (b3 := fold_left GraphBuilder._create_call_edges files b2) in *.
  destruct (fold_left_counted GraphBuilder._create_import_edges files)
    with (b := b3) as [C4 F4]; [|exact C3|].
  { intros b pf. unfold GraphBuilder._create_import_edges.
    apply fold_left_counted. intros b' imp.
    apply fold_left_counted. intros b'' name.
    apply create_import_edges_step_counted. }
  set (b4 := fold_left GraphBuilder._create_import_edges files b3) in *.
  destruct (fold_left_counted GraphBuilder._create_export_edges files)
    with (b := b4) as [C5 F5]; [|exact C4|].
  { intros b pf. unfold GraphBuilder._create_export_edges.
    apply fold_left_counted. intros b' exp.
    apply fold_left_counted. intros b'' name.
    apply create_export_edges_step_counted. }
  unfold GraphBuilder._build_reverse_relationships. simpl.
  rewrite F5, F4, F3, F2, F1. reflexivity.
Qed.

Lemma sum_function_counts files : forall z,
  fold_left Z.add
    (map (fun pf => Py.len (ParsedFile.functions pf)) files) z
  = z + Py.len (all_functions files).
Proof.
  unfold Py.len, all_functions.
  induction files as [|pf r IH]; intros z; simpl; [lia|].
  rewrite IH, length_app. lia.
Qed.

(** X24. After a build that returns, the orchestrator holds the returned graph
    and its statistics agree with the counters of the graph: the numbers of
    files discovered and parsed are the file counter, the number of
    functions found is the function counter, and the number of edges
    created is the length of the edge list. *)
Theorem build_statistics_agree_with_graph
  (discover_and_parse : string -> Py.result (list ParsedFile.t))
  (readlines : string -> option (list string))
  (save_to_json : string -> CodeGraph.t -> option Py.exn)
  (self self' : SemanticGraphOrchestrator.t) (storage_path : option string)
  (g : CodeGraph.t) :
  SemanticGraphOrchestrator.build_graph discover_and_parse readlines
    save_to_json self storage_path = (self', Py.Return g) ->
  SemanticGraphOrchestrator.graph self' = Some g /\
  SemanticGraphOrchestrator.analyzer self'
  = Some (CodeAnalyzer.create_indexes readlines (CodeAnalyzer.init g)) /\
  let stats := SemanticGraphOrchestrator.stats self' in
  Stats.files_discovered stats = CodeGraph.total_files g /\
  Stats.files_parsed stats = CodeGraph.total_files g /\
  Stats.functions_found stats = CodeGraph.total_functions g /\
  Stats.edges_created stats = Py.len (CodeGraph.edges g).
Proof.
  intros H. apply build_graph_returns in H.
  destruct H as (files & -> & ->).
  cbn [indexed_state SemanticGraphOrchestrator.graph
       SemanticGraphOrchestrator.analyzer
       SemanticGraphOrchestrator.stats Stats.files_discovered
       Stats.files_parsed Stats.functions_found Stats.edges_created].
  unfold built_graph.
  rewrite total_files_after_build, total_functions_after_build,
    sum_function_counts.
  repeat split.
Qed.

Lemma build_statistics_agree_with_graph_witness :
  exists self' g,
    SemanticGraphOrchestrator.build_graph import_repository no_sources
      writable (SemanticGraphOrchestrator.init "/repo")
      (Some "/mnt/graph.json") = (self', Py.Return g) /\
    Stats.functions_found (SemanticGraphOrchestrator.stats self')
    = CodeGraph.total_functions g /\
    CodeGraph.total_functions g = 2.
Proof.
  eexists. eexists. split; [vm_compute; reflexivity|].
  split; [|reflexivity].
  match goal with
  | |- Stats.functions_found (SemanticGraphOrchestrator.stats ?s)
       = CodeGraph.total_functions ?g =>
      destruct (build_statistics_agree_with_graph import_repository
                  no_sources writable
                  (SemanticGraphOrchestrator.init "/repo") s
                  (Some "/mnt/graph.json") g)
        as (_ & _ & _ & _ & H & _); [vm_compute; reflexivity | exact H]
  end.
Defined.

(** X25. After a build that returns, [get_complete_analysis] never raises: it
    returns the error dict [Function not found: <name>] exactly when the
    name is neither the ID nor the name of a function node of the graph,
    and otherwise the combined report, in which the usage report is the one
    of [find_all_usages], the statistics are those of the build, and the
    impact assessment is present. *)
Theorem complete_analysis_after_build
  (discover_and_parse : string -> Py.result (list ParsedFile.t))
  (readlines : string -> option (list string))
  (save_to_json : string -> CodeGraph.t -> option Py.exn) (v : Py.cpython)
  (self self' : SemanticGraphOrchestrator.t) (storage_path : option string)
  (g : CodeGraph.t) (function_name change_description : string) :
  SemanticGraphOrchestrator.build_graph discover_and_parse readlines
    save_to_json self storage_path = (self', Py.Return g) ->
  exists c,
    SemanticGraphOrchestrator.get_complete_analysis v self' function_name
      change_description = Py.Return c /\
    (c = AnalysisError ("Function not found: " ++ function_name) <->
     ~ exists node_id node, key_of_function g function_name node_id node) /\
    (forall usage_report,
       CodeAnalyzer.find_all_usages
         (CodeAnalyzer.create_indexes readlines (CodeAnalyzer.init g))
         function_name = Some usage_report ->
       complete_for function_name change_description
         (SemanticGraphOrchestrator.stats self') usage_report c).
Proof.
  intros H. apply build_graph_returns in H.
  destruct H as (files & -> & ->).
  set (g0 := built_graph files). unfold indexed_state. fold g0.
  set (a := CodeAnalyzer.create_indexes readlines (CodeAnalyzer.init g0))
    in *.
  destruct (create_indexes_content readlines g0) as [[_ Hcontent] Hkeys].
  cbv zeta in Hcontent, Hkeys. fold a in Hcontent, Hkeys.
  unfold SemanticGraphOrchestrator.get_complete_analysis,
    SemanticGraphOrchestrator.find_usages,
    SemanticGraphOrchestrator.assess_change_impact,
    SemanticGraphOrchestrator.calculate_risk.
  cbn [SemanticGraphOrchestrator.analyzer
         SemanticGraphOrchestrator.impact_analyzer
         SemanticGraphOrchestrator.risk_calculator
         SemanticGraphOrchestrator.stats].
  unfold ImpactAnalyzer.assess_change_impact.
  cbn [ImpactAnalyzer.analyzer].
  destruct (CodeAnalyzer.find_all_usages a function_name) as [ur|] eqn:E.
  - eexists. split; [reflexivity|]. split.
    + split; [discriminate|]. intros Hno. exfalso. apply Hno.
      apply find_all_usages_lists in E. destruct E as (us & Hget & _).
      destruct (Hcontent _ _ Hget) as (node_id & node & Hk & _). eauto.
    + intros u [= <-]. eexists. eexists. reflexivity.
  - eexists. split; [reflexivity|]. split.
    + split; [|reflexivity]. intros _ (node_id & node & Hk).
      specialize (Hkeys _ _ _ Hk). apply has_key_get in Hkeys.
      destruct Hkeys as (l & Hl).
      destruct (Hcontent _ _ Hl) as (i & n & _ & Hus).
      unfold CodeAnalyzer.find_all_usages in E. rewrite Hl in E.
      destruct l as [|u l]; [discriminate Hus | discriminate E].
    + discriminate.
Qed.

Lemma complete_analysis_after_build_witness :
  exists self' g c,
    SemanticGraphOrchestrator.build_graph import_repository no_sources
      writable (SemanticGraphOrchestrator.init "/repo") None
    = (self', Py.Return g) /\
    SemanticGraphOrchestrator.get_complete_analysis Py.From312 self'
      "missing" "Refactor" = Py.Return c /\
    c = AnalysisError "Function not found: missing".
Proof.
  eexists. eexists.
  match goal with
  | |- exists c, ?B = (?s, Py.Return ?g) /\ _ =>
      destruct (complete_analysis_after_build import_repository no_sources
                  writable Py.From312
                  (SemanticGraphOrchestrator.init "/repo")
                  s None g "missing" "Refactor")
        as (c & Hc & Herr & _); [vm_compute; reflexivity|]
  end.
  exists c. split; [vm_compute; reflexivity|]. split; [exact Hc|].
  apply Herr. intros (node_id & node & Hin & _ & Hk).
  vm_compute in Hin.
  repeat (destruct Hin as [Hin|Hin];
          [inversion Hin; subst; clear Hin;
           destruct Hk as [Hk|Hk]; discriminate Hk|]).
  contradiction.
Defined.

(* ------------------------------------------------------------------ *)
(** ** File discovery *)
(* ------------------------------------------------------------------ *)

Lemma create_file_info_some self parts content file_info :
  FileDiscovery._create_file_info self parts content = Some file_info <->
  exists size lines file_type,
    content = Some (size, lines) /\
    Py.get FileDiscovery.FILE_EXTENSIONS
           (Py.name_suffix (List.last parts "")) = Some file_type /\
    file_info
    = FileInfo.mk
        (fold_left Py.path_join parts (FileDiscovery.root_path self))
        (Py.join_with "/" parts) file_type size lines.
Proof.
  unfold FileDiscovery._create_file_info. split.
  - destruct content as [[size lines]|]; [|discriminate].
    destruct (Py.get _ _) as [ty|]; [|discriminate].
    intros [= <-]. eauto 10.
  - intros (size & lines & ty & -> & -> & ->). reflexivity.
Qed.

Lemma walk_finds self tree : forall parts file_info,
  In file_info (FileDiscovery._walk self parts tree) <->
  exists dirs name content,
    file_at tree dirs name content /\
    Forall (fun d => FileDiscovery._should_ignore_dir d = false) dirs /\
    FileDiscovery._is_code_file name = true /\
    FileDiscovery._create_file_info self (parts ++ dirs ++ [name]) content
    = Some file_info.
Proof.
  induction tree as [files dirs IH] using Directory_tree_ind.
  intros parts fi. cbn [FileDiscovery._walk].
  rewrite in_app_iff, !in_flat_map. split.
  - intros [((name & content) & Hin & Hfi)|((dirname & sub) & Hin & Hfi)].
    + cbn [fst snd] in Hfi.
      destruct (FileDiscovery._is_code_file name) eqn:Hc; [|destruct Hfi].
      destruct (FileDiscovery._create_file_info _ _ _) as [fi'|] eqn:Hi;
        [|destruct Hfi].
      destruct Hfi as [<-|[]].
      exists [], name, content. repeat split; auto. now constructor.
    + destruct (FileDiscovery._should_ignore_dir dirname) eqn:Hig;
        [destruct Hfi|].
      rewrite Forall_forall in IH. specialize (IH _ Hin). cbn [snd] in IH.
      apply IH in Hfi.
      destruct Hfi as (ds & name & content & Hat & Hds & Hc & Hi).
      exists (dirname :: ds), name, content. repeat split; auto.
      * econstructor; eauto.
      * rewrite <- app_assoc in Hi. exact Hi.
  - intros (ds & name & content & Hat & Hds & Hc & Hi).
    inversion Hat as [fs ds' n c Hin|fs ds' dirname sub rest n c Hin Hsub];
      subst.
    + left. exists (name, content). split; [exact Hin|].
      cbn [fst snd]. rewrite Hc. cbn [app] in Hi. rewrite Hi. now left.
    + right. exists (dirname, sub). split; [exact Hin|].
      inversion Hds as [|? ? Hd Hrest]; subst. rewrite Hd.
      rewrite Forall_forall in IH. specialize (IH _ Hin). cbn [snd] in IH.
      apply IH. exists rest, name, content. repeat split; auto.
      rewrite <- app_assoc. exact Hi.
Qed.

(** X26. [discover_files] returns exactly the files that can be read, whose
    suffix is one of the five extensions of the table, and that are reached
    from the root through directories none of which is pruned: a file
    below a directory that is named in [IGNORED_DIRS] or starts with a dot
    is not returned, however deep. The name of the root itself is not
    looked at. The record holds the type of the suffix, the path below the
    root, and the size and line count read. *)
Theorem discovered_files_characterised
  (self : FileDiscovery.t) (tree : Directory) (file_info : FileInfo.t) :
  In file_info (FileDiscovery.discover_files self tree) <->
  exists dirs name size lines file_type,
    file_at tree dirs name (Some (size, lines)) /\
    Forall (fun d => Py.mem d FileDiscovery.IGNORED_DIRS = false /\
                     Py.startswith d "." = false) dirs /\
    Py.get FileDiscovery.FILE_EXTENSIONS (Py.name_suffix name)
    = Some file_type /\
    file_info
    = FileInfo.mk
        (fold_left Py.path_join (dirs ++ [name])
                   (FileDiscovery.root_path self))
        (Py.join_with "/" (dirs ++ [name])) file_type size lines.
Proof.
  unfold FileDiscovery.discover_files. rewrite walk_finds.
  assert (Hig : forall dirs,
            Forall (fun d => FileDiscovery._should_ignore_dir d = false) dirs
            <-> Forall (fun d => Py.mem d FileDiscovery.IGNORED_DIRS = false
                                 /\ Py.startswith d "." = false) dirs).
  { intros dirs. rewrite !Forall_forall. split; intros H d Hd;
      specialize (H d Hd); unfold FileDiscovery._should_ignore_dir in *.
    - now apply orb_false_iff in H.
    - now apply orb_false_iff. }
  split.
  - intros (dirs & name & content & Hat & Hds & Hc & Hi).
    cbn [app] in Hi. apply create_file_info_some in Hi.
    destruct Hi as (size & lines & ty & -> & Hty & ->).
    rewrite last_last in Hty.
    exists dirs, name, size, lines, ty. rewrite <- Hig. auto.
  - intros (dirs & name & size & lines & ty & Hat & Hds & Hty & ->).
    exists dirs, name, (Some (size, lines)). rewrite Hig.
    split; [exact Hat|]. split; [exact Hds|]. split.
    + unfold FileDiscovery._is_code_file, Py.has_key. now rewrite Hty.
    + cbn [app]. apply create_file_info_some.
      exists size, lines, ty. rewrite last_last. auto.
Qed.

(** The model at work on the sample repository: the unreadable file, the
    file without a code suffix and the files below [node_modules] and
    [.cache] are left out. *)
Lemma discover_files_sample :
  FileDiscovery.discover_files (FileDiscovery.mk "/repo") sample_tree
  = [ FileInfo.mk "/repo/app.py" "app.py" PYTHON 120 8;
      FileInfo.mk "/repo/src/cart.ts" "src/cart.ts" TYPESCRIPT 300 20 ].
Proof. vm_compute. reflexivity. Qed.

Lemma FileType_value_inj a b :
  FileType_value a = FileType_value b -> a = b.
Proof. destruct a, b; simpl; congruence. Qed.

Lemma FileType_value_eqb a b :
  String.eqb (FileType_value a) (FileType_value b) = FileType_eqb a b.
Proof. destruct a, b; reflexivity. Qed.

Lemma by_type_counts files : forall d,
  let d' :=
    fold_left
      (fun by_type file_info =>
         let file_type := FileType_value (FileInfo.file_type file_info) in
         let by_type :=
           if Py.has_key by_type file_type then by_type
           else Py.set by_type file_type 0 in
         match Py.get by_type file_type with
         | Some n => Py.set by_type file_type (n + 1)
         | None => by_type
         end)
      files d in
  forall file_type,
    Py.get d' (FileType_value file_type)
    = match Py.get d (FileType_value file_type) with
      | Some n => Some (n + files_of_type file_type files)
      | None =>
          if files_of_type file_type files =? 0 then None
          else Some (files_of_type file_type files)
      end.
Proof.
  induction files as [|f r IH]; intros d; cbv zeta; intros ty.
  - cbn [fold_left]. unfold files_of_type, Py.len. simpl.
    destruct (Py.get d _); [f_equal; lia | reflexivity].
  - cbn [fold_left]. cbv zeta in IH. rewrite IH. clear IH.
    unfold files_of_type, Py.len. cbn [filter].
    unfold Py.has_key.
    set (k := FileType_value (FileInfo.file_type f)).
    pose proof (FileType_value_eqb (FileInfo.file_type f) ty) as He.
    fold k in He.
    destruct (Py.get d k) as [m|] eqn:Hk.
    + rewrite Hk, get_set, He.
      destruct (FileType_eqb (FileInfo.file_type f) ty) eqn:E.
      * apply String.eqb_eq in He. rewrite <- He, Hk.
        cbn [Datatypes.length]. rewrite Nat2Z.inj_succ. f_equal. lia.
      * reflexivity.
    + rewrite get_set_same, !get_set, He.
      destruct (FileType_eqb (FileInfo.file_type f) ty) eqn:E.
      * apply String.eqb_eq in He. rewrite <- He.
        cbn [Datatypes.length]. rewrite Nat2Z.inj_succ.
        match goal with
        | |- context [Z.succ ?x =? 0] =>
            destruct (Z.succ x =? 0) eqn:Z1; [apply Z.eqb_eq in Z1; lia|]
        end.
        rewrite Hk. f_equal. lia.
      * reflexivity.
Qed.

(** X27. [get_statistics] counts the files by type: [total_files] is the length
    of the list, and [by_type] holds, under the value of a file type, the
    number of files of that type, and no entry for a type without files. *)
Theorem statistics_count_files_by_type
  (self : FileDiscovery.t) (files : list FileInfo.t) :
  let stats := FileDiscovery.get_statistics self files in
  DiscoveryStatistics.total_files stats = Py.len files /\
  (forall file_type,
     Py.get (DiscoveryStatistics.by_type stats) (FileType_value file_type)
     = if files_of_type file_type files =? 0 then None
       else Some (files_of_type file_type files)) /\
  files_of_type PYTHON files + files_of_type JAVASCRIPT files
  + files_of_type TYPESCRIPT files + files_of_type JSX files
  + files_of_type TSX files = DiscoveryStatistics.total_files stats.
Proof.
  cbv zeta. split; [reflexivity|]. split.
  - intros ty. unfold FileDiscovery.get_statistics.
    cbn [DiscoveryStatistics.by_type].
    exact (by_type_counts files Py.empty ty).
  - unfold FileDiscovery.get_statistics.
    cbn [DiscoveryStatistics.total_files].
    unfold files_of_type, Py.len.
    induction files as [|f r IH]; [reflexivity|].
    cbn [filter Datatypes.length].
    destruct (FileInfo.file_type f); cbn [FileType_eqb Datatypes.length];
      lia.
Qed.
